(** * Roadmap Dashboard (app.py): a shallow embedding and its properties

    The program is one Streamlit script.  Every run reads the uploaded
    spreadsheet into a pandas data frame, checks the required columns,
    parses four date columns, derives the [Completed] and [OnTime] flags,
    filters the rows by five multiselect widgets, computes five KPI
    scalars and renders a table, four chart panels and a timeline.

    Modelling choices.
    - A data frame is its list of column labels and its list of rows; a row
      maps column labels to cells.  A series is modelled as a function
      from the row to the cell it holds there; its values down the rows
      of a frame ([column]) are what a library call on the whole column
      is given.
    - [df[c]] raises [KeyError] when the label is absent; the model keeps
      that failure ([getitem] returns [KeyError c]).
    - Strings are byte strings; [str.lower] is modelled on the ASCII
      letters.  No non-ASCII character lowers to a letter of "completed",
      so the comparison with that literal is not affected.
    - Floating point numbers are the kernel's binary64 floats.
    - A run is a function on a world: the file in the upload widget, the
      values of the input widgets and the page drawn so far.  A run ends
      normally, at [st.stop()], or in an uncaught exception, which leaves
      the page as the script has drawn it up to there.  The world also
      records which of the commented sections of app.py the run has
      entered ([marks]); the script itself never reads them.
    - The functions of pandas, Python and plotly whose results the script
      only passes on (reading a file, parsing the dates of a column,
      sorting, summing, number formatting, rounding) are parameters of the
      development, gathered in the class [Library].
    - Library calls can raise on the data of a file that has all its
      columns: [pd.to_datetime] on a column of mixed time zones, [.str] on
      a column without text, [<=] between a column with and one without
      time zone, [sorted] and [sort_values] on values that do not compare,
      [float(sum)] of a text column, [int] of a sum that is not finite,
      [px.scatter] on a missing bubble size, [px.timeline] on start and
      end dates of which one column carries a time zone and the other
      none.  Whether a call raises is the library's answer ([raises], and
      the exception text of [float_sum] and [float_mean]); the script
      catches none of these, so the run ends there.  The grouped sums and
      the bar and line figures, which are given keys that were sorted and
      values that were summed before, are taken to return.
    - The page is the sequence of the script's own [st] calls.  What
      Streamlit itself puts on the page when a run ends in an uncaught
      exception is not part of it. *)

From Stdlib Require Import ZArith PrimFloat Uint63 Ascii String.
From stdpp Require Import base option list gmap strings pretty.

Local Open Scope string_scope.

(** ** Strings: [str.lower] *)

Module Str.

Definition is_upper (c : ascii) : bool :=
  let n := N_of_ascii c in ((65 <=? n) && (n <=? 90))%N.

Definition lower_ascii (c : ascii) : ascii :=
  if is_upper c then ascii_of_N (N_of_ascii c + 32) else c.

Fixpoint lower (s : string) : string :=
  match s with
  | EmptyString => EmptyString
  | String c s' => String (lower_ascii c) (lower s')
  end.

(** [s.lower().endswith(suffix)] *)
Fixpoint endswith (s suffix : string) : bool :=
  if String.eqb s suffix then true
  else match s with
       | EmptyString => false
       | String _ s' => endswith s' suffix
       end.

(** Two characters are the same letter up to case: they are equal, or one is
    an upper-case ASCII letter and the other is its lower-case form. *)
Definition same_char_nocase (a b : ascii) : Prop :=
  a = b
  ∨ (is_upper a = true ∧ N_of_ascii b = (N_of_ascii a + 32)%N)
  ∨ (is_upper b = true ∧ N_of_ascii a = (N_of_ascii b + 32)%N).

(** Case-insensitive equality of strings, character by character. *)
Fixpoint eq_nocase (s t : string) : Prop :=
  match s, t with
  | EmptyString, EmptyString => True
  | String a s', String b t' => same_char_nocase a b ∧ eq_nocase s' t'
  | _, _ => False
  end.

(** A string ends in a suffix up to case: its tail equals the suffix
    case-insensitively. *)
Definition ends_with_nocase (s suffix : string) : Prop :=
  ∃ p t, s = p ++ t ∧ eq_nocase t suffix.

(** Python's [repr] of a list of plain column labels: ['A', 'B']. *)
Fixpoint join (sep : string) (l : list string) : string :=
  match l with
  | [] => ""
  | [x] => x
  | x :: l' => x ++ sep ++ join sep l'
  end.

Definition repr_list (l : list string) : string :=
  "[" ++ join ", " ((fun s => "'" ++ s ++ "'") <$> l) ++ "]".

End Str.

(** ** Cells, rows and frames *)

(** A pandas Timestamp: the instant, in nanoseconds since the epoch, and
    whether it carries a time zone. *)
Record timestamp : Type := Timestamp {
  instant : Z;
  aware : bool
}.

Inductive cell : Type :=
  | CText (s : string)        (* a Python str *)
  | CInt (n : Z)              (* an integer *)
  | CNum (x : float)          (* a float64 that is not NaN-as-missing *)
  | CTime (t : timestamp)     (* a Timestamp *)
  | CBool (b : bool)
  | CNA.                      (* a missing value: NaN, NaT or None *)

(** Equality of two cells, as [isin] and [groupby] compare them: two missing
    values match each other, and values of different kinds differ (a column
    is compared with values taken from the same column). *)
Definition cell_eqb (a b : cell) : bool :=
  match a, b with
  | CText s, CText t => String.eqb s t
  | CInt n, CInt m => Z.eqb n m
  | CNum x, CNum y => PrimFloat.eqb x y
  | CTime t, CTime u => Z.eqb (instant t) (instant u) && Bool.eqb (aware t) (aware u)
  | CBool x, CBool y => Bool.eqb x y
  | CNA, CNA => true
  | _, _ => false
  end.

Definition notna (c : cell) : bool :=
  match c with CNA => false | _ => true end.

Abbreviation row := (gmap string cell).

Record frame : Type := Frame {
  columns : list string;
  rows : list row
}.

(** A series over the frame's index: the cell each row holds. *)
Definition series : Type := row → cell.

(** What an operation on frames gives: a value, or the exception that ends
    it. *)
Inductive result (A : Type) : Type :=
  | Ok (a : A)
  | KeyError (c : string)          (* [df[c]] on an absent label *)
  | LibraryError (e : string).     (* an exception raised inside a library call *)
Arguments Ok {A} a.
Arguments KeyError {A} c.
Arguments LibraryError {A} e.

#[export] Instance result_ret : MRet result := fun A a => Ok a.
#[export] Instance result_bind : MBind result := fun A B f m =>
  match m with
  | Ok a => f a
  | KeyError c => KeyError c
  | LibraryError e => LibraryError e
  end.

(** The cell of a row under a label. *)
Definition cell_at (c : string) : series := fun r => default CNA (r !! c).

(** [df[c]] *)
Definition getitem (df : frame) (c : string) : result series :=
  if decide (c ∈ columns df) then Ok (cell_at c) else KeyError c.

(** The labels after an assignment to [c]: an existing column keeps its
    place, a new one is appended. *)
Definition add_column (c : string) (cols : list string) : list string :=
  if decide (c ∈ cols) then cols else cols ++ [c].

(** [df[c] = s] *)
Definition setitem (c : string) (s : series) (df : frame) : frame :=
  {| columns := add_column c (columns df);
     rows := (fun r => <[c := s r]> r) <$> rows df |}.

(** [df[mask]] for a boolean mask over the index. *)
Definition select (df : frame) (mask : row → bool) : frame :=
  {| columns := columns df; rows := filter (fun r => mask r = true) (rows df) |}.

(** [len(df)] *)
Definition len (df : frame) : nat := length (rows df).

(** [df.empty] *)
Definition empty (df : frame) : bool :=
  match rows df, columns df with
  | [], _ | _, [] => true
  | _, _ => false
  end.

(** ** Element-wise series operations *)

(** [s.str.lower()] on a column that has the [.str] accessor: non-strings
    become missing.  Whether the column has it is asked of the library
    before ([StrAccessor]). *)
Definition str_lower (s : series) : series := fun r =>
  match s r with
  | CText t => CText (Str.lower t)
  | _ => CNA
  end.

(** [s.eq(v)] against a string literal; a missing value compares unequal. *)
Definition eq_str (s : series) (v : string) : series := fun r =>
  match s r with
  | CText t => CBool (String.eqb t v)
  | _ => CBool false
  end.

(** [a <= b] on two datetime columns that compare, which takes that both
    carry a time zone or none does: the instants are compared, and any
    comparison with NaT is False.  Whether the columns compare is asked of
    the library before ([CompareLe]). *)
Definition le_time (a b : series) : series := fun r =>
  match a r, b r with
  | CTime t, CTime u => CBool (instant t <=? instant u)%Z
  | _, _ => CBool false
  end.

Definition truth (c : cell) : bool :=
  match c with CBool b => b | _ => false end.

(** [a & b] on boolean series. *)
Definition and_ (a b : series) : series := fun r =>
  CBool (truth (a r) && truth (b r)).

(** Python's [x in values]: [x] equals one of the values. *)
Definition member (x : cell) (values : list cell) : Prop :=
  ∃ v, v ∈ values ∧ cell_eqb x v = true.

(** [s.isin(values)] *)
Definition isin (s : series) (values : list cell) : row → bool := fun r =>
  existsb (cell_eqb (s r)) values.

(** ** Aggregations *)

Definition float_of_nat (n : nat) : float :=
  PrimFloat.of_uint63 (Uint63.of_Z (Z.of_nat n)).

(** The values of a series down the rows. *)
Definition column (s : series) (rs : list row) : list cell := s <$> rs.

(** [s.count()]: the number of values that are not missing. *)
Definition series_count (s : series) (rs : list row) : nat :=
  length (filter (fun r => notna (s r) = true) rs).

(** [s.notna().any()] *)
Definition any_notna (s : series) (rs : list row) : bool :=
  existsb (fun r => notna (s r)) rs.

(** The number of [True] entries of a boolean series. *)
Definition count_true (s : series) (rs : list row) : nat :=
  length (filter (fun r => truth (s r) = true) rs).

(** [s.mean()] of a boolean series (the script takes it of [OnTime] only):
    the number of [True] over the number of values that are not missing,
    NaN when there is none. *)
Definition bool_mean (s : series) (rs : list row) : float :=
  PrimFloat.div (float_of_nat (count_true s rs)) (float_of_nat (series_count s rs)).

(** [df.dropna(subset=cs)] *)
Definition dropna (cs : list string) (df : frame) : result frame :=
  ss ← mapM (getitem df) cs;
  mret (select df (fun r => forallb (fun s : series => notna (s r)) ss)).

(** The group key of a row. *)
Definition key_of (ss : list series) (r : row) : list cell :=
  (fun s : series => s r) <$> ss.

Fixpoint key_eqb (k1 k2 : list cell) : bool :=
  match k1, k2 with
  | [], [] => true
  | a :: k1', b :: k2' => cell_eqb a b && key_eqb k1' k2'
  | _, _ => false
  end.

(** The distinct keys in order of first appearance. *)
Fixpoint distinct_keys (ks : list (list cell)) : list (list cell) :=
  match ks with
  | [] => []
  | k :: ks' => k :: filter (fun k' => key_eqb k' k = false) (distinct_keys ks')
  end.

(** [df.groupby(keys)]: rows with a missing key are dropped; one group per
    distinct key, each with its rows. *)
Definition groupby (keys : list string) (df : frame)
  : result (list (list cell * list row)) :=
  ss ← mapM (getitem df) keys;
  let rs := filter (fun r => forallb notna (key_of ss r) = true) (rows df) in
  mret ((fun k => (k, filter (fun r => key_eqb (key_of ss r) k = true) rs))
          <$> distinct_keys (key_of ss <$> rs)).

(** The row of an aggregated frame: the key columns and one value column. *)
Definition group_row (keys : list string) (k : list cell) (c : string) (v : cell) : row :=
  <[c := v]> (list_to_map (zip keys k)).

(** ** The uploaded file and the library interface *)

Record upload : Type := Upload {
  name : string;            (* [uploaded.name] *)
  content : string          (* the bytes of the file *)
}.

(** The library calls of the script that can raise on the data of a file
    that has all its columns. *)
Inductive call : Type :=
  | ToDatetime (col : list cell)       (* [pd.to_datetime(col, errors="coerce")] *)
  | StrAccessor (col : list cell)      (* [col.str] *)
  | CompareLe (a b : list cell)        (* [a <= b] on two columns *)
  | Sorted (values : list cell)        (* [sorted(values)] *)
  | IntOf (x : float)                  (* [int(x)] *)
  | SortValues (keys : list string) (data : frame)   (* [data.sort_values(keys)] *)
  | Scatter (data : frame)             (* [px.scatter(data, ..., size="BreakEvenMonths", ...)] *)
  | Timeline (data : frame) (x_start x_end : string).
                                       (* [px.timeline(data, x_start=..., x_end=..., ...)] *)

(** What the script calls and does not define.  [read_csv] and [read_excel]
    return the frame, or the text of the exception they raise.
    [to_datetime col c] is what [pd.to_datetime(col, errors="coerce")]
    makes of the cell [c] of the column [col] when it returns: [None] is
    [NaT], the answer for a value that is no date (in the format the
    column is read in).  [raises] tells whether a call raises, and with
    what text.  [float_sum] and [float_mean] are [float(col.sum())] and
    [float(col.mean())]: the number, or the text of the exception.
    [group_sum] is the sum of one group of a [groupby]. *)
Class Library : Type := {
  read_csv : upload → string + frame;
  read_excel : upload → string + frame;
  to_datetime : list cell → cell → option timestamp;
  raises : call → option string;
  float_sum : list cell → string + float;
  float_mean : list cell → string + float;
  group_sum : list cell → cell;
  sorted : list cell → list cell;
  sort_values : list string → list row → list row;
  py_round : float → Z → float;
  series_round : float → Z → float;
  to_quarter : timestamp → string;
  format_float : string → float → string;
  format_int : string → Z → string;
  int_of_float : float → Z
}.

(** ** The script's own pure steps *)

Definition REQUIRED_COLUMNS : list string :=
  ["Initiative"; "Category"; "Track"; "Quarter"; "PlannedStart"; "PlannedEnd";
   "ActualStart"; "ActualEnd"; "Status"; "Revenue"; "Effort"; "BreakEvenMonths";
   "Module"].

Definition DATE_COLUMNS : list string :=
  ["PlannedStart"; "PlannedEnd"; "ActualStart"; "ActualEnd"].

(** [[c for c in REQUIRED_COLUMNS if c not in df.columns]] *)
Definition missing (df : frame) : list string :=
  filter (fun c => c ∉ columns df) REQUIRED_COLUMNS.

Section Pipeline.
Context `{Lib : Library}.

(** A library call made before its result is used: it goes through, or the
    exception it raises ends the step. *)
Definition library (c : call) : result unit :=
  match raises c with
  | Some e => LibraryError e
  | None => Ok ()
  end.

(** The value a library function returns, or the exception it raises. *)
Definition returned {A} (x : string + A) : result A :=
  match x with
  | inr a => Ok a
  | inl e => LibraryError e
  end.

(** The values of [pd.to_datetime(col, errors="coerce")] when it returns: a
    missing value stays missing, and a value the parser does not accept
    becomes missing. *)
Definition to_datetime_coerce (s : series) (col : list cell) : series := fun r =>
  match s r with
  | CNA => CNA
  | c => match to_datetime col c with
         | Some t => CTime t
         | None => CNA
         end
  end.

(** A cell of a column that holds no date: it is missing, or the parser
    rejects it. *)
Definition not_a_date (col : list cell) (c : cell) : Prop :=
  c = CNA ∨ to_datetime col c = None.

(** [df[c] = pd.to_datetime(df[c], errors="coerce")]: [pd.to_datetime] is
    given the whole column and can raise on it, also under
    [errors="coerce"]. *)
Definition parse_column (df : frame) (c : string) : result frame :=
  s ← getitem df c;
  let col := column s (rows df) in
  library (ToDatetime col);;
  mret (setitem c (to_datetime_coerce s col) df).

(** The loop over the four date columns. *)
Definition parse_dates (df : frame) : result frame :=
  foldl (fun acc c => df ← acc; parse_column df c) (Ok df) DATE_COLUMNS.

(** The two derived columns.  [.str] raises on a column that holds no
    text, [<=] on two columns that do not compare. *)
Definition derive (df : frame) : result frame :=
  status ← getitem df "Status";
  library (StrAccessor (column status (rows df)));;
  let df := setitem "Completed" (eq_str (str_lower status) "completed") df in
  completed ← getitem df "Completed";
  actual_end ← getitem df "ActualEnd";
  planned_end ← getitem df "PlannedEnd";
  library (CompareLe (column actual_end (rows df)) (column planned_end (rows df)));;
  mret (setitem "OnTime" (and_ completed (le_time actual_end planned_end)) df).

(** What the two steps above do to one row of the frame [raw] they are
    given, when they return. *)
Definition parsed_row (raw : frame) (r : row) : row :=
  foldl (fun r c =>
           <[c := to_datetime_coerce (cell_at c) (column (cell_at c) (rows raw)) r]> r)
        r DATE_COLUMNS.

Definition derived_row (r : row) : row :=
  let r := <["Completed" := eq_str (str_lower (cell_at "Status")) "completed" r]> r in
  <["OnTime" := and_ (cell_at "Completed")
                  (le_time (cell_at "ActualEnd") (cell_at "PlannedEnd")) r]> r.

(** The five user selections. *)
Record filters : Type := Filters {
  track_f : list cell;
  cat_f : list cell;
  mod_f : list cell;
  qtr_f : list cell;
  status_f : list cell
}.

(** [if sel: mask &= df[c].isin(sel)] *)
Definition refine_mask (df : frame) (c : string) (sel : list cell)
    (mask : row → bool) : result (row → bool) :=
  match sel with
  | [] => Ok mask
  | _ :: _ => s ← getitem df c; mret (fun r => mask r && isin s sel r)
  end.

(** Whether a row passes one filter: an empty selection lets every row
    through. *)
Definition passes (c : string) (sel : list cell) (r : row) : bool :=
  match sel with
  | [] => true
  | _ :: _ => isin (cell_at c) sel r
  end.

Definition build_mask (df : frame) (f : filters) : result (row → bool) :=
  let mask : row → bool := fun _ => true in
  mask ← refine_mask df "Track" (track_f f) mask;
  mask ← refine_mask df "Category" (cat_f f) mask;
  mask ← refine_mask df "Module" (mod_f f) mask;
  mask ← refine_mask df "Quarter" (qtr_f f) mask;
  refine_mask df "Status" (status_f f) mask.

(** [fdf = df[mask].copy()] *)
Definition apply_filters (df : frame) (f : filters) : result frame :=
  mask ← build_mask df f;
  mret (select df mask).

(** The KPI scalars. *)
Record kpis : Type := Kpis {
  total : nat;
  completed : nat;
  planned_vs_completed : string;
  total_rev : float;
  total_effort : float;
  avg_breakeven : float;
  ontime : option float
}.

Definition compute_kpis (fdf : frame) : result kpis :=
  let total := len fdf in
  s ← getitem fdf "Completed";
  let completed := count_true s (rows fdf) in
  let planned_vs_completed :=
    match total with
    | O => "0/0"
    | S _ => pretty completed ++ "/" ++ pretty total
    end in
  total_rev ← match total with
              | O => Ok 0%float
              | S _ => s ← getitem fdf "Revenue";
                       returned (float_sum (column s (rows fdf)))
              end;
  total_effort ← match total with
                 | O => Ok 0%float
                 | S _ => s ← getitem fdf "Effort";
                          returned (float_sum (column s (rows fdf)))
                 end;
  avg_breakeven ← match total with
                   | O => Ok 0%float
                   | S _ => s ← getitem fdf "BreakEvenMonths";
                            returned (float_mean (column s (rows fdf)))
                   end;
  s ← getitem fdf "OnTime";
  let ontime :=
    if any_notna s (rows fdf)
    then Some (py_round (PrimFloat.mul 100 (bool_mean s (rows fdf))) 1)
    else None in
  mret {| total := total; completed := completed;
          planned_vs_completed := planned_vs_completed;
          total_rev := total_rev; total_effort := total_effort;
          avg_breakeven := avg_breakeven; ontime := ontime |}.

(** The KPI values of a table with no rows. *)
Definition NO_DATA : kpis :=
  {| total := 0; completed := 0; planned_vs_completed := "0/0";
     total_rev := 0%float; total_effort := 0%float; avg_breakeven := 0%float;
     ontime := None |}.

(** The five metric tiles: label and displayed text. *)
Definition metrics (k : kpis) : list (string * string) :=
  [ ("Initiatives Completed / Total", planned_vs_completed k);
    ("Total Revenue Opportunity", "$" ++ format_float ",.1f" (total_rev k) ++ "M");
    ("On-Time Delivery %",
       match ontime k with
       | Some x => format_float "" x ++ "%"
       | None => "N/A"
       end);
    ("Total Effort", format_int "," (int_of_float (total_effort k)));
    ("Avg Break-Even (mo)",
       match total k with
       | O => "N/A"
       | S _ => format_float ".1f" (avg_breakeven k)
       end) ].

End Pipeline.

(** ** What a run shows *)

(** A plotly express call with the arguments the script gives it. *)
Inductive figure : Type :=
  | PxBar (data : frame) (x y : string) (color : option string) (title : string)
  | PxLine (data : frame) (x y : string) (markers : bool) (title : string)
  | PxScatter (data : frame) (x y size color hover_name title : string)
  | PxTimeline (data : frame) (x_start x_end y color : string)
      (hover_data : list string) (yaxis_autorange : string).

(** One Streamlit call. *)
Inductive element : Type :=
  | SetPageConfig (page_title layout : string)
  | Title (body : string)
  | Caption (body : string)
  | Header (body : string)
  | Write (body : string)
  | Markdown (body : string)
  | Subheader (body : string)
  | FileUploader (label : string) (types : list string)
  | Info (body : string)
  | Error (body : string)
  | Multiselect (label : string) (options : list cell)
  | Metric (label value : string)
  | Dataframe (data : frame)
  | PlotlyChart (fig : figure)
  | Radio (label : string) (options : list string).

(** The commented sections of app.py, used to mark how far a run got. *)
Inductive stage : Type :=
  | ReadInput
  | ValidateColumns
  | ParseDates
  | DeriveHelpers
  | ApplyFilters
  | ComputeKPIs
  | RenderTable
  | RenderChart
  | RenderTimeline.

(** The order in which app.py lists its sections. *)
Definition PIPELINE : list stage :=
  [ReadInput; ValidateColumns; ParseDates; DeriveHelpers; ApplyFilters;
   ComputeKPIs; RenderTable; RenderChart; RenderChart; RenderChart; RenderChart;
   RenderTimeline].

(** What a run reads and draws: the file in the upload widget, the current
    values of the input widgets, the page being rendered, and the marks of
    the sections entered so far. *)
Record world : Type := World {
  uploaded : option upload;
  multiselect_value : string → list cell;
  radio_value : string;
  screen : list element;
  marks : list stage
}.

(** How a run ends: normally, at [st.stop()], or with an uncaught
    exception, a [KeyError] of the script's own column lookups or an
    exception raised inside a library call. *)
Inductive outcome (A : Type) : Type :=
  | Done (a : A)
  | Stopped
  | Raised (c : string)
  | Failed (e : string).
Arguments Done {A} a.
Arguments Stopped {A}.
Arguments Raised {A} c.
Arguments Failed {A} e.

Definition script (A : Type) : Type := world → outcome A * world.

#[export] Instance script_ret : MRet script := fun A a w => (Done a, w).
#[export] Instance script_bind : MBind script := fun A B f m w =>
  match m w with
  | (Done a, w') => f a w'
  | (Stopped, w') => (Stopped, w')
  | (Raised c, w') => (Raised c, w')
  | (Failed e, w') => (Failed e, w')
  end.

(** The world with more elements on the page, or more marks. *)
Definition paint (es : list element) (w : world) : world :=
  {| uploaded := uploaded w; multiselect_value := multiselect_value w;
     radio_value := radio_value w;
     screen := screen w ++ es; marks := marks w |}.

Definition note (ss : list stage) (w : world) : world :=
  {| uploaded := uploaded w; multiselect_value := multiselect_value w;
     radio_value := radio_value w;
     screen := screen w; marks := marks w ++ ss |}.

(** Any [st.*] call that draws. *)
Definition st (e : element) : script unit := fun w => (Done (), paint [e] w).

(** Entering a section of the script. *)
Definition enter (s : stage) : script unit := fun w => (Done (), note [s] w).

(** An [st.error] box. *)
Definition is_error (e : element) : bool :=
  match e with
  | Error _ => true
  | _ => false
  end.

(** A drawn figure. *)
Definition is_chart (e : element) : bool :=
  match e with
  | PlotlyChart _ => true
  | _ => false
  end.

(** A chart panel shows a figure or a notice. *)
Definition is_panel (e : element) : bool :=
  match e with
  | PlotlyChart _ | Info _ => true
  | _ => false
  end.

(** [st.stop()] *)
Definition stop {A} : script A := fun w => (Stopped, w).

(** A frame operation or library call inside the script; its exception is
    not caught. *)
Definition lift {A} (m : result A) : script A := fun w =>
  match m with
  | Ok a => (Done a, w)
  | KeyError c => (Raised c, w)
  | LibraryError e => (Failed e, w)
  end.

(** A sequence of [st.*] calls. *)
Definition draw (es : list element) : script unit :=
  foldr (fun e rest => st e;; rest) (mret ()) es.

(** [st.file_uploader(label, type=types)] *)
Definition file_uploader (label : string) (types : list string)
  : script (option upload) := fun w =>
  match st (FileUploader label types) w with
  | (_, w') => (Done (uploaded w), w')
  end.

(** [st.multiselect(label, options)] *)
Definition multiselect (label : string) (options : list cell)
  : script (list cell) := fun w =>
  match st (Multiselect label options) w with
  | (_, w') => (Done (multiselect_value w label), w')
  end.

(** [st.radio(label, options)] *)
Definition radio (label : string) (options : list string) : script string := fun w =>
  match st (Radio label options) w with
  | (_, w') => (Done (radio_value w), w')
  end.

(** ** The chart data *)

Section Charts.
Context `{Lib : Library}.

(** [s.dropna().unique().tolist()], in order of first appearance. *)
Fixpoint unique (l : list cell) : list cell :=
  match l with
  | [] => []
  | c :: l' => c :: filter (fun c' => cell_eqb c' c = false) (unique l')
  end.

(** [sorted(df[c].dropna().unique().tolist())]; [sorted] raises on values
    that do not compare with each other. *)
Definition options (df : frame) (c : string) : result (list cell) :=
  s ← getitem df c;
  let values := unique (filter (fun v => notna v = true) (column s (rows df))) in
  library (Sorted values);;
  mret (sorted values).

(** [fdf.groupby(keys, as_index=False)[c].agg()]: one row per group, in the
    order of the keys. *)
Definition aggregate (keys : list string) (c : string)
    (agg : list row → cell) (gs : list (list cell * list row)) : frame :=
  {| columns := keys ++ [c];
     rows := sort_values keys
               ((fun g : list cell * list row => group_row keys g.1 c (agg g.2)) <$> gs) |}.

(** [fdf.groupby(["Quarter","Track"], as_index=False)["Revenue"].sum()] *)
Definition revenue_by_quarter (fdf : frame) : result frame :=
  gs ← groupby ["Quarter"; "Track"] fdf;
  s ← getitem fdf "Revenue";
  mret (aggregate ["Quarter"; "Track"] "Revenue" (fun rs => group_sum (column s rs)) gs).

(** [s.dt.to_period("Q").astype(str)] *)
Definition quarter_key (s : series) : series := fun r =>
  match s r with
  | CTime t => CText (to_quarter t)
  | _ => CText "NaT"
  end.

(** [(s * 100).round(1)] *)
Definition percent (s : series) : series := fun r =>
  match s r with
  | CNum x => CNum (series_round (PrimFloat.mul x 100) 1)
  | _ => CNA
  end.

(** The on-time trend of a frame whose [PlannedEnd] is never missing. *)
Definition ontime_trend (tmp : frame) : result frame :=
  s ← getitem tmp "PlannedEnd";
  let tmp := setitem "QKey" (quarter_key s) tmp in
  gs ← groupby ["QKey"] tmp;
  s ← getitem tmp "OnTime";
  let trend := aggregate ["QKey"] "OnTime" (fun rs => CNum (bool_mean s rs)) gs in
  s ← getitem trend "OnTime";
  mret (setitem "OnTimePct" (percent s) trend).

(** [fdf[fdf["Completed"]].groupby("Category", as_index=False).size()] *)
Definition completed_by_category (fdf : frame) : result frame :=
  s ← getitem fdf "Completed";
  gs ← groupby ["Category"] (select fdf (fun r => truth (s r)));
  mret (aggregate ["Category"] "size" (fun rs => CInt (Z.of_nat (length rs))) gs).

End Charts.

(** ** The script *)

Section App.
Context `{Lib : Library}.

Definition HELP : string :=
"
    1. Prepare your Excel/CSV with these columns:
    - Initiative, Category (Enhancement/New Feature/Algorithm/Feature), Track (AI/Automation or DDE), Module
    - Quarter (e.g., 2025-Q3)
    - PlannedStart, PlannedEnd, ActualStart, ActualEnd (YYYY-MM-DD)
    - Status (Planned/In Progress/Completed/Delayed/Blocked)
    - Revenue (numeric), Effort (hours or person-days), BreakEvenMonths (numeric)
    2. Upload file → dashboard updates automatically.
    ".

(** The page header, the sidebar and the upload widget, drawn before
    anything is read. *)
Definition PREAMBLE : list element :=
  [ SetPageConfig "Roadmap Dashboard" "wide";
    Title "📊 Product Roadmap Dashboard (Internal)";
    Caption "Upload Excel/CSV → auto KPIs + charts";
    Header "How to use";
    Write HELP;
    Markdown "**Template columns** are listed above." ].

Definition preamble : script unit := draw PREAMBLE.

(** The [try] block: the reader is chosen by the file name; any exception
    is reported and the run stops. *)
Definition read (f : upload) : string + frame :=
  if Str.endswith (Str.lower (name f)) ".csv" then read_csv f else read_excel f.

Definition read_input (f : upload) : script frame :=
  match read f with
  | inr df => mret df
  | inl e => st (Error ("Could not read file: " ++ e));; stop
  end.

Definition validate_columns (df : frame) : script unit :=
  match missing df with
  | [] => mret ()
  | m => st (Error ("Your file is missing required columns: " ++ Str.repr_list m));;
         stop
  end.

(** One multiselect of the filter expander. *)
Definition filter_widget (df : frame) (c : string) : script (list cell) :=
  o ← lift (options df c);
  multiselect c o.

Definition filter_widgets (df : frame) : script filters :=
  track_f ← filter_widget df "Track";
  cat_f ← filter_widget df "Category";
  mod_f ← filter_widget df "Module";
  qtr_f ← filter_widget df "Quarter";
  status_f ← filter_widget df "Status";
  mret {| track_f := track_f; cat_f := cat_f; mod_f := mod_f;
          qtr_f := qtr_f; status_f := status_f |}.

Definition metric_tiles (k : kpis) : list element :=
  (fun m => Metric m.1 m.2) <$> metrics k.

(** The tiles are drawn one after the other.  The text of the fourth takes
    [int(total_effort)], which raises on a sum that is not finite; the
    first three tiles are on the page by then. *)
Definition show_metrics (k : kpis) : script unit :=
  draw (take 3 (metric_tiles k));;
  lift (library (IntOf (total_effort k)));;
  draw (drop 3 (metric_tiles k)).

(** [fdf.sort_values(["Quarter","Status","Initiative"]).reset_index(drop=True)] *)
Definition table (fdf : frame) : frame :=
  {| columns := columns fdf;
     rows := sort_values ["Quarter"; "Status"; "Initiative"] (rows fdf) |}.

(** [sort_values] raises on a key column whose values do not compare. *)
Definition show_table (fdf : frame) : script unit :=
  st (Subheader "📋 Initiatives");;
  lift (library (SortValues ["Quarter"; "Status"; "Initiative"] fdf));;
  st (Dataframe (table fdf)).

(** A chart panel: the figure, or a notice when its data is empty. *)
Definition panel (data : frame) (fig : figure) (notice : string) : script unit :=
  if empty data then st (Info notice) else st (PlotlyChart fig).

Definition revenue_chart (fdf : frame) : script unit :=
  rev ← lift (revenue_by_quarter fdf);
  panel rev
    (PxBar rev "Quarter" "Revenue" (Some "Track")
       "Revenue Opportunity by Quarter (stacked)")
    "Revenue chart: no data after filters.".

Definition trend_chart (fdf : frame) : script unit :=
  tmp ← lift (dropna ["PlannedEnd"] fdf);
  if empty tmp then st (Info "On-time trend: need PlannedEnd dates.")
  else
    trend ← lift (ontime_trend tmp);
    st (PlotlyChart (PxLine trend "QKey" "OnTimePct" true "On-Time Delivery Trend (%)")).

Definition category_chart (fdf : frame) : script unit :=
  comp ← lift (completed_by_category fdf);
  panel comp
    (PxBar comp "Category" "size" None "Initiatives Completed by Category")
    "Completed-by-Category chart: no completed items after filters.".

(** [px.scatter] is called only on data with rows; it raises on a bubble
    size that is missing. *)
Definition bubble_chart (fdf : frame) : script unit :=
  bub ← lift (dropna ["Effort"; "Revenue"] fdf);
  if empty bub then st (Info "Effort vs Revenue: need Effort & Revenue values.")
  else
    lift (library (Scatter bub));;
    st (PlotlyChart
          (PxScatter bub "Effort" "Revenue" "BreakEvenMonths" "Category" "Initiative"
             "Effort vs Revenue (bubble = BreakEven months)")).

(** [px.timeline] is called only on data with rows; it subtracts the start
    dates from the end dates, which raises when one of the two columns
    carries a time zone and the other none. *)
Definition timeline (fdf : frame) : script unit :=
  st (Subheader "🗓️ Timeline (Gantt)");;
  opt ← radio "Show timeline for:" ["Planned"; "Actual"];
  if String.eqb opt "Planned" then
    tl ← lift (dropna ["PlannedStart"; "PlannedEnd"] fdf);
    if empty tl then st (Info "No Planned dates available for timeline.")
    else
      lift (library (Timeline tl "PlannedStart" "PlannedEnd"));;
      st (PlotlyChart
            (PxTimeline tl "PlannedStart" "PlannedEnd" "Initiative" "Status"
               ["Quarter"; "Category"; "Track"] "reversed"))
  else
    tl ← lift (dropna ["ActualStart"; "ActualEnd"] fdf);
    if empty tl then st (Info "No Actual dates available for timeline.")
    else
      lift (library (Timeline tl "ActualStart" "ActualEnd"));;
      st (PlotlyChart
            (PxTimeline tl "ActualStart" "ActualEnd" "Initiative" "Status"
               ["Quarter"; "Category"; "Track"] "reversed")).

(** The module-level variables a complete run leaves behind. *)
Record session : Type := Session {
  df : frame;
  selection : filters;
  fdf : frame;
  kpi : kpis
}.

Definition UPLOAD_FIRST : string :=
  "Upload a CSV/XLSX to continue. You can start from the sample included in the repo.".

Definition TIP : string :=
  "Tip: Use the Filters section to slice by Track (AI/Automation vs DDE), Category, Module, Quarter or Status.".

(** app.py, top to bottom. *)
Definition app : script session :=
  preamble;;
  uploaded ← file_uploader "Upload roadmap file (CSV or XLSX)" ["csv"; "xlsx"];
  match uploaded with
  | None =>
      st (Info UPLOAD_FIRST);;
      stop
  | Some f =>
      enter ReadInput;;
      df ← read_input f;
      enter ValidateColumns;;
      validate_columns df;;
      enter ParseDates;;
      df ← lift (parse_dates df);
      enter DeriveHelpers;;
      df ← lift (derive df);
      enter ApplyFilters;;
      sel ← filter_widgets df;
      fdf ← lift (apply_filters df sel);
      enter ComputeKPIs;;
      k ← lift (compute_kpis fdf);
      show_metrics k;;
      enter RenderTable;;
      show_table fdf;;
      enter RenderChart;;
      revenue_chart fdf;;
      enter RenderChart;;
      trend_chart fdf;;
      enter RenderChart;;
      category_chart fdf;;
      enter RenderChart;;
      bubble_chart fdf;;
      enter RenderTimeline;;
      timeline fdf;;
      st (Caption TIP);;
      mret {| df := df; selection := sel; fdf := fdf; kpi := k |}
  end.

(** The page up to the point where the file is read. *)
Definition PAGE_TOP : list element :=
  (PREAMBLE ++ [FileUploader "Upload roadmap file (CSV or XLSX)" ["csv"; "xlsx"]])%list.

(** What a panel holds: the figure of its data, or its notice when the
    data is empty. *)
Definition panel_of (data : frame) (fig : figure) (notice : string) : element :=
  if empty data then Info notice else PlotlyChart fig.

(** The element of each panel, from the filtered table.  The bubble chart
    and the timeline are on the page only when [px.scatter] and
    [px.timeline] did not raise on their data. *)
Definition revenue_panel (fdf : frame) (e : element) : Prop :=
  ∃ rev, revenue_by_quarter fdf = Ok rev
    ∧ e = panel_of rev
            (PxBar rev "Quarter" "Revenue" (Some "Track")
               "Revenue Opportunity by Quarter (stacked)")
            "Revenue chart: no data after filters.".

Definition trend_panel (fdf : frame) (e : element) : Prop :=
  ∃ tmp, dropna ["PlannedEnd"] fdf = Ok tmp
    ∧ if empty tmp then e = Info "On-time trend: need PlannedEnd dates."
      else ∃ trend, ontime_trend tmp = Ok trend
             ∧ e = PlotlyChart (PxLine trend "QKey" "OnTimePct" true
                                  "On-Time Delivery Trend (%)").

Definition category_panel (fdf : frame) (e : element) : Prop :=
  ∃ comp, completed_by_category fdf = Ok comp
    ∧ e = panel_of comp
            (PxBar comp "Category" "size" None "Initiatives Completed by Category")
            "Completed-by-Category chart: no completed items after filters.".

Definition bubble_panel (fdf : frame) (e : element) : Prop :=
  ∃ bub, dropna ["Effort"; "Revenue"] fdf = Ok bub
    ∧ (empty bub = false → raises (Scatter bub) = None)
    ∧ e = panel_of bub
            (PxScatter bub "Effort" "Revenue" "BreakEvenMonths" "Category" "Initiative"
               "Effort vs Revenue (bubble = BreakEven months)")
            "Effort vs Revenue: need Effort & Revenue values.".

Definition timeline_panel (opt : string) (fdf : frame) (e : element) : Prop :=
  if String.eqb opt "Planned" then
    ∃ tl, dropna ["PlannedStart"; "PlannedEnd"] fdf = Ok tl
      ∧ (empty tl = false → raises (Timeline tl "PlannedStart" "PlannedEnd") = None)
      ∧ e = panel_of tl
              (PxTimeline tl "PlannedStart" "PlannedEnd" "Initiative" "Status"
                 ["Quarter"; "Category"; "Track"] "reversed")
              "No Planned dates available for timeline."
  else
    ∃ tl, dropna ["ActualStart"; "ActualEnd"] fdf = Ok tl
      ∧ (empty tl = false → raises (Timeline tl "ActualStart" "ActualEnd") = None)
      ∧ e = panel_of tl
              (PxTimeline tl "ActualStart" "ActualEnd" "Initiative" "Status"
                 ["Quarter"; "Category"; "Track"] "reversed")
              "No Actual dates available for timeline.".

(** The page of a complete run, element by element: the five filters with
    the values of their columns in the derived table, the five metric
    tiles, the sorted table, the four chart panels and the timeline with
    its toggle, each from the filtered table, and the closing tip. *)
Definition page_layout (opt : string) (df fdf : frame) (k : kpis)
    (es : list element) : Prop :=
  ∃ o1 o2 o3 o4 o5 c1 c2 c3 c4 tl,
    options df "Track" = Ok o1 ∧ options df "Category" = Ok o2
    ∧ options df "Module" = Ok o3 ∧ options df "Quarter" = Ok o4
    ∧ options df "Status" = Ok o5
    ∧ revenue_panel fdf c1 ∧ trend_panel fdf c2 ∧ category_panel fdf c3
    ∧ bubble_panel fdf c4 ∧ timeline_panel opt fdf tl
    ∧ es = (PAGE_TOP
            ++ [Multiselect "Track" o1; Multiselect "Category" o2;
                Multiselect "Module" o3; Multiselect "Quarter" o4;
                Multiselect "Status" o5]
            ++ metric_tiles k
            ++ [Subheader "📋 Initiatives"; Dataframe (table fdf)]
            ++ [c1; c2; c3; c4]
            ++ [Subheader "🗓️ Timeline (Gantt)";
                Radio "Show timeline for:" ["Planned"; "Actual"]; tl;
                Caption TIP])%list.

(** What the five multiselects hold. *)
Definition chosen (w : world) : filters :=
  {| track_f := multiselect_value w "Track";
     cat_f := multiselect_value w "Category";
     mod_f := multiselect_value w "Module";
     qtr_f := multiselect_value w "Quarter";
     status_f := multiselect_value w "Status" |}.

(** A run starts with an empty page and no marks. *)
Definition fresh (w : world) : world :=
  {| uploaded := uploaded w; multiselect_value := multiselect_value w;
     radio_value := radio_value w;
     screen := []; marks := [] |}.

Definition run (w : world) : outcome session * world := app (fresh w).

End App.

(** ** A small stand-in library, to run the script on examples

    It reads comma-separated text without quoting, takes a blank field as
    missing and a field of digits as an integer, reads a date written
    YYYY-MM-DD as the number yyyymmdd (the script only compares dates),
    with a time zone when a Z follows, and leaves orders and numbers as
    they are.  It raises where pandas and plotly do on such files: a date
    column that mixes dates with and without time zone, [.str] on a
    column with rows and no text, [<=] between a column with and one
    without time zone, a sum or mean over a column with text, [int] of a
    number that is not finite, a bubble chart with a missing size, a
    timeline whose start dates carry a time zone and whose end dates carry
    none, or the other way round. *)

Module Demo.

Fixpoint split (sep : ascii) (s : string) : list string :=
  match s with
  | EmptyString => [""]
  | String c s' =>
      if Ascii.eqb c sep then "" :: split sep s'
      else match split sep s' with
           | [] => [String c ""]
           | f :: fs => String c f :: fs
           end
  end.

Definition digit (c : ascii) : option Z :=
  let n := Z.of_N (N_of_ascii c) in
  if ((48 <=? n) && (n <=? 57))%Z then Some (n - 48)%Z else None.

Fixpoint number_from (acc : Z) (s : string) : option Z :=
  match s with
  | EmptyString => Some acc
  | String c s' =>
      match digit c with
      | Some d => number_from (10 * acc + d) s'
      | None => None
      end
  end.

Definition number (s : string) : option Z :=
  match s with
  | EmptyString => None
  | _ => number_from 0 s
  end.

Definition field (s : string) : cell :=
  match s with
  | EmptyString => CNA
  | _ => match number s with
         | Some n => CInt n
         | None => CText s
         end
  end.

Definition newline : ascii := "010"%char.

Definition csv_reader (f : upload) : string + frame :=
  match filter (fun l => l ≠ "") (split newline (content f)) with
  | [] => inl "No columns to parse from file"
  | h :: ls =>
      let cols := split "," h in
      inr {| columns := cols;
             rows := (fun l => list_to_map (zip cols (field <$> split "," l))) <$> ls |}
  end.

Definition excel_reader (f : upload) : string + frame :=
  inl "File is not a zip file".

(** A day written with two digits, and whether a Z follows it. *)
Definition day_of (d : string) : option (Z * bool) :=
  match d with
  | String a (String b "") => n ← number d; Some (n, false)
  | String a (String b "Z") => n ← number (String a (String b "")); Some (n, true)
  | _ => None
  end.

Definition date_of (c : cell) : option timestamp :=
  match c with
  | CTime t => Some t
  | CText s =>
      match split "-" s with
      | [y; m; d] =>
          if ((String.length y =? 4) && (String.length m =? 2))%nat
          then
            y ← number y; m ← number m; dz ← day_of d;
            Some {| instant := (y * 10000 + m * 100 + dz.1)%Z; aware := dz.2 |}
          else None
      | _ => None
      end
  | _ => None
  end.

(** Whether a column of cells holds a date with, or without, time zone. *)
Definition has_zone (z : bool) (col : list cell) : bool :=
  existsb (fun c => match date_of c with
                    | Some t => Bool.eqb (aware t) z
                    | None => false
                    end) col.

Definition float_of_Z (n : Z) : float :=
  if (n <? 0)%Z
  then PrimFloat.opp (PrimFloat.of_uint63 (Uint63.of_Z (- n)))
  else PrimFloat.of_uint63 (Uint63.of_Z n).

(** The number in a cell, if there is one. *)
Definition value (c : cell) : option float :=
  match c with
  | CNum x => Some x
  | CInt n => Some (float_of_Z n)
  | CBool b => Some (if b then 1%float else 0%float)
  | _ => None
  end.

Definition is_text (c : cell) : bool :=
  match c with
  | CText _ => true
  | _ => false
  end.

(** The numbers of a column, added from the first on. *)
Definition total_of (col : list cell) : float :=
  fold_left (fun acc c => match value c with
                          | Some x => PrimFloat.add acc x
                          | None => acc
                          end) col 0%float.

Definition sum_of (col : list cell) : string + float :=
  if existsb is_text col then inl "could not convert string to float"
  else inr (total_of col).

Definition mean_of (col : list cell) : string + float :=
  if existsb is_text col then inl "Could not convert string to numeric"
  else inr (PrimFloat.div (total_of col)
              (float_of_nat (length (filter (fun c => notna c = true) col)))).

(** The calls this library raises on. *)
Definition complaint (c : call) : option string :=
  match c with
  | ToDatetime col =>
      if has_zone true col && has_zone false col
      then Some "Mixed timezones detected"
      else None
  | CompareLe a b =>
      if (has_zone true a && has_zone false b) || (has_zone false a && has_zone true b)
      then Some "Cannot compare tz-naive and tz-aware datetime-like objects"
      else None
  | StrAccessor col =>
      match col with
      | [] => None
      | _ :: _ => if existsb is_text col then None
                  else Some "Can only use .str accessor with string values!"
      end
  | IntOf x =>
      if PrimFloat.is_infinity x || PrimFloat.is_nan x
      then Some "cannot convert float to integer"
      else None
  | Scatter data =>
      if forallb (fun r => notna (cell_at "BreakEvenMonths" r)) (rows data) then None
      else Some "Invalid element(s) received for the 'size' property of scatter.marker"
  | Timeline data x_start x_end =>
      let a := column (cell_at x_start) (rows data) in
      let b := column (cell_at x_end) (rows data) in
      if (has_zone true a && has_zone false b) || (has_zone false a && has_zone true b)
      then Some "Cannot subtract tz-naive and tz-aware datetime-like objects"
      else None
  | _ => None
  end.

#[export] Instance library : Library := {|
  read_csv := csv_reader;
  read_excel := excel_reader;
  to_datetime := fun _ => date_of;
  raises := complaint;
  float_sum := sum_of;
  float_mean := mean_of;
  group_sum := fun col => CNum (total_of col);
  sorted := fun l => l;
  sort_values := fun _ rs => rs;
  py_round := fun x _ => x;
  series_round := fun x _ => x;
  to_quarter := fun t =>
    pretty (instant t / 10000)%Z ++ "Q"
    ++ pretty (((instant t / 100) `mod` 100 + 2) / 3)%Z;
  format_float := fun _ _ => "#";
  format_int := fun _ n => pretty n;
  int_of_float := fun _ => 0%Z
|}.

Definition HEADER : string :=
  "Initiative,Category,Track,Quarter,PlannedStart,PlannedEnd,ActualStart,ActualEnd,Status,Revenue,Effort,BreakEvenMonths,Module".

Definition line (l : string) : string := l ++ String newline "".

(** A roadmap of three initiatives: one finished early, one finished late,
    one finished with no recorded end date. *)
Definition roadmap_csv : upload :=
  {| name := "Roadmap.CSV";
     content :=
       line HEADER ++
       line "Search,Feature,AI,2025-Q1,2025-01-01,2025-03-31,2025-01-05,2025-03-20,Completed,10,5,6,Core" ++
       line "Billing,Enhancement,DDE,2025-Q2,2025-04-01,2025-06-30,2025-04-01,2025-07-15,COMPLETED,20,8,12,Pay" ++
       line "Export,Feature,AI,2025-Q2,2025-04-01,2025-06-30,2025-04-02,,completed,5,3,4,Core" |}.

(** The same file without its Status column. *)
Definition no_status_csv : upload :=
  {| name := "roadmap.csv";
     content :=
       line "Initiative,Category,Track,Quarter,PlannedStart,PlannedEnd,ActualStart,ActualEnd,Revenue,Effort,BreakEvenMonths,Module" ++
       line "Search,Feature,AI,2025-Q1,2025-01-01,2025-03-31,2025-01-05,2025-03-20,10,5,6,Core" |}.

(** A header and no data. *)
Definition header_only_csv : upload :=
  {| name := "empty.csv"; content := line HEADER |}.

(** A roadmap whose first initiative has a planned end that is not a date. *)
Definition bad_date_csv : upload :=
  {| name := "dates.csv";
     content :=
       line HEADER ++
       line "Search,Feature,AI,2025-Q1,2025-01-01,end of March,2025-01-05,2025-03-20,Completed,10,5,6,Core" ++
       line "Billing,Enhancement,DDE,2025-Q2,2025-04-01,2025-06-30,2025-04-01,2025-06-15,Completed,20,8,12,Pay" |}.

(** The roadmap with no status filled in. *)
Definition blank_status_csv : upload :=
  {| name := "blank.csv";
     content :=
       line HEADER ++
       line "Search,Feature,AI,2025-Q1,2025-01-01,2025-03-31,2025-01-05,2025-03-20,,10,5,6,Core" ++
       line "Billing,Enhancement,DDE,2025-Q2,2025-04-01,2025-06-30,2025-04-01,2025-07-15,,20,8,12,Pay" |}.

(** A roadmap whose actual dates carry a time zone and whose planned dates
    carry none. *)
Definition zoned_actual_csv : upload :=
  {| name := "zoned.csv";
     content :=
       line HEADER ++
       line "Search,Feature,AI,2025-Q1,2025-01-01,2025-03-31,2025-01-05Z,2025-03-20Z,Completed,10,5,6,Core" ++
       line "Billing,Enhancement,DDE,2025-Q2,2025-04-01,2025-06-30,2025-04-01Z,2025-07-15Z,Planned,20,8,12,Pay" |}.

(** A roadmap whose planned start dates carry a time zone and whose other
    dates carry none. *)
Definition zoned_start_csv : upload :=
  {| name := "start.csv";
     content :=
       line HEADER ++
       line "Search,Feature,AI,2025-Q1,2025-01-01Z,2025-03-31,2025-01-05,2025-03-20,Completed,10,5,6,Core" ++
       line "Billing,Enhancement,DDE,2025-Q2,2025-04-01Z,2025-06-30,2025-04-01,2025-07-15,Planned,20,8,12,Pay" |}.

(** A roadmap whose planned end dates mix dates with and without time
    zone. *)
Definition mixed_zone_csv : upload :=
  {| name := "mixed.csv";
     content :=
       line HEADER ++
       line "Search,Feature,AI,2025-Q1,2025-01-01,2025-03-31Z,2025-01-05,2025-03-20,Completed,10,5,6,Core" ++
       line "Billing,Enhancement,DDE,2025-Q2,2025-04-01,2025-06-30,2025-04-01,2025-07-15,Planned,20,8,12,Pay" |}.

(** A roadmap whose first initiative has a revenue that is no number. *)
Definition text_revenue_csv : upload :=
  {| name := "revenue.csv";
     content :=
       line HEADER ++
       line "Search,Feature,AI,2025-Q1,2025-01-01,2025-03-31,2025-01-05,2025-03-20,Completed,ten,5,6,Core" ++
       line "Billing,Enhancement,DDE,2025-Q2,2025-04-01,2025-06-30,2025-04-01,2025-07-15,Planned,20,8,12,Pay" |}.

(** A roadmap whose second initiative has no break-even months. *)
Definition no_breakeven_csv : upload :=
  {| name := "breakeven.csv";
     content :=
       line HEADER ++
       line "Search,Feature,AI,2025-Q1,2025-01-01,2025-03-31,2025-01-05,2025-03-20,Completed,10,5,6,Core" ++
       line "Billing,Enhancement,DDE,2025-Q2,2025-04-01,2025-06-30,2025-04-01,2025-07-15,Planned,20,8,,Pay" |}.

(** A file that neither reader accepts. *)
Definition broken_csv : upload := {| name := "Broken.CSV"; content := "" |}.
Definition broken_xlsx : upload := {| name := "broken.xlsx"; content := "not a workbook" |}.

(** The frames the reader makes of the sample files. *)
Definition frame_of (f : upload) : frame :=
  match csv_reader f with
  | inr df => df
  | inl _ => {| columns := []; rows := [] |}
  end.

(** The table of a validated file from which the filters removed every row. *)
Definition empty_table : frame :=
  {| columns := (REQUIRED_COLUMNS ++ ["Completed"; "OnTime"])%list; rows := [] |}.

(** The track filter set to AI, the other four left empty. *)
Definition only_ai : filters :=
  {| track_f := [CText "AI"]; cat_f := []; mod_f := []; qtr_f := []; status_f := [] |}.

(** A session with the given upload, nothing selected in the filters and
    the radio on its first option. *)
Definition session_with (f : option upload) : world :=
  {| uploaded := f; multiselect_value := fun _ => []; radio_value := "Planned";
     screen := []; marks := [] |}.

(** The same session with the track filter set to AI and the radio on its
    second option. *)
Definition session_ai (f : option upload) : world :=
  {| uploaded := f;
     multiselect_value := fun label => if String.eqb label "Track" then [CText "AI"] else [];
     radio_value := "Actual";
     screen := []; marks := [] |}.

End Demo.

(** ** Notions for the properties of whole runs and of the panels *)

Section Notions.
Context `{Lib : Library}.

(** The upload widget holds a file that is read without error and has all
    the required columns. *)
Definition accepted (w : world) : Prop :=
  ∃ f raw, uploaded w = Some f ∧ read f = inr raw ∧ missing raw = [].

End Notions.

(** A step of the script that draws one element and goes on. *)
Definition shows (m : script unit) (e : element) : Prop :=
  ∀ w, m w = (Done (), paint [e] w).

(** The fields the five multiselects filter on. *)
Definition FILTER_COLUMNS : list string :=
  ["Track"; "Category"; "Module"; "Quarter"; "Status"].

(** The selection of a filter field. *)
Definition selected (f : filters) (c : string) : list cell :=
  if String.eqb c "Track" then track_f f
  else if String.eqb c "Category" then cat_f f
  else if String.eqb c "Module" then mod_f f
  else if String.eqb c "Quarter" then qtr_f f
  else if String.eqb c "Status" then status_f f
  else [].

(** A row with a value under each of the labels. *)
Definition has_all (cs : list string) (r : row) : bool :=
  forallb (fun c => notna (cell_at c r)) cs.

(** The table derived from a sample file. *)
Definition table_of (f : upload) : frame :=
  match parse_dates (Lib := Demo.library) (Demo.frame_of f)
        ≫= derive (Lib := Demo.library) with
  | Ok d => d
  | _ => {| columns := []; rows := [] |}
  end.

Definition roadmap_table : frame := table_of Demo.roadmap_csv.

(** The session a run leaves behind when it ends normally. *)
Definition finished (r : outcome session * world) : session :=
  match r.1 with
  | Done s => s
  | _ => {| df := {| columns := []; rows := [] |};
            selection := {| track_f := []; cat_f := []; mod_f := []; qtr_f := [];
                            status_f := [] |};
            fdf := {| columns := []; rows := [] |};
            kpi := NO_DATA |}
  end.

(** What a step does from a world: it returns, and then [Q] holds of its
    value and its world, or a library call in it raises, and then [F]
    holds of the world it leaves.  It neither stops the run nor looks up
    an absent column. *)
Definition wp {A} (m : script A) (w : world)
    (Q : A → world → Prop) (F : world → Prop) : Prop :=
  match m w with
  | (Done a, w') => Q a w'
  | (Failed _, w') => F w'
  | (Stopped, _) | (Raised _, _) => False
  end.

(** The page of [w'] is the page of [w] and more elements, none of them an
    error box. *)
Definition extends (w w' : world) : Prop :=
  ∃ es, screen w' = (screen w ++ es)%list ∧ Forall (fun e => is_error e = false) es.

(** A second stand-in library, whose readers reject every file. *)
Definition offline_library : Library :=
  {| read_csv := fun _ => inl "offline";
     read_excel := fun _ => inl "offline";
     to_datetime := fun _ _ => None;
     raises := fun _ => None;
     float_sum := fun _ => inl "offline";
     float_mean := fun _ => inl "offline";
     group_sum := fun _ => CNA;
     sorted := fun l => l;
     sort_values := fun _ rs => rs;
     py_round := fun x _ => x;
     series_round := fun x _ => x;
     to_quarter := fun _ => "";
     format_float := fun _ _ => "";
     format_int := fun _ _ => "";
     int_of_float := fun _ => 0%Z |}.

(** * Properties *)

(** ** Case-insensitive comparison *)

Module StrFacts.
Import Str.

Lemma upper_bounds c :
  is_upper c = true ↔ (65 <= N_of_ascii c <= 90)%N.
Proof.
  unfold is_upper. rewrite andb_true_iff, !N.leb_le. tauto.
Qed.

Lemma lower_ascii_upper c :
  is_upper c = true → N_of_ascii (lower_ascii c) = (N_of_ascii c + 32)%N.
Proof.
  intros Hu. unfold lower_ascii. rewrite Hu.
  apply N_ascii_embedding. apply upper_bounds in Hu. lia.
Qed.

Lemma lower_ascii_other c : is_upper c = false → lower_ascii c = c.
Proof. intros Hu. unfold lower_ascii. by rewrite Hu. Qed.

Lemma N_of_ascii_inj a b : N_of_ascii a = N_of_ascii b → a = b.
Proof.
  intros E. rewrite <- (ascii_N_embedding a), <- (ascii_N_embedding b).
  by rewrite E.
Qed.

Lemma same_char_lower a b :
  same_char_nocase a b ↔ lower_ascii a = lower_ascii b.
Proof.
  split.
  - intros [-> | [[Ha Hb] | [Hb Ha]]]; [done | |].
    + apply N_of_ascii_inj. rewrite lower_ascii_upper by done.
      rewrite lower_ascii_other; [done |].
      apply upper_bounds in Ha. apply not_true_is_false.
      rewrite upper_bounds. lia.
    + apply N_of_ascii_inj. rewrite (lower_ascii_upper b) by done.
      rewrite lower_ascii_other; [done |].
      apply upper_bounds in Hb. apply not_true_is_false.
      rewrite upper_bounds. lia.
  - intros E. apply (f_equal N_of_ascii) in E.
    destruct (is_upper a) eqn:Ha, (is_upper b) eqn:Hb.
    + rewrite !lower_ascii_upper in E by done.
      left. apply N_of_ascii_inj. lia.
    + rewrite lower_ascii_upper, lower_ascii_other in E by done.
      right; left. split; [done | lia].
    + rewrite lower_ascii_other, lower_ascii_upper in E by done.
      right; right. split; [done | lia].
    + rewrite !lower_ascii_other in E by done.
      left. by apply N_of_ascii_inj.
Qed.

Lemma eq_nocase_lower s t : eq_nocase s t ↔ lower s = lower t.
Proof.
  revert t. induction s as [| a s IH]; intros [| b t]; simpl; try easy.
  rewrite same_char_lower, IH. split.
  - by intros [-> ->].
  - intros E. by injection E.
Qed.

Lemma lower_completed : lower "completed" = "completed".
Proof. reflexivity. Qed.

Lemma lower_eqb_completed s :
  String.eqb (lower s) "completed" = true ↔ eq_nocase s "completed".
Proof.
  rewrite String.eqb_eq, eq_nocase_lower, lower_completed. done.
Qed.

Lemma lower_app a b : lower (a ++ b) = lower a ++ lower b.
Proof. induction a as [| c a IH]; simpl; [done | by rewrite IH]. Qed.

Lemma lower_split x a b :
  lower x = a ++ b → ∃ x1 x2, x = x1 ++ x2 ∧ lower x1 = a ∧ lower x2 = b.
Proof.
  revert x. induction a as [| c a IH]; intros x E.
  - by exists "", x.
  - destruct x as [| c0 x]; [discriminate |]. simpl in E.
    injection E as Ec Ex. destruct (IH _ Ex) as (x1 & x2 & -> & E1 & E2).
    exists (String c0 x1), x2. simpl. by rewrite Ec, E1.
Qed.

Lemma endswith_spec s suffix :
  endswith s suffix = true ↔ ∃ p, s = p ++ suffix.
Proof.
  split.
  - induction s as [| c s IH].
    + destruct suffix as [| c t]; [by exists "" | done].
    + cbn [endswith]. destruct (String.eqb (String c s) suffix) eqn:E.
      * intros _. exists "". by apply String.eqb_eq in E.
      * intros H. destruct (IH H) as (p & ->). by exists (String c p).
  - intros (p & ->). induction p as [| c p IH].
    + destruct suffix as [| c t]; [done |].
      change ("" ++ String c t) with (String c t).
      cbn [endswith]. by rewrite String.eqb_refl.
    + change (String c p ++ suffix) with (String c (p ++ suffix)).
      cbn [endswith]. rewrite IH. by destruct (String.eqb _ _).
Qed.

Lemma endswith_lower_csv s :
  endswith (lower s) ".csv" = true ↔ ends_with_nocase s ".csv".
Proof.
  rewrite endswith_spec. unfold ends_with_nocase. split.
  - intros (p & E). destruct (lower_split _ _ _ E) as (x1 & x2 & -> & _ & E2).
    exists x1, x2. split; [done |]. by apply eq_nocase_lower.
  - intros (p & t & -> & E). apply eq_nocase_lower in E.
    exists (lower p). by rewrite lower_app, E.
Qed.

End StrFacts.

(** ** Frames *)

Lemma getitem_in df c : c ∈ columns df → getitem df c = Ok (cell_at c).
Proof. intros H. unfold getitem. by rewrite decide_True. Qed.

Lemma getitem_notin df c : c ∉ columns df → getitem df c = KeyError c.
Proof. intros H. unfold getitem. by rewrite decide_False. Qed.

Lemma add_column_old c c' cols : c ∈ cols → c ∈ add_column c' cols.
Proof.
  intros H. unfold add_column. case_decide; [done |].
  apply elem_of_app. by left.
Qed.

Lemma add_column_new c cols : c ∈ add_column c cols.
Proof.
  unfold add_column. case_decide; [done |].
  apply elem_of_app. right. apply list_elem_of_singleton. done.
Qed.

Lemma add_column_id c cols : c ∈ cols → add_column c cols = cols.
Proof. intros H. unfold add_column. by rewrite decide_True. Qed.

Lemma missing_nil df :
  missing df = [] ↔ ∀ c, c ∈ REQUIRED_COLUMNS → c ∈ columns df.
Proof.
  unfold missing. split.
  - intros E c Hc. destruct (decide (c ∈ columns df)) as [|Hn]; [done |].
    assert (c ∈ filter (λ c, c ∉ columns df) REQUIRED_COLUMNS) as Hf
      by (apply list_elem_of_filter; done).
    rewrite E in Hf. by apply elem_of_nil in Hf.
  - intros H. destruct (filter _ _) as [| c l] eqn:E; [done |].
    assert (c ∈ filter (λ c, c ∉ columns df) REQUIRED_COLUMNS) as Hf
      by (rewrite E; left).
    apply list_elem_of_filter in Hf as [Hn Hc]. destruct Hn. by apply H.
Qed.

(** A label that is literally in a list of labels. *)
Ltac listed := refine (bool_decide_unpack _ _); vm_compute; exact I.

Lemma ok_bind {A B} (a : A) (f : A → result B) : Ok a ≫= f = f a.
Proof. reflexivity. Qed.

Lemma ok_ret {A} (a : A) : mret a = Ok a.
Proof. reflexivity. Qed.

Lemma column_setitem_ne c c' s df :
  c ≠ c' → column (cell_at c) (rows (setitem c' s df)) = column (cell_at c) (rows df).
Proof.
  intros H. unfold column, setitem; cbn [rows]. rewrite <- list_fmap_compose.
  apply list_fmap_ext. intros i r _. unfold cell_at; cbn.
  by rewrite lookup_insert_ne.
Qed.

Section Steps.
Context `{Lib : Library}.

Lemma library_cases c :
  (raises c = None ∧ library c = Ok ()) ∨ (∃ e, raises c = Some e ∧ library c = LibraryError e).
Proof.
  unfold library. destruct (raises c) as [e |]; [right; by exists e | by left].
Qed.

(** One round of the loop on a column that is there. *)
Lemma parse_column_cases df c :
  c ∈ columns df →
  let col := column (cell_at c) (rows df) in
  (raises (ToDatetime col) = None
   ∧ parse_column df c = Ok (setitem c (to_datetime_coerce (cell_at c) col) df))
  ∨ (∃ e, raises (ToDatetime col) = Some e ∧ parse_column df c = LibraryError e).
Proof.
  intros Hc col. unfold parse_column. rewrite (getitem_in _ _ Hc), ok_bind.
  fold col. destruct (library_cases (ToDatetime col)) as [[Er ->] | (e & Er & ->)].
  - left. done.
  - right. by exists e.
Qed.

Lemma parse_loop_error e cs :
  foldl (fun acc c => df ← acc; parse_column df c) (LibraryError e) cs = LibraryError e.
Proof. induction cs as [| c cs IH]; [done | exact IH]. Qed.

(** The loop over columns that are there, on a frame whose columns of the
    loop are still those of [raw]: it returns the frame of the rows with
    each of these columns converted, unless the library raises on one. *)
Lemma parse_loop (raw : frame) (cs : list string) (df : frame) :
  NoDup cs →
  (∀ c, c ∈ cs → c ∈ columns df) →
  (∀ c, c ∈ cs → column (cell_at c) (rows df) = column (cell_at c) (rows raw)) →
  match foldl (fun acc c => df ← acc; parse_column df c) (Ok df) cs with
  | Ok p =>
      p = {| columns := columns df;
             rows := (fun r => foldl (fun r c =>
                                        <[c := to_datetime_coerce (cell_at c)
                                                 (column (cell_at c) (rows raw)) r]> r)
                                r cs) <$> rows df |}
      ∧ ∀ c, c ∈ cs → raises (ToDatetime (column (cell_at c) (rows raw))) = None
  | LibraryError e =>
      ∃ c, c ∈ cs ∧ raises (ToDatetime (column (cell_at c) (rows raw))) = Some e
  | KeyError _ => False
  end.
Proof.
  revert df. induction cs as [| c cs IH]; intros df Hnd Hcols Hcol; cbn [foldl].
  - split; [| intros c Hc; by apply elem_of_nil in Hc].
    destruct df as [cols rs]; cbn. by rewrite list_fmap_id.
  - apply NoDup_cons in Hnd as [Hc Hnd]. rewrite ok_bind.
    destruct (parse_column_cases df c) as [[Er ->] | (e & Er & ->)];
      [apply Hcols; left | |]; rewrite (Hcol c) in * by left.
    + set (df1 := setitem c _ df).
      assert (∀ c', c' ∈ cs → c' ∈ columns df1) as Hcols1.
      { intros c' Hc'. apply add_column_old, Hcols. by right. }
      assert (∀ c', c' ∈ cs →
                column (cell_at c') (rows df1) = column (cell_at c') (rows raw)) as Hcol1.
      { intros c' Hc'. unfold df1. rewrite column_setitem_ne.
        - apply Hcol. by right.
        - intros ->. done. }
      pose proof (IH df1 Hnd Hcols1 Hcol1) as H.
      destruct (foldl _ (Ok df1) cs) as [p | k | e]; [| done |].
      * destruct H as [-> Hr]. split.
        -- unfold df1, setitem; cbn [columns rows].
           rewrite add_column_id by (apply Hcols; left).
           by rewrite <- list_fmap_compose.
        -- intros c' Hc'. apply elem_of_cons in Hc' as [-> | Hc']; [done | by apply Hr].
      * destruct H as (c' & Hc' & Hr). exists c'. split; [by right | done].
    + rewrite parse_loop_error. exists c. split; [left | done].
Qed.

Lemma date_columns_nodup : NoDup DATE_COLUMNS.
Proof. refine (bool_decide_unpack _ _). vm_compute. exact I. Qed.

(** Date parsing of a frame that has the date columns. *)
Lemma parse_dates_cases raw :
  (∀ c, c ∈ DATE_COLUMNS → c ∈ columns raw) →
  match parse_dates raw with
  | Ok p =>
      p = {| columns := columns raw; rows := parsed_row raw <$> rows raw |}
      ∧ ∀ c, c ∈ DATE_COLUMNS → raises (ToDatetime (column (cell_at c) (rows raw))) = None
  | LibraryError e =>
      ∃ c, c ∈ DATE_COLUMNS ∧ raises (ToDatetime (column (cell_at c) (rows raw))) = Some e
  | KeyError _ => False
  end.
Proof.
  intros H. apply (parse_loop raw DATE_COLUMNS raw date_columns_nodup H). done.
Qed.


(** The derived columns of a frame that has the three columns they are
    computed from. *)
Lemma derive_cases df :
  "Status" ∈ columns df → "ActualEnd" ∈ columns df → "PlannedEnd" ∈ columns df →
  match derive df with
  | Ok d =>
      d = {| columns := add_column "OnTime" (add_column "Completed" (columns df));
             rows := derived_row <$> rows df |}
      ∧ raises (StrAccessor (column (cell_at "Status") (rows df))) = None
  | LibraryError e =>
      raises (StrAccessor (column (cell_at "Status") (rows df))) = Some e
      ∨ raises (StrAccessor (column (cell_at "Status") (rows df))) = None
  | KeyError _ => False
  end.
Proof.
  intros Hs Ha Hp. unfold derive. rewrite (getitem_in _ _ Hs), ok_bind.
  destruct (library_cases (StrAccessor (column (cell_at "Status") (rows df))))
    as [[Er ->] | (e & Er & ->)]; [| by left].
  rewrite ok_bind. cbn zeta.
  rewrite (getitem_in _ "Completed"), ok_bind by apply add_column_new.
  rewrite (getitem_in _ "ActualEnd"), ok_bind by (by apply add_column_old).
  rewrite (getitem_in _ "PlannedEnd"), ok_bind by (by apply add_column_old).
  match goal with
  | |- context [library ?c] => destruct (library_cases c) as [[_ ->] | (e & _ & ->)]
  end; [| by right].
  rewrite ok_bind, ok_ret. split; [| done].
  unfold setitem; cbn [columns rows]. f_equal.
  rewrite <- list_fmap_compose. done.
Qed.

End Steps.

(** ** The derived columns, row by row *)

Lemma derived_row_completed r :
  derived_row r !! "Completed"
  = Some (eq_str (str_lower (cell_at "Status")) "completed" r).
Proof. unfold derived_row. by rewrite lookup_insert_ne, lookup_insert_eq. Qed.

Lemma derived_row_ontime r :
  derived_row r !! "OnTime"
  = Some (CBool (truth (eq_str (str_lower (cell_at "Status")) "completed" r)
                 && truth (le_time (cell_at "ActualEnd") (cell_at "PlannedEnd") r))).
Proof.
  unfold derived_row. rewrite lookup_insert_eq. unfold and_, le_time, cell_at.
  by rewrite lookup_insert_eq, !lookup_insert_ne.
Qed.

Lemma derived_row_other r c :
  c ≠ "Completed" → c ≠ "OnTime" → derived_row r !! c = r !! c.
Proof. intros H1 H2. unfold derived_row. by rewrite !lookup_insert_ne. Qed.

Lemma eq_str_lower_spec r :
  ∃ b, eq_str (str_lower (cell_at "Status")) "completed" r = CBool b
       ∧ (b = true ↔ ∃ s, r !! "Status" = Some (CText s)
                          ∧ Str.eq_nocase s "completed").
Proof.
  unfold eq_str, str_lower, cell_at.
  destruct (r !! "Status") as [[s | | | | |] |] eqn:E; simpl;
    try (exists false; split; [done |]; split; [done |];
         intros (s' & Hs & _); discriminate).
  exists (String.eqb (Str.lower s) "completed"). split; [done |].
  rewrite StrFacts.lower_eqb_completed. split.
  - intros H. by exists s.
  - intros (s' & Hs & H). by injection Hs as ->.
Qed.

Lemma le_time_spec r :
  truth (le_time (cell_at "ActualEnd") (cell_at "PlannedEnd") r) = true
  ↔ ∃ a p, r !! "ActualEnd" = Some (CTime a) ∧ r !! "PlannedEnd" = Some (CTime p)
           ∧ (instant a <= instant p)%Z.
Proof.
  unfold le_time, cell_at. split.
  - destruct (r !! "ActualEnd") as [[| | | a | |] |]; simpl; try done;
      destruct (r !! "PlannedEnd") as [[| | | p | |] |]; simpl; try done.
    intros H. exists a, p. by apply Z.leb_le in H.
  - intros (a & p & -> & -> & H). simpl. by apply Z.leb_le.
Qed.

(** The flag [Completed] of a derived row. *)
Lemma completed_flag r :
  ∃ b, derived_row r !! "Completed" = Some (CBool b)
       ∧ (b = true ↔ ∃ s, derived_row r !! "Status" = Some (CText s)
                          ∧ Str.eq_nocase s "completed").
Proof.
  destruct (eq_str_lower_spec r) as (b & E & H). exists b.
  rewrite derived_row_completed, E, derived_row_other by done. done.
Qed.

(** The flag [OnTime] of a derived row. *)
Lemma ontime_flag r :
  ∃ b, derived_row r !! "OnTime" = Some (CBool b)
       ∧ (b = true ↔ derived_row r !! "Completed" = Some (CBool true)
                     ∧ ∃ a p, derived_row r !! "ActualEnd" = Some (CTime a)
                              ∧ derived_row r !! "PlannedEnd" = Some (CTime p)
                              ∧ (instant a <= instant p)%Z).
Proof.
  eexists. split; [apply derived_row_ontime |].
  rewrite andb_true_iff, le_time_spec, derived_row_completed.
  rewrite !(derived_row_other _ "ActualEnd"), !(derived_row_other _ "PlannedEnd") by done.
  destruct (eq_str_lower_spec r) as (b & -> & _). simpl.
  split; intros [H1 H2]; (split; [| done]); congruence.
Qed.

Section Validated.
Context `{Lib : Library}.

Lemma date_columns_required raw c :
  missing raw = [] → c ∈ DATE_COLUMNS → c ∈ columns raw.
Proof.
  intros H Hc. rewrite missing_nil in H. apply H.
  unfold DATE_COLUMNS in Hc. rewrite !elem_of_cons in Hc.
  destruct Hc as [-> | [-> | [-> | [-> | Hc]]]];
    [listed | listed | listed | listed | by apply elem_of_nil in Hc].
Qed.

(** A frame with the required columns goes through date parsing and the
    derivation of the flags unless a library call raises; the table is
    then the frame of the derived rows of its parsed rows.  Neither step
    looks up an absent column. *)
Lemma validated_cases raw :
  missing raw = [] →
  match parse_dates raw ≫= derive with
  | Ok d =>
      parse_dates raw = Ok {| columns := columns raw; rows := parsed_row raw <$> rows raw |}
      ∧ d = {| columns := add_column "OnTime" (add_column "Completed" (columns raw));
               rows := derived_row <$> (parsed_row raw <$> rows raw) |}
  | LibraryError e =>
      parse_dates raw = LibraryError e
      ∨ parse_dates raw = Ok {| columns := columns raw;
                                rows := parsed_row raw <$> rows raw |}
  | KeyError _ => False
  end.
Proof.
  intros Hm.
  pose proof (parse_dates_cases raw (fun c => date_columns_required raw c Hm)) as Hp.
  destruct (parse_dates raw) as [p | k | e]; [| done | by left].
  destruct Hp as [-> _]. rewrite ok_bind.
  rewrite missing_nil in Hm.
  match goal with
  | |- context [derive ?p] =>
      pose proof (derive_cases p) as Hd;
      destruct (derive p) as [d | k | e]; [| | by right]
  end.
  - destruct Hd as [-> _]; [apply Hm; listed .. |]. done.
  - apply Hd; apply Hm; listed.
Qed.

(** The table of a validated file: one derived row per row of the file. *)
Lemma validated_table raw d :
  missing raw = [] → parse_dates raw ≫= derive = Ok d →
  d = {| columns := add_column "OnTime" (add_column "Completed" (columns raw));
         rows := derived_row <$> (parsed_row raw <$> rows raw) |}.
Proof.
  intros Hm E. pose proof (validated_cases raw Hm) as H. rewrite E in H.
  by destruct H as [_ ->].
Qed.

End Validated.

(** ** Filters *)

Lemma isin_member s values r : isin s values r = true ↔ member (s r) values.
Proof.
  unfold isin, member. rewrite existsb_exists.
  split; intros (v & Hv & E); exists v; split; try done;
    by apply list_elem_of_In.
Qed.

Lemma cell_eqb_text s v : cell_eqb (CText s) v = true ↔ v = CText s.
Proof.
  destruct v; simpl; try (split; [discriminate | congruence]).
  rewrite String.eqb_eq. split; congruence.
Qed.

(** On text cells, [member] is plain membership. *)
Lemma member_text s values : member (CText s) values ↔ CText s ∈ values.
Proof.
  unfold member. split.
  - intros (v & Hv & E). apply cell_eqb_text in E. by subst.
  - intros H. exists (CText s). split; [done |]. by apply cell_eqb_text.
Qed.

Lemma passes_spec c sel r :
  passes c sel r = true ↔ (sel ≠ [] → member (cell_at c r) sel).
Proof.
  destruct sel as [| v sel]; unfold passes.
  - split; [intros _ H; by destruct H | done].
  - rewrite isin_member. split; [by intros H _ | intros H; by apply H].
Qed.

Lemma refine_mask_ok df c sel mask :
  c ∈ columns df →
  ∃ mask', refine_mask df c sel mask = Ok mask'
           ∧ ∀ r, mask' r = mask r && passes c sel r.
Proof.
  intros Hc. destruct sel as [| v sel]; simpl.
  - exists mask. split; [done |]. intros r. by rewrite andb_true_r.
  - rewrite (getitem_in _ _ Hc). cbn. eexists. split; [done |]. done.
Qed.

Lemma build_mask_ok df f :
  "Track" ∈ columns df → "Category" ∈ columns df → "Module" ∈ columns df →
  "Quarter" ∈ columns df → "Status" ∈ columns df →
  ∃ mask, build_mask df f = Ok mask
          ∧ ∀ r, mask r = passes "Track" (track_f f) r
                          && passes "Category" (cat_f f) r
                          && passes "Module" (mod_f f) r
                          && passes "Quarter" (qtr_f f) r
                          && passes "Status" (status_f f) r.
Proof.
  intros H1 H2 H3 H4 H5. unfold build_mask.
  destruct (refine_mask_ok df "Track" (track_f f) (fun _ => true) H1) as (m1 & -> & E1).
  cbn.
  destruct (refine_mask_ok df "Category" (cat_f f) m1 H2) as (m2 & -> & E2). cbn.
  destruct (refine_mask_ok df "Module" (mod_f f) m2 H3) as (m3 & -> & E3). cbn.
  destruct (refine_mask_ok df "Quarter" (qtr_f f) m3 H4) as (m4 & -> & E4). cbn.
  destruct (refine_mask_ok df "Status" (status_f f) m4 H5) as (m5 & -> & E5).
  exists m5. split; [done |]. intros r.
  by rewrite E5, E4, E3, E2, E1.
Qed.

Lemma apply_filters_ok df f :
  "Track" ∈ columns df → "Category" ∈ columns df → "Module" ∈ columns df →
  "Quarter" ∈ columns df → "Status" ∈ columns df →
  ∃ mask, apply_filters df f = Ok (select df mask)
          ∧ ∀ r, mask r = passes "Track" (track_f f) r
                          && passes "Category" (cat_f f) r
                          && passes "Module" (mod_f f) r
                          && passes "Quarter" (qtr_f f) r
                          && passes "Status" (status_f f) r.
Proof.
  intros H1 H2 H3 H4 H5. unfold apply_filters.
  destruct (build_mask_ok df f H1 H2 H3 H4 H5) as (mask & -> & E).
  by exists mask.
Qed.

(** ** KPIs *)

Section KpiFacts.
Context `{Lib : Library}.

Lemma returned_cases {A} (x : string + A) :
  (∃ a, x = inr a ∧ returned x = Ok a) ∨ (∃ e, x = inl e ∧ returned x = LibraryError e).
Proof. destruct x as [e | a]; [right; by exists e | left; by exists a]. Qed.

(** The KPIs of a table with the columns they are computed from: the
    computation returns unless a sum or the mean raises, which takes a
    table with rows. *)
Lemma compute_kpis_cases fdf :
  "Completed" ∈ columns fdf → "OnTime" ∈ columns fdf → "Revenue" ∈ columns fdf →
  "Effort" ∈ columns fdf → "BreakEvenMonths" ∈ columns fdf →
  match compute_kpis fdf with
  | Ok k =>
      total k = len fdf
      ∧ completed k = count_true (cell_at "Completed") (rows fdf)
      ∧ ontime k = (if any_notna (cell_at "OnTime") (rows fdf)
                    then Some (py_round (PrimFloat.mul 100
                                 (bool_mean (cell_at "OnTime") (rows fdf))) 1)
                    else None)
  | LibraryError _ => rows fdf ≠ []
  | KeyError _ => False
  end.
Proof.
  intros Hc Ho Hr He Hb. unfold compute_kpis, len.
  rewrite (getitem_in _ _ Hc), ok_bind. cbn zeta.
  rewrite (getitem_in _ _ Ho).
  destruct (rows fdf) as [| r rs] eqn:Er; cbn [length].
  - rewrite !ok_bind, ok_ret. done.
  - rewrite (getitem_in _ _ Hr), (getitem_in _ _ He), (getitem_in _ _ Hb), !ok_bind.
    destruct (returned_cases (float_sum (column (cell_at "Revenue") (r :: rs))))
      as [(x1 & _ & ->) | (e & _ & ->)]; [rewrite ok_bind | done].
    destruct (returned_cases (float_sum (column (cell_at "Effort") (r :: rs))))
      as [(x2 & _ & ->) | (e & _ & ->)]; [rewrite ok_bind | done].
    destruct (returned_cases (float_mean (column (cell_at "BreakEvenMonths") (r :: rs))))
      as [(x3 & _ & ->) | (e & _ & ->)]; [rewrite !ok_bind, ok_ret | done].
    done.
Qed.

Lemma compute_kpis_empty fdf :
  "Completed" ∈ columns fdf → "OnTime" ∈ columns fdf → rows fdf = [] →
  compute_kpis fdf = Ok NO_DATA.
Proof.
  intros Hc Ho E. unfold compute_kpis, len.
  rewrite (getitem_in _ _ Hc), (getitem_in _ _ Ho), E. done.
Qed.

End KpiFacts.

(** ** Running the script *)

Lemma bind_done {A B} (m : script A) (f : A → script B) w a w' :
  m w = (Done a, w') → (m ≫= f) w = f a w'.
Proof. intros E. unfold mbind, script_bind. by rewrite E. Qed.

Lemma bind_stopped {A B} (m : script A) (f : A → script B) w w' :
  m w = (Stopped, w') → (m ≫= f) w = (Stopped, w').
Proof. intros E. unfold mbind, script_bind. by rewrite E. Qed.

Lemma bind_failed {A B} (m : script A) (f : A → script B) w e w' :
  m w = (Failed e, w') → (m ≫= f) w = (Failed e, w').
Proof. intros E. unfold mbind, script_bind. by rewrite E. Qed.

Lemma paint_paint es1 es2 w : paint es2 (paint es1 w) = paint (es1 ++ es2) w.
Proof. unfold paint; simpl. by rewrite app_assoc. Qed.

Lemma mapM_getitem df cs :
  (∀ c, c ∈ cs → c ∈ columns df) → mapM (getitem df) cs = Ok (cell_at <$> cs).
Proof.
  induction cs as [| c cs IH]; intros H; [done |].
  cbn. rewrite getitem_in by (apply H; left). cbn.
  rewrite IH; [done |]. intros c' Hc'. apply H. by right.
Qed.

Lemma groupby_ok keys df :
  (∀ c, c ∈ keys → c ∈ columns df) → ∃ gs, groupby keys df = Ok gs.
Proof.
  intros H. unfold groupby. rewrite (mapM_getitem _ _ H). cbn. by eexists.
Qed.

(** Membership in a short literal list of labels, by cases. *)
Ltac each_label H :=
  repeat (apply elem_of_cons in H as [-> | H]); [.. | by apply elem_of_nil in H].

Lemma lift_ok_bind {A B} (a : A) (f : A → script B) : lift (Ok a) ≫= f = f a.
Proof. reflexivity. Qed.

Lemma st_run e w : st e w = (Done (), paint [e] w).
Proof. reflexivity. Qed.

Lemma draw_run es w : draw es w = (Done (), paint es w).
Proof.
  revert w. induction es as [| e es IH]; intros w.
  - destruct w. unfold paint; cbn. by rewrite app_nil_r.
  - unfold draw in *. cbn [foldr]. erewrite bind_done by reflexivity.
    by rewrite IH, paint_paint.
Qed.

(** *** Steps that return, or fail in a library call *)

Lemma wp_bind {A B} (m : script A) (f : A → script B) w Q F :
  wp m w (fun a w' => wp (f a) w' Q F) F → wp (m ≫= f) w Q F.
Proof.
  unfold wp, mbind, script_bind. by destruct (m w) as [[a | | c | e] w'].
Qed.

Lemma wp_eq {A} (m : script A) w a w' Q F :
  m w = (Done a, w') → Q a w' → wp m w Q F.
Proof. intros E H. unfold wp. by rewrite E. Qed.

Lemma wp_ret {A} (a : A) w Q F : Q a w → wp (mret a) w Q F.
Proof. done. Qed.

Lemma wp_st e w (Q : unit → world → Prop) F : Q () (paint [e] w) → wp (st e) w Q F.
Proof. done. Qed.

Lemma wp_enter s w (Q : unit → world → Prop) F :
  Q () (note [s] w) → wp (enter s) w Q F.
Proof. done. Qed.

Lemma wp_lift {A} (r : result A) w Q F :
  match r with
  | Ok a => Q a w
  | LibraryError _ => F w
  | KeyError _ => False
  end → wp (lift r) w Q F.
Proof. by destruct r. Qed.

Lemma wp_shows m e w (Q : unit → world → Prop) F :
  shows m e → Q () (paint [e] w) → wp m w Q F.
Proof. intros Hs H. unfold wp. by rewrite (Hs w). Qed.

Lemma wp_draw es w (Q : unit → world → Prop) F :
  Q () (paint es w) → wp (draw es) w Q F.
Proof. intros H. unfold wp. by rewrite draw_run. Qed.

(** What a finished or failed step says about [wp]. *)
Lemma wp_done {A} (m : script A) w Q F a w' :
  wp m w Q F → m w = (Done a, w') → Q a w'.
Proof. unfold wp. intros H E. by rewrite E in H. Qed.

Lemma wp_failed {A} (m : script A) w Q F e w' :
  wp m w Q F → m w = (Failed e, w') → F w'.
Proof. unfold wp. intros H E. by rewrite E in H. Qed.

(** *** Pages that grow without an error box *)

Lemma extends_refl w : extends w w.
Proof. exists []. by rewrite app_nil_r. Qed.

Lemma extends_trans w1 w2 w3 : extends w1 w2 → extends w2 w3 → extends w1 w3.
Proof.
  intros (es1 & E1 & H1) (es2 & E2 & H2). exists (es1 ++ es2)%list. split.
  - by rewrite E2, E1, app_assoc.
  - by apply Forall_app.
Qed.

Lemma extends_paint w w' es :
  extends w w' → Forall (fun e => is_error e = false) es → extends w (paint es w').
Proof.
  intros H Hq. apply (extends_trans _ _ _ H). by exists es.
Qed.

Lemma extends_note w w' ms : extends w w' → extends w (note ms w').
Proof. intros (es & E & H). by exists es. Qed.

(** The page reached from [w] by entering sections and drawing elements
    that are no error boxes. *)
Ltac grown :=
  repeat match goal with
         | |- extends _ (note _ _) => apply extends_note
         | |- extends _ (paint _ _) =>
             apply extends_paint; [| repeat constructor; try assumption; done]
         end;
  apply extends_refl.

(** ** The chart panels *)

Lemma panel_shows data fig notice :
  shows (panel data fig notice) (panel_of data fig notice).
Proof. unfold shows, panel, panel_of. intros w. by destruct (empty data). Qed.

Lemma panel_of_quiet data fig notice : is_error (panel_of data fig notice) = false.
Proof. unfold panel_of. by destruct (empty data). Qed.

Lemma has_all_series cs r :
  forallb (fun s : series => notna (s r)) (cell_at <$> cs) = has_all cs r.
Proof.
  unfold has_all. induction cs as [| c cs IH]; [done |].
  cbn. by rewrite IH.
Qed.

Lemma dropna_rows cs fd :
  (∀ c, c ∈ cs → c ∈ columns fd) →
  dropna cs fd
  = Ok {| columns := columns fd;
          rows := filter (fun r => has_all cs r = true) (rows fd) |}.
Proof.
  intros H. unfold dropna. rewrite (mapM_getitem _ _ H), ok_bind, ok_ret.
  unfold select. do 2 f_equal. apply list_filter_iff.
  intros r. by rewrite has_all_series.
Qed.

Lemma empty_rows d : columns d ≠ [] → (empty d = true ↔ rows d = []).
Proof.
  intros Hc. unfold empty. destruct (rows d), (columns d); done.
Qed.

Lemma filter_nonempty {A} (P : A → Prop) `{∀ x, Decision (P x)} (l : list A) :
  filter P l ≠ [] ↔ ∃ x, x ∈ l ∧ P x.
Proof.
  split.
  - destruct (filter P l) as [| x l'] eqn:E; [done |]. intros _.
    assert (x ∈ filter P l) as Hx by (rewrite E; left).
    apply list_elem_of_filter in Hx as [HP Hx]. by exists x.
  - intros (x & Hx & HP) E.
    assert (x ∈ filter P l) as Hf by (by apply list_elem_of_filter).
    rewrite E in Hf. by apply elem_of_nil in Hf.
Qed.

(** What a panel over the complete rows of a table shows. *)
Lemma complete_rows_panel cs fd fig notice :
  columns fd ≠ [] →
  let data := {| columns := columns fd;
                 rows := filter (fun r => has_all cs r = true) (rows fd) |} in
  ∃ e, shows (panel data fig notice) e
    ∧ (is_chart e = true ↔ ∃ r, r ∈ rows fd ∧ has_all cs r = true)
    ∧ (is_chart e = true → e = PlotlyChart fig)
    ∧ (is_chart e = false → e = Info notice).
Proof.
  intros Hc data. eexists. split; [apply panel_shows |].
  pose proof (empty_rows data Hc) as He.
  pose proof (filter_nonempty (fun r => has_all cs r = true) (rows fd)) as Hn.
  unfold panel_of. destruct (empty data) eqn:E; cbn.
  - split; [| done]. split; [done |]. intros Hex. apply Hn in Hex.
    destruct Hex. by apply He.
  - split; [| done]. split; [| done]. intros _. apply Hn.
    intros Hnil. apply He in Hnil. congruence.
Qed.

Lemma columns_nonempty fd c : c ∈ columns fd → columns fd ≠ [].
Proof. intros H E. rewrite E in H. by apply elem_of_nil in H. Qed.

Section PanelFacts.
Context `{Lib : Library}.

(** The sorted values of a column that is there: the library's answer. *)
Lemma options_cases df c :
  c ∈ columns df →
  (∃ o, options df c = Ok o) ∨ (∃ e, options df c = LibraryError e).
Proof.
  intros Hc. unfold options. rewrite (getitem_in _ _ Hc), ok_bind. cbn zeta.
  match goal with
  | |- context [library ?x] => destruct (library_cases x) as [[_ ->] | (e & _ & ->)]
  end; [left | right]; by eexists.
Qed.

Lemma revenue_chart_shows fd :
  "Quarter" ∈ columns fd → "Track" ∈ columns fd → "Revenue" ∈ columns fd →
  ∃ e, revenue_panel fd e ∧ shows (revenue_chart fd) e.
Proof.
  intros Hq Ht Hr. unfold revenue_chart, revenue_panel, revenue_by_quarter.
  destruct (groupby_ok ["Quarter"; "Track"] fd) as (gs & ->).
  { intros c Hc. each_label Hc; done. }
  rewrite ok_bind, (getitem_in _ _ Hr), ok_bind, ok_ret, lift_ok_bind.
  eexists. split; [eexists; split; reflexivity | apply panel_shows].
Qed.

Lemma ontime_trend_ok tmp :
  "PlannedEnd" ∈ columns tmp → "OnTime" ∈ columns tmp →
  ∃ trend, ontime_trend tmp = Ok trend
    ∧ columns trend = ["QKey"; "OnTime"; "OnTimePct"].
Proof.
  intros Hp Ho. unfold ontime_trend.
  rewrite (getitem_in _ "PlannedEnd"), ok_bind by done. cbn zeta.
  match goal with
  | |- context [groupby ["QKey"] ?t] =>
      destruct (groupby_ok ["QKey"] t) as (gs & ->)
  end.
  { intros c Hc. each_label Hc. apply add_column_new. }
  rewrite ok_bind.
  rewrite (getitem_in _ "OnTime"), ok_bind by (by apply add_column_old). cbn zeta.
  rewrite (getitem_in _ "OnTime"), ok_bind, ok_ret by listed.
  eexists. split; reflexivity.
Qed.

Lemma trend_chart_shows fd :
  "PlannedEnd" ∈ columns fd → "OnTime" ∈ columns fd →
  ∃ e, trend_panel fd e ∧ shows (trend_chart fd) e.
Proof.
  intros Hp Ho. unfold trend_chart, trend_panel.
  rewrite dropna_rows, lift_ok_bind by (intros c Hc; each_label Hc; done).
  match goal with |- context [empty ?d] => set (tmp := d) end.
  destruct (empty tmp) eqn:E.
  - eexists. split; [exists tmp; split; [reflexivity |]; by rewrite E |].
    intros w; reflexivity.
  - destruct (ontime_trend_ok tmp Hp Ho) as (trend & Et & _).
    rewrite Et, lift_ok_bind. eexists. split; [| intros w; reflexivity].
    exists tmp. split; [reflexivity |]. rewrite E. by exists trend.
Qed.

Lemma category_chart_shows fd :
  "Completed" ∈ columns fd → "Category" ∈ columns fd →
  ∃ e, category_panel fd e ∧ shows (category_chart fd) e.
Proof.
  intros Hc Hg. unfold category_chart, category_panel, completed_by_category.
  rewrite (getitem_in _ _ Hc), ok_bind.
  match goal with
  | |- context [groupby ["Category"] ?t] =>
      destruct (groupby_ok ["Category"] t) as (gs & ->)
  end.
  { intros c Hc'. each_label Hc'. done. }
  rewrite ok_bind, ok_ret, lift_ok_bind.
  eexists. split; [eexists; split; reflexivity | apply panel_shows].
Qed.

(** The bubble panel: a notice without data; with data the chart, unless
    [px.scatter] raises, which ends the run with nothing drawn in the
    panel. *)
Lemma bubble_chart_cases fd :
  "Effort" ∈ columns fd → "Revenue" ∈ columns fd →
  let bub := {| columns := columns fd;
                rows := filter (fun r => has_all ["Effort"; "Revenue"] r = true)
                          (rows fd) |} in
  dropna ["Effort"; "Revenue"] fd = Ok bub
  ∧ match empty bub, raises (Scatter bub) with
    | true, _ =>
        shows (bubble_chart fd) (Info "Effort vs Revenue: need Effort & Revenue values.")
    | false, None =>
        shows (bubble_chart fd)
          (PlotlyChart
             (PxScatter bub "Effort" "Revenue" "BreakEvenMonths" "Category" "Initiative"
                "Effort vs Revenue (bubble = BreakEven months)"))
    | false, Some e => ∀ w, bubble_chart fd w = (Failed e, w)
    end.
Proof.
  intros He Hr bub.
  assert (dropna ["Effort"; "Revenue"] fd = Ok bub) as Ed
    by (apply dropna_rows; intros c Hc; each_label Hc; done).
  split; [done |]. unfold bubble_chart. rewrite Ed, lift_ok_bind.
  destruct (empty bub); [by intros w |].
  destruct (library_cases (Scatter bub)) as [[Er El] | (e & Er & El)]; rewrite Er, El.
  - by intros w.
  - by intros w.
Qed.

(** The timeline: its heading and its toggle, then a notice without
    data; with data the chart, unless [px.timeline] raises, which ends the
    run below the toggle. *)
Lemma timeline_cases fd w :
  "PlannedStart" ∈ columns fd → "PlannedEnd" ∈ columns fd →
  "ActualStart" ∈ columns fd → "ActualEnd" ∈ columns fd →
  let planned := String.eqb (radio_value w) "Planned" in
  let cs := if planned
            then ("PlannedStart", "PlannedEnd") else ("ActualStart", "ActualEnd") in
  let tl := {| columns := columns fd;
               rows := filter (fun r => has_all [cs.1; cs.2] r = true) (rows fd) |} in
  dropna [cs.1; cs.2] fd = Ok tl
  ∧ match empty tl, raises (Timeline tl cs.1 cs.2) with
    | true, _ =>
        timeline fd w
        = (Done (),
           paint [Subheader "🗓️ Timeline (Gantt)";
                  Radio "Show timeline for:" ["Planned"; "Actual"];
                  Info (if planned then "No Planned dates available for timeline."
                        else "No Actual dates available for timeline.")] w)
    | false, None =>
        timeline fd w
        = (Done (),
           paint [Subheader "🗓️ Timeline (Gantt)";
                  Radio "Show timeline for:" ["Planned"; "Actual"];
                  PlotlyChart
                    (PxTimeline tl cs.1 cs.2 "Initiative" "Status"
                       ["Quarter"; "Category"; "Track"] "reversed")] w)
    | false, Some e =>
        timeline fd w
        = (Failed e,
           paint [Subheader "🗓️ Timeline (Gantt)";
                  Radio "Show timeline for:" ["Planned"; "Actual"]] w)
    end.
Proof.
  intros H1 H2 H3 H4 planned cs tl.
  assert (dropna [cs.1; cs.2] fd = Ok tl) as Ed.
  { apply dropna_rows. subst cs planned.
    destruct (String.eqb (radio_value w) "Planned");
      intros c Hc; each_label Hc; done. }
  split; [done |]. unfold timeline.
  erewrite bind_done by reflexivity.
  erewrite bind_done by reflexivity.
  cbn [radio_value paint]. fold planned. subst tl cs.
  destruct planned; cbn [fst snd] in *; rewrite Ed, lift_ok_bind; cbn beta;
    match goal with |- context [empty ?d] => destruct (empty d) end;
    try (by rewrite st_run, !paint_paint);
    match goal with
    | |- context [raises ?c] =>
        destruct (library_cases c) as [[Er El] | (e & Er & El)]; rewrite Er, El
    end;
    rewrite ?lift_ok_bind, ?st_run, !paint_paint; reflexivity.
Qed.

(** No panel holds an error box. *)
Lemma revenue_panel_quiet fd e : revenue_panel fd e → is_error e = false.
Proof. intros (rev & _ & ->). apply panel_of_quiet. Qed.

Lemma trend_panel_quiet fd e : trend_panel fd e → is_error e = false.
Proof.
  intros (tmp & _ & H). destruct (empty tmp); [by subst |].
  by destruct H as (trend & _ & ->).
Qed.

Lemma category_panel_quiet fd e : category_panel fd e → is_error e = false.
Proof. intros (comp & _ & ->). apply panel_of_quiet. Qed.

Lemma bubble_panel_quiet fd e : bubble_panel fd e → is_error e = false.
Proof. intros (bub & _ & _ & ->). apply panel_of_quiet. Qed.

Lemma timeline_panel_quiet opt fd e : timeline_panel opt fd e → is_error e = false.
Proof.
  unfold timeline_panel.
  destruct (String.eqb opt "Planned"); intros (tl & _ & _ & ->); apply panel_of_quiet.
Qed.

Lemma metric_tiles_quiet k : Forall (fun e => is_error e = false) (metric_tiles k).
Proof. unfold metric_tiles, metrics. cbn. repeat constructor. Qed.

Lemma page_top_no_error : Forall (fun e => is_error e = false) PAGE_TOP.
Proof. unfold PAGE_TOP, PREAMBLE. repeat constructor. Qed.

(** The page of a complete run holds no error box. *)
Lemma page_layout_no_error opt d fd k es :
  page_layout opt d fd k es → Forall (fun e => is_error e = false) es.
Proof.
  intros (o1 & o2 & o3 & o4 & o5 & c1 & c2 & c3 & c4 & tl
          & _ & _ & _ & _ & _ & P1 & P2 & P3 & P4 & P5 & ->).
  apply revenue_panel_quiet in P1. apply trend_panel_quiet in P2.
  apply category_panel_quiet in P3. apply bubble_panel_quiet in P4.
  apply timeline_panel_quiet in P5.
  apply Forall_app; split; [apply page_top_no_error |].
  apply Forall_app; split; [by repeat constructor |].
  apply Forall_app; split; [apply metric_tiles_quiet |].
  apply Forall_app; split; [by repeat constructor |].
  apply Forall_app; split; by repeat constructor.
Qed.

End PanelFacts.

(** ** The ways a run can go *)

Section Runs.
Context `{Lib : Library}.

Lemma filter_widget_wp df c w Q F :
  c ∈ columns df →
  (∀ o, options df c = Ok o → Q (multiselect_value w c) (paint [Multiselect c o] w)) →
  F w →
  wp (filter_widget df c) w Q F.
Proof.
  intros Hc HQ HF. unfold filter_widget. apply wp_bind, wp_lift.
  destruct (options_cases df c Hc) as [(o & E) | (e & E)]; rewrite E; [| done].
  by apply HQ.
Qed.

(** The five filters: each shows the values of its column in the table, and
    together they return what the widgets hold. *)
Lemma filter_widgets_wp df w Q F :
  "Track" ∈ columns df → "Category" ∈ columns df → "Module" ∈ columns df →
  "Quarter" ∈ columns df → "Status" ∈ columns df →
  (∀ o1 o2 o3 o4 o5,
     options df "Track" = Ok o1 → options df "Category" = Ok o2 →
     options df "Module" = Ok o3 → options df "Quarter" = Ok o4 →
     options df "Status" = Ok o5 →
     Q (chosen w)
       (paint [Multiselect "Track" o1; Multiselect "Category" o2;
               Multiselect "Module" o3; Multiselect "Quarter" o4;
               Multiselect "Status" o5] w)) →
  (∀ w', extends w w' → F w') →
  wp (filter_widgets df) w Q F.
Proof.
  intros H1 H2 H3 H4 H5 HQ HF. unfold filter_widgets.
  apply wp_bind, filter_widget_wp; [done | intros o1 E1 | apply HF; grown].
  apply wp_bind, filter_widget_wp; [done | intros o2 E2 | apply HF; grown].
  apply wp_bind, filter_widget_wp; [done | intros o3 E3 | apply HF; grown].
  apply wp_bind, filter_widget_wp; [done | intros o4 E4 | apply HF; grown].
  apply wp_bind, filter_widget_wp; [done | intros o5 E5 | apply HF; grown].
  apply wp_ret. rewrite !paint_paint.
  exact (HQ o1 o2 o3 o4 o5 E1 E2 E3 E4 E5).
Qed.

Lemma metric_tiles_split k :
  metric_tiles k = (take 3 (metric_tiles k) ++ drop 3 (metric_tiles k))%list.
Proof. by rewrite take_drop. Qed.

(** The five tiles, unless [int(total_effort)] raises after the third. *)
Lemma show_metrics_wp k w (Q : unit → world → Prop) F :
  (raises (IntOf (total_effort k)) = None → Q () (paint (metric_tiles k) w)) →
  (∀ w', extends w w' → F w') →
  wp (show_metrics k) w Q F.
Proof.
  intros HQ HF. unfold show_metrics.
  pose proof (metric_tiles_quiet k) as Hq.
  rewrite metric_tiles_split in Hq. apply Forall_app in Hq as [Hq1 Hq2].
  apply wp_bind, wp_draw. apply wp_bind, wp_lift.
  destruct (library_cases (IntOf (total_effort k))) as [[Er ->] | (e & Er & ->)].
  - apply wp_draw. rewrite paint_paint, <- metric_tiles_split. by apply HQ.
  - apply HF. by apply extends_paint; [apply extends_refl |].
Qed.

(** The heading and the sorted table, unless [sort_values] raises. *)
Lemma show_table_wp fd w (Q : unit → world → Prop) F :
  Q () (paint [Subheader "📋 Initiatives"; Dataframe (table fd)] w) →
  (∀ w', extends w w' → F w') →
  wp (show_table fd) w Q F.
Proof.
  intros HQ HF. unfold show_table.
  apply wp_bind, wp_st. apply wp_bind, wp_lift.
  match goal with
  | |- context [library ?x] => destruct (library_cases x) as [[_ ->] | (e & _ & ->)]
  end.
  - apply wp_st. by rewrite paint_paint.
  - apply HF. grown.
Qed.

Lemma panel_of_empty data fig notice :
  empty data = true → panel_of data fig notice = Info notice.
Proof. unfold panel_of. by intros ->. Qed.

Lemma panel_of_data data fig notice :
  empty data = false → panel_of data fig notice = PlotlyChart fig.
Proof. unfold panel_of. by intros ->. Qed.

Lemma bubble_chart_wp fd w (Q : unit → world → Prop) F :
  "Effort" ∈ columns fd → "Revenue" ∈ columns fd →
  (∀ e, bubble_panel fd e → Q () (paint [e] w)) →
  F w →
  wp (bubble_chart fd) w Q F.
Proof.
  intros He Hr HQ HF.
  destruct (bubble_chart_cases fd He Hr) as [Ed Hb]. cbn zeta in *.
  match type of Ed with _ = Ok ?b => set (bub := b) in * end.
  destruct (empty bub) eqn:Ee; [| destruct (raises (Scatter bub)) as [e |] eqn:Er].
  - apply (wp_shows _ _ _ _ _ Hb). apply HQ. exists bub.
    split; [done |]. split; [congruence |]. by rewrite panel_of_empty.
  - unfold wp. by rewrite Hb.
  - apply (wp_shows _ _ _ _ _ Hb). apply HQ. exists bub.
    split; [done |]. split; [done |]. by rewrite panel_of_data.
Qed.

Lemma timeline_wp fd w (Q : unit → world → Prop) F :
  "PlannedStart" ∈ columns fd → "PlannedEnd" ∈ columns fd →
  "ActualStart" ∈ columns fd → "ActualEnd" ∈ columns fd →
  (∀ e, timeline_panel (radio_value w) fd e →
        Q () (paint [Subheader "🗓️ Timeline (Gantt)";
                     Radio "Show timeline for:" ["Planned"; "Actual"]; e] w)) →
  F (paint [Subheader "🗓️ Timeline (Gantt)";
            Radio "Show timeline for:" ["Planned"; "Actual"]] w) →
  wp (timeline fd) w Q F.
Proof.
  intros H1 H2 H3 H4 HQ HF.
  destruct (timeline_cases fd w H1 H2 H3 H4) as [Ed Ht]. cbn zeta in *.
  unfold timeline_panel in HQ.
  destruct (String.eqb (radio_value w) "Planned"); cbn [fst snd] in *;
    match type of Ed with _ = Ok ?b => set (tl := b) in * end;
    (destruct (empty tl) eqn:Ee;
       [| destruct (raises (Timeline tl _ _)) as [e |] eqn:Er]);
    unfold wp; rewrite Ht; try done;
    apply HQ; exists tl; (split; [done |]); (split; [congruence |]);
    by rewrite ?panel_of_empty, ?panel_of_data by done.
Qed.

Lemma run_no_upload w :
  uploaded w = None →
  run w = (Stopped, paint (PAGE_TOP ++ [Info UPLOAD_FIRST]) (fresh w)).
Proof.
  intros H. unfold run, app.
  erewrite bind_done by reflexivity.
  erewrite bind_done by reflexivity.
  cbn [uploaded fresh paint]. rewrite H. reflexivity.
Qed.

Lemma run_unreadable w f e :
  uploaded w = Some f → read f = inl e →
  run w = (Stopped,
           note [ReadInput]
             (paint (PAGE_TOP ++ [Error ("Could not read file: " ++ e)]) (fresh w))).
Proof.
  intros H E. unfold run, app.
  erewrite bind_done by reflexivity.
  erewrite bind_done by reflexivity.
  cbn [uploaded fresh paint]. rewrite H.
  erewrite bind_done by reflexivity.
  unfold read_input. rewrite E. reflexivity.
Qed.

Lemma run_missing w f raw :
  uploaded w = Some f → read f = inr raw → missing raw ≠ [] →
  run w = (Stopped,
           note [ReadInput; ValidateColumns]
             (paint (PAGE_TOP
                     ++ [Error ("Your file is missing required columns: "
                                ++ Str.repr_list (missing raw))]) (fresh w))).
Proof.
  intros H E Hm. unfold run, app.
  erewrite bind_done by reflexivity.
  erewrite bind_done by reflexivity.
  cbn [uploaded fresh paint]. rewrite H.
  erewrite bind_done by reflexivity.
  unfold read_input. rewrite E.
  erewrite bind_done by reflexivity.
  erewrite bind_done by reflexivity.
  unfold validate_columns. destruct (missing raw) as [| c m]; [done |].
  reflexivity.
Qed.

(** The labels of a validated frame after the flags are derived. *)
Lemma derived_columns raw c :
  missing raw = [] →
  c ∈ (REQUIRED_COLUMNS ++ ["Completed"; "OnTime"])%list →
  c ∈ add_column "OnTime" (add_column "Completed" (columns raw)).
Proof.
  intros Hm Hc. rewrite missing_nil in Hm.
  apply elem_of_app in Hc as [Hc | Hc].
  - by apply add_column_old, add_column_old, Hm.
  - each_label Hc; [apply add_column_old |]; apply add_column_new.
Qed.

(** A run on a file that is read and has the required columns: it goes
    through every section and leaves the page of [page_layout], or it ends
    in a library call that raises, with a page that holds the header and
    no error box.  It does not stop and looks up no absent column. *)
Lemma run_accepted w f raw :
  uploaded w = Some f → read f = inr raw → missing raw = [] →
  wp app (fresh w)
    (fun s w' =>
       ∃ es, parse_dates raw ≫= derive = Ok (df s)
         ∧ selection s = chosen w
         ∧ apply_filters (df s) (chosen w) = Ok (fdf s)
         ∧ compute_kpis (fdf s) = Ok (kpi s)
         ∧ raises (IntOf (total_effort (kpi s))) = None
         ∧ page_layout (radio_value w) (df s) (fdf s) (kpi s) es
         ∧ w' = note PIPELINE (paint es (fresh w)))
    (extends (paint PAGE_TOP (fresh w))).
Proof.
  intros Hu Hr Hm.
  pose proof (validated_cases raw Hm) as Hv.
  pose proof (derived_columns raw) as Hcols.
  unfold app.
  apply wp_bind, wp_draw.
  apply wp_bind, (wp_eq _ _ (uploaded w) (paint PAGE_TOP (fresh w))); [reflexivity |].
  rewrite Hu. set (w1 := paint PAGE_TOP (fresh w)).
  apply wp_bind, wp_enter.
  unfold read_input. rewrite Hr. apply wp_bind, wp_ret.
  apply wp_bind, wp_enter.
  unfold validate_columns. rewrite Hm. apply wp_bind, wp_ret.
  apply wp_bind, wp_enter.
  apply wp_bind, wp_lift.
  destruct (parse_dates raw) as [p | k | e] eqn:Ep; [| done | grown].
  rewrite ok_bind in Hv.
  apply wp_bind, wp_enter.
  apply wp_bind, wp_lift.
  destruct (derive p) as [d | k | e] eqn:Ed; [| done | grown].
  destruct Hv as [_ Hd].
  assert (∀ c, c ∈ (REQUIRED_COLUMNS ++ ["Completed"; "OnTime"])%list → c ∈ columns d)
    as Hdc by (intros c Hc; rewrite Hd; by apply Hcols).
  apply wp_bind, wp_enter.
  apply wp_bind, filter_widgets_wp; [apply Hdc; listed .. | |].
  2: { intros w' Hw'. refine (extends_trans _ _ _ _ Hw'). grown. }
  intros o1 o2 o3 o4 o5 Eo1 Eo2 Eo3 Eo4 Eo5.
  change (chosen _) with (chosen w).
  destruct (apply_filters_ok d (chosen w)) as (mask & Ef & _);
    [apply Hdc; listed .. |].
  set (fd := select d mask) in *.
  assert (∀ c, c ∈ (REQUIRED_COLUMNS ++ ["Completed"; "OnTime"])%list → c ∈ columns fd)
    as Hfd by done.
  apply wp_bind, wp_lift. rewrite Ef.
  apply wp_bind, wp_enter.
  apply wp_bind, wp_lift.
  pose proof (compute_kpis_cases fd) as Hk.
  destruct (compute_kpis fd) as [k | c | e] eqn:Ek;
    [| apply Hk; apply Hfd; listed | grown].
  clear Hk.
  apply wp_bind, show_metrics_wp.
  2: { intros w' Hw'. refine (extends_trans _ _ _ _ Hw'). grown. }
  intros Ei. pose proof (metric_tiles_quiet k) as Hkq.
  apply wp_bind, wp_enter.
  apply wp_bind, show_table_wp.
  2: { intros w' Hw'. refine (extends_trans _ _ _ _ Hw'). grown. }
  apply wp_bind, wp_enter.
  destruct (revenue_chart_shows fd) as (c1 & P1 & S1); [apply Hfd; listed .. |].
  pose proof (revenue_panel_quiet _ _ P1) as Q1.
  apply wp_bind, (wp_shows _ _ _ _ _ S1).
  apply wp_bind, wp_enter.
  destruct (trend_chart_shows fd) as (c2 & P2 & S2); [apply Hfd; listed .. |].
  pose proof (trend_panel_quiet _ _ P2) as Q2.
  apply wp_bind, (wp_shows _ _ _ _ _ S2).
  apply wp_bind, wp_enter.
  destruct (category_chart_shows fd) as (c3 & P3 & S3); [apply Hfd; listed .. |].
  pose proof (category_panel_quiet _ _ P3) as Q3.
  apply wp_bind, (wp_shows _ _ _ _ _ S3).
  apply wp_bind, wp_enter.
  apply wp_bind, bubble_chart_wp; [apply Hfd; listed .. | | grown].
  intros c4 P4. pose proof (bubble_panel_quiet _ _ P4) as Q4.
  apply wp_bind, wp_enter.
  apply wp_bind, timeline_wp; [apply Hfd; listed .. | | grown].
  intros tl P5. pose proof (timeline_panel_quiet _ _ _ P5) as Q5.
  apply wp_bind, wp_st. apply wp_ret.
  eexists. cbn [df selection fdf kpi].
  split; [exact Ed |]. split; [done |]. split; [done |].
  split; [done |]. split; [done |]. split.
  { exists o1, o2, o3, o4, o5, c1, c2, c3, c4, tl.
    repeat (split; [done |]). reflexivity. }
  reflexivity.
Qed.

(** Every run is of one of the four kinds. *)
Lemma run_cases w :
  uploaded w = None
  ∨ (∃ f e, uploaded w = Some f ∧ read f = inl e)
  ∨ (∃ f raw, uploaded w = Some f ∧ read f = inr raw ∧ missing raw ≠ [])
  ∨ (∃ f raw, uploaded w = Some f ∧ read f = inr raw ∧ missing raw = []).
Proof.
  destruct (uploaded w) as [f |]; [| by left].
  right. destruct (read f) as [e | raw] eqn:E.
  - left. by exists f, e.
  - right. destruct (missing raw) as [| c m] eqn:Em.
    + right. by exists f, raw.
    + left. exists f, raw. by rewrite Em.
Qed.

(** What a run that ends normally has done. *)
Lemma run_done w s w' :
  run w = (Done s, w') →
  ∃ f raw es,
    uploaded w = Some f ∧ read f = inr raw ∧ missing raw = []
    ∧ parse_dates raw ≫= derive = Ok (df s)
    ∧ selection s = chosen w
    ∧ apply_filters (df s) (chosen w) = Ok (fdf s)
    ∧ compute_kpis (fdf s) = Ok (kpi s)
    ∧ raises (IntOf (total_effort (kpi s))) = None
    ∧ page_layout (radio_value w) (df s) (fdf s) (kpi s) es
    ∧ w' = note PIPELINE (paint es (fresh w)).
Proof.
  intros E.
  destruct (run_cases w)
    as [H | [(f & e & H & Er) | [(f & raw & H & Er & Hm) | (f & raw & H & Er & Hm)]]].
  - by rewrite (run_no_upload _ H) in E.
  - by rewrite (run_unreadable _ _ _ H Er) in E.
  - by rewrite (run_missing _ _ _ H Er Hm) in E.
  - pose proof (wp_done _ _ _ _ _ _ (run_accepted w f raw H Er Hm) E) as (es & Hs).
    exists f, raw, es. by repeat split; try apply Hs.
Qed.

(** A run that ends in a library exception was given an accepted file,
    and its page holds the header and no error box. *)
Lemma run_failed w e w' :
  run w = (Failed e, w') →
  (∃ f raw, uploaded w = Some f ∧ read f = inr raw ∧ missing raw = [])
  ∧ extends (paint PAGE_TOP (fresh w)) w'.
Proof.
  intros E.
  destruct (run_cases w)
    as [H | [(f & e' & H & Er) | [(f & raw & H & Er & Hm) | (f & raw & H & Er & Hm)]]].
  - by rewrite (run_no_upload _ H) in E.
  - by rewrite (run_unreadable _ _ _ H Er) in E.
  - by rewrite (run_missing _ _ _ H Er Hm) in E.
  - split; [by exists f, raw |].
    exact (wp_failed _ _ _ _ _ _ (run_accepted w f raw H Er Hm) E).
Qed.

(** No run ends with an uncaught [KeyError]: the column check comes before
    every column access. *)
Lemma run_never_raises w c : (run w).1 ≠ Raised c.
Proof.
  destruct (run_cases w)
    as [H | [(f & e & H & E) | [(f & raw & H & E & Hm) | (f & raw & H & E & Hm)]]].
  - by rewrite (run_no_upload _ H).
  - by rewrite (run_unreadable _ _ _ H E).
  - by rewrite (run_missing _ _ _ H E Hm).
  - pose proof (run_accepted w f raw H E Hm) as Hw. unfold wp in Hw.
    fold (run w) in Hw. by destruct (run w) as [[s | | c' | e] w'].
Qed.

(** A run on an accepted file does not stop. *)
Lemma run_accepted_outcome w f raw :
  uploaded w = Some f → read f = inr raw → missing raw = [] →
  match (run w).1 with
  | Done _ | Failed _ => True
  | Stopped | Raised _ => False
  end.
Proof.
  intros H E Hm. pose proof (run_accepted w f raw H E Hm) as Hw. unfold wp in Hw.
  fold (run w) in Hw. by destruct (run w) as [[s | | c' | e] w'].
Qed.

(** The page of a run on an accepted file holds the header, then
    elements that are no error boxes. *)
Lemma run_accepted_page w f raw :
  uploaded w = Some f → read f = inr raw → missing raw = [] →
  ∃ es, screen (run w).2 = (PAGE_TOP ++ es)%list
    ∧ Forall (fun e => is_error e = false) es.
Proof.
  intros H E Hm. pose proof (run_accepted w f raw H E Hm) as Hw. unfold wp in Hw.
  fold (run w) in Hw.
  destruct (run w) as [[s | | c' | e] w']; [| done | done | exact Hw].
  destruct Hw as (es & _ & _ & _ & _ & _ & Hp & ->).
  pose proof (page_layout_no_error _ _ _ _ _ Hp) as Hq.
  destruct Hp as (o1 & o2 & o3 & o4 & o5 & c1 & c2 & c3 & c4 & tl
                  & _ & _ & _ & _ & _ & _ & _ & _ & _ & _ & ->).
  eexists. split; [reflexivity |].
  by apply Forall_app in Hq as [_ Hq].
Qed.

End Runs.

(** ** Date parsing, row by row *)

Section ParsedRows.
Context `{Lib : Library}.

(** A cell of a date column after parsing: what [to_datetime] makes of the
    cell that was there, and missing when that is nothing. *)
Lemma parsed_row_date raw r c :
  c ∈ DATE_COLUMNS →
  parsed_row raw r !! c
  = Some (to_datetime_coerce (cell_at c) (column (cell_at c) (rows raw)) r).
Proof.
  intros Hc. unfold parsed_row, DATE_COLUMNS in *. cbn [foldl].
  unfold to_datetime_coerce, cell_at.
  each_label Hc;
    repeat first [ rewrite lookup_insert_eq | rewrite lookup_insert_ne by done ];
    done.
Qed.

Lemma parsed_row_not_a_date raw r c :
  c ∈ DATE_COLUMNS → not_a_date (column (cell_at c) (rows raw)) (cell_at c r) →
  parsed_row raw r !! c = Some CNA.
Proof.
  intros Hc Hn. rewrite (parsed_row_date raw r c Hc). f_equal.
  unfold to_datetime_coerce. destruct Hn as [-> | Hn]; [done |].
  destruct (cell_at c r); try done; by rewrite Hn.
Qed.

Lemma parsed_row_other raw r c : c ∉ DATE_COLUMNS → parsed_row raw r !! c = r !! c.
Proof.
  intros Hc. unfold parsed_row, DATE_COLUMNS in *. cbn [foldl].
  rewrite !not_elem_of_cons in Hc. destruct Hc as (? & ? & ? & ? & _).
  by rewrite !lookup_insert_ne.
Qed.

End ParsedRows.

(** ** The table of a validated file, and its on-time share *)

Section Tables.
Context `{Lib : Library}.

Lemma validated_rows raw d r :
  missing raw = [] → parse_dates raw ≫= derive = Ok d →
  r ∈ rows d ↔ ∃ r0, r0 ∈ rows raw ∧ r = derived_row (parsed_row raw r0).
Proof.
  intros Hm E. rewrite (validated_table raw d Hm E). cbn [rows].
  rewrite <- list_fmap_compose, list_elem_of_fmap. split.
  - intros (r0 & -> & H). by exists r0.
  - intros (r0 & H & ->). by exists r0.
Qed.

Lemma validated_columns raw d c :
  missing raw = [] → parse_dates raw ≫= derive = Ok d →
  c ∈ (REQUIRED_COLUMNS ++ ["Completed"; "OnTime"])%list → c ∈ columns d.
Proof.
  intros Hm E Hc. rewrite (validated_table raw d Hm E). cbn [columns].
  by apply derived_columns.
Qed.

Lemma filtered_columns df f fd : apply_filters df f = Ok fd → columns fd = columns df.
Proof.
  unfold apply_filters. destruct (build_mask df f) as [mask | c | e]; [| done ..].
  rewrite ok_bind, ok_ret. by intros [= <-].
Qed.

Lemma filtered_sublist df f fd :
  apply_filters df f = Ok fd → rows fd `sublist_of` rows df.
Proof.
  unfold apply_filters. destruct (build_mask df f) as [mask | c | e]; [| done ..].
  rewrite ok_bind, ok_ret. intros [= <-]. apply sublist_filter.
Qed.

Lemma filtered_rows df f fd r :
  apply_filters df f = Ok fd → r ∈ rows fd → r ∈ rows df.
Proof.
  intros E H. exact (elem_of_sublist _ _ _ H (filtered_sublist _ _ _ E)).
Qed.

Lemma series_count_all (s : series) rs :
  (∀ r, r ∈ rs → notna (s r) = true) → series_count s rs = length rs.
Proof.
  intros H. unfold series_count. f_equal.
  induction rs as [| r rs IH]; [done |].
  rewrite filter_cons_True by (apply H; left).
  f_equal. apply IH. intros r' Hr'. apply H. by right.
Qed.

Lemma any_notna_all (s : series) rs :
  rs ≠ [] → (∀ r, r ∈ rs → notna (s r) = true) → any_notna s rs = true.
Proof.
  intros Hne H. destruct rs as [| r rs]; [done |].
  cbn. rewrite H by left. done.
Qed.

Lemma filter_all {A} (P : A → Prop) `{∀ x, Decision (P x)} (l : list A) :
  (∀ x, x ∈ l → P x) → filter P l = l.
Proof.
  induction l as [| x l IH]; intros HP; [done |].
  rewrite filter_cons_True by (apply HP; left).
  f_equal. apply IH. intros y Hy. apply HP. by right.
Qed.

Lemma filter_length_le {A} (P Q : A → Prop)
    `{∀ x, Decision (P x)} `{∀ x, Decision (Q x)} (l : list A) :
  (∀ x, x ∈ l → P x → Q x) → (length (filter P l) ≤ length (filter Q l))%nat.
Proof.
  induction l as [| x l IH]; intros HPQ; [done |].
  assert (length (filter P l) ≤ length (filter Q l))%nat as IH'
    by (apply IH; intros y Hy; apply HPQ; by right).
  destruct (decide (P x)) as [HP | HP].
  - rewrite (filter_cons_True P) by done.
    rewrite (filter_cons_True Q) by (apply HPQ; [left | done]).
    cbn. lia.
  - rewrite (filter_cons_False P) by done.
    destruct (decide (Q x)).
    + rewrite (filter_cons_True Q) by done. cbn. lia.
    + by rewrite (filter_cons_False Q).
Qed.

(** The flags of the rows of a validated table. *)
Lemma validated_flags raw d r :
  missing raw = [] → parse_dates raw ≫= derive = Ok d → r ∈ rows d →
  (∃ b, r !! "Completed" = Some (CBool b)
        ∧ (b = true ↔ ∃ s, r !! "Status" = Some (CText s)
                           ∧ Str.eq_nocase s "completed"))
  ∧ (∃ b, r !! "OnTime" = Some (CBool b)
          ∧ (b = true ↔ r !! "Completed" = Some (CBool true)
                        ∧ ∃ a p, r !! "ActualEnd" = Some (CTime a)
                                 ∧ r !! "PlannedEnd" = Some (CTime p)
                                 ∧ (instant a <= instant p)%Z)).
Proof.
  intros Hm E Hin.
  apply (validated_rows raw d r Hm E) in Hin as (r0 & _ & ->).
  split; [apply completed_flag | apply ontime_flag].
Qed.

End Tables.

(** ** The KPIs of a filtered table *)

Section Filtered.
Context `{Lib : Library}.

Lemma filtered_flag raw d sel fd r :
  missing raw = [] → parse_dates raw ≫= derive = Ok d →
  apply_filters d sel = Ok fd → r ∈ rows fd →
  ∃ b, r !! "OnTime" = Some (CBool b)
       ∧ (b = true → r !! "Completed" = Some (CBool true)
                     ∧ ∃ a p, r !! "ActualEnd" = Some (CTime a)
                              ∧ r !! "PlannedEnd" = Some (CTime p)).
Proof.
  intros Hm Ed Ef Hin. apply (filtered_rows _ _ _ _ Ef) in Hin.
  destruct (validated_flags raw d r Hm Ed Hin) as [_ (b & Eb & Hb)].
  exists b. split; [done |]. intros ->.
  destruct Hb as [Hb _]. destruct (Hb eq_refl) as (Hc & a & p & Ea & Epl & _).
  split; [done |]. by exists a, p.
Qed.

(** The KPIs of a table filtered from a validated table. *)
Lemma filtered_kpis raw d sel fd k :
  missing raw = [] → parse_dates raw ≫= derive = Ok d →
  apply_filters d sel = Ok fd → compute_kpis fd = Ok k →
  total k = length (rows fd)
  ∧ completed k = count_true (cell_at "Completed") (rows fd)
  ∧ ontime k = match rows fd with
               | [] => None
               | _ :: _ =>
                   Some (py_round
                           (PrimFloat.mul 100
                              (PrimFloat.div
                                 (float_of_nat (count_true (cell_at "OnTime") (rows fd)))
                                 (float_of_nat (length (rows fd))))) 1)
               end.
Proof.
  intros Hm Ed Ef Ek.
  assert (∀ c, c ∈ (REQUIRED_COLUMNS ++ ["Completed"; "OnTime"])%list → c ∈ columns fd)
    as Hfd.
  { intros c Hc. rewrite (filtered_columns _ _ _ Ef).
    by apply (validated_columns raw d c Hm Ed). }
  pose proof (compute_kpis_cases fd) as Hk. rewrite Ek in Hk.
  destruct Hk as (Et & Ec & Eo); [apply Hfd; listed .. |].
  split; [done |]. split; [done |]. rewrite Eo.
  assert (∀ r, r ∈ rows fd → notna (cell_at "OnTime" r) = true) as Hb.
  { intros r Hin. destruct (filtered_flag raw d sel fd r Hm Ed Ef Hin) as (b & Eb & _).
    unfold cell_at. by rewrite Eb. }
  destruct (rows fd) as [| r rs] eqn:Er; [done |].
  rewrite any_notna_all; [| done | done].
  unfold bool_mean. by rewrite (series_count_all _ _ Hb).
Qed.

End Filtered.

(** * The claims *)

Section Claims.
Context `{Lib : Library}.

(** C1.  For every row of the validated table, the derived flag [Completed]
    is true if and only if the row's [Status], compared without regard to
    case, equals "completed".  The validated table is what date parsing
    and the derivation of the flags return on an uploaded file that is
    read and has all required columns; there is one when no library call
    of these lines raises, and it is then the table of every run on this
    file that ends normally. *)
Theorem C1_completed_iff_status w f raw d :
  uploaded w = Some f → read f = inr raw → missing raw = [] →
  parse_dates raw ≫= derive = Ok d →
  (∀ r, r ∈ rows d →
     ∃ b, r !! "Completed" = Some (CBool b)
          ∧ (b = true ↔ ∃ t, r !! "Status" = Some (CText t)
                             ∧ Str.eq_nocase t "completed"))
  ∧ (∀ s w', run w = (Done s, w') → df s = d).
Proof.
  intros Hu Hr Hm Ed. split.
  - intros r Hin. by destruct (validated_flags raw d r Hm Ed Hin) as [H _].
  - intros s w' E.
    destruct (run_done w s w' E) as (f' & raw' & es & Hu' & Hr' & _ & Ed' & _).
    congruence.
Qed.

(** C2.  For every row of the validated table, the derived flag [OnTime] is
    true if and only if the row's [Completed] flag is true and its
    [ActualEnd] date is less than or equal to its [PlannedEnd] date.  The
    validated table is as in C1: what lines 52-57 return when no library
    call in them raises, and the table of every run on the file that ends
    normally. *)
Theorem C2_ontime_iff_completed_in_time w f raw d :
  uploaded w = Some f → read f = inr raw → missing raw = [] →
  parse_dates raw ≫= derive = Ok d →
  (∀ r, r ∈ rows d →
     ∃ b, r !! "OnTime" = Some (CBool b)
          ∧ (b = true ↔ r !! "Completed" = Some (CBool true)
                        ∧ ∃ a p, r !! "ActualEnd" = Some (CTime a)
                                 ∧ r !! "PlannedEnd" = Some (CTime p)
                                 ∧ (instant a <= instant p)%Z))
  ∧ (∀ s w', run w = (Done s, w') → df s = d).
Proof.
  intros Hu Hr Hm Ed. split.
  - intros r Hin. by destruct (validated_flags raw d r Hm Ed Hin) as [_ H].
  - intros s w' E.
    destruct (run_done w s w' E) as (f' & raw' & es & Hu' & Hr' & _ & Ed' & _).
    congruence.
Qed.

(** C3.  If any of the thirteen required columns is absent from the uploaded
    table, the dataset is rejected as a whole: the run stops at the column
    check, the page shows the error naming the missing columns and nothing
    after it, and no later section of the script (date parsing, derived
    columns, filtering, KPIs, rendering) is entered. *)
Theorem C3_missing_column_rejects w f raw c :
  uploaded w = Some f → read f = inr raw →
  c ∈ REQUIRED_COLUMNS → c ∉ columns raw →
  ∃ w', run w = (Stopped, w')
    ∧ c ∈ missing raw
    ∧ screen w' = (PAGE_TOP
                   ++ [Error ("Your file is missing required columns: "
                              ++ Str.repr_list (missing raw))])%list
    ∧ marks w' = [ReadInput; ValidateColumns].
Proof.
  intros Hu Hr Hc Hn.
  assert (c ∈ missing raw) as Hin by (apply list_elem_of_filter; done).
  assert (missing raw ≠ []) as Hm.
  { intros E. rewrite E in Hin. by apply elem_of_nil in Hin. }
  rewrite (run_missing w f raw Hu Hr Hm). eexists. split; [done |].
  split; [done |]. split; reflexivity.
Qed.

(** C6.  If the uploaded file fails to parse, as CSV when its name ends in
    ".csv" without regard to case and as XLSX otherwise, the page shows an
    error message that contains the failure, and the run stops there: no
    section after the reading is entered. *)
Theorem C6_unreadable_file_stops w f e :
  uploaded w = Some f →
  (Str.ends_with_nocase (name f) ".csv" ∧ read_csv f = inl e)
  ∨ (¬ Str.ends_with_nocase (name f) ".csv" ∧ read_excel f = inl e) →
  ∃ w', run w = (Stopped, w')
    ∧ screen w' = (PAGE_TOP ++ [Error ("Could not read file: " ++ e)])%list
    ∧ marks w' = [ReadInput].
Proof.
  intros Hu H.
  assert (read f = inl e) as Hr.
  { unfold read. destruct H as [[Hn E] | [Hn E]].
    - apply StrFacts.endswith_lower_csv in Hn. by rewrite Hn.
    - rewrite <- StrFacts.endswith_lower_csv in Hn.
      apply not_true_is_false in Hn. by rewrite Hn. }
  rewrite (run_unreadable w f e Hu Hr). eexists. split; [done |].
  split; reflexivity.
Qed.

(** C4.  For every table and every choice of the five selections, a row is
    in the filtered table if and only if it is a row of the table and, for
    each of the five fields whose selection is not empty, its value of the
    field is a member of the selection.  An empty selection imposes
    nothing: with all five empty, every row is kept. *)
Theorem C4_filtered_rows df f :
  "Track" ∈ columns df → "Category" ∈ columns df → "Module" ∈ columns df →
  "Quarter" ∈ columns df → "Status" ∈ columns df →
  ∃ fd, apply_filters df f = Ok fd
    ∧ (∀ r, r ∈ rows fd ↔
            r ∈ rows df
            ∧ (track_f f ≠ [] → member (cell_at "Track" r) (track_f f))
            ∧ (cat_f f ≠ [] → member (cell_at "Category" r) (cat_f f))
            ∧ (mod_f f ≠ [] → member (cell_at "Module" r) (mod_f f))
            ∧ (qtr_f f ≠ [] → member (cell_at "Quarter" r) (qtr_f f))
            ∧ (status_f f ≠ [] → member (cell_at "Status" r) (status_f f)))
    ∧ (track_f f = [] ∧ cat_f f = [] ∧ mod_f f = [] ∧ qtr_f f = []
       ∧ status_f f = [] → rows fd = rows df).
Proof.
  intros H1 H2 H3 H4 H5.
  destruct (apply_filters_ok df f H1 H2 H3 H4 H5) as (mask & E & Hmask).
  exists (select df mask). split; [done |]. split.
  - intros r. cbn [rows select]. rewrite list_elem_of_filter, Hmask.
    rewrite !andb_true_iff, !passes_spec. tauto.
  - intros (E1 & E2 & E3 & E4 & E5). cbn [rows select].
    apply filter_all. intros r _. rewrite Hmask, E1, E2, E3, E4, E5. done.
Qed.

(** C8.  For every row of the validated table, [OnTime] implies
    [Completed]; [OnTime] is a boolean, never missing, and it is false
    whenever [ActualEnd] or [PlannedEnd] is missing or is not a date.  So
    a row without an end date counts against the on-time percentage
    instead of being left out of it: whatever the filters select, the
    percentage of a table with rows is the number of on-time rows over
    the number of all its rows, and only rows with both end dates are
    among the on-time rows.  The validated table is as in C1, and the
    filtered table and the KPIs of a run that ends normally are computed
    from it. *)
Theorem C8_ontime_false_without_dates w f raw d :
  uploaded w = Some f → read f = inr raw → missing raw = [] →
  parse_dates raw ≫= derive = Ok d →
  (∀ r, r ∈ rows d →
     ∃ b, r !! "OnTime" = Some (CBool b)
          ∧ (b = true → r !! "Completed" = Some (CBool true))
          ∧ (r !! "ActualEnd" = Some CNA ∨ r !! "PlannedEnd" = Some CNA
             → b = false))
  ∧ (∀ r0, r0 ∈ rows raw →
       not_a_date (column (cell_at "ActualEnd") (rows raw)) (cell_at "ActualEnd" r0)
       ∨ not_a_date (column (cell_at "PlannedEnd") (rows raw)) (cell_at "PlannedEnd" r0) →
       derived_row (parsed_row raw r0) ∈ rows d
       ∧ derived_row (parsed_row raw r0) !! "OnTime" = Some (CBool false))
  ∧ (∀ sel fd k, apply_filters d sel = Ok fd → compute_kpis fd = Ok k →
       (rows fd ≠ [] →
          ontime k
          = Some (py_round
                    (PrimFloat.mul 100
                       (PrimFloat.div
                          (float_of_nat (count_true (cell_at "OnTime") (rows fd)))
                          (float_of_nat (length (rows fd))))) 1))
       ∧ (count_true (cell_at "OnTime") (rows fd)
          ≤ length (filter (fun r => has_all ["ActualEnd"; "PlannedEnd"] r = true)
                      (rows fd)))%nat)
  ∧ (∀ s w', run w = (Done s, w') →
       df s = d ∧ apply_filters d (chosen w) = Ok (fdf s)
       ∧ compute_kpis (fdf s) = Ok (kpi s)).
Proof.
  intros Hu Hr Hm Ed.
  assert (∀ r, r ∈ rows d →
            ∃ b, r !! "OnTime" = Some (CBool b)
                 ∧ (b = true → r !! "Completed" = Some (CBool true))
                 ∧ (r !! "ActualEnd" = Some CNA ∨ r !! "PlannedEnd" = Some CNA
                    → b = false)) as Hrow.
  { intros r Hin.
    destruct (validated_flags raw d r Hm Ed Hin) as [_ (b & Eb & Hb)].
    exists b. split; [done |]. split; [by intros H; apply Hb in H as [H _] |].
    intros Hna. destruct b; [| done].
    destruct Hb as [Hb _]. destruct (Hb eq_refl) as (_ & a & p & Ea & Epl & _).
    destruct Hna as [Hna | Hna]; congruence. }
  split; [exact Hrow |]. split; [| split].
  - intros r0 Hin Hn.
    assert (derived_row (parsed_row raw r0) ∈ rows d) as Hd
      by (apply (validated_rows raw d _ Hm Ed); by exists r0).
    split; [done |].
    destruct (Hrow _ Hd) as (b & Eb & _ & Hb). rewrite Eb. do 2 f_equal.
    apply Hb. rewrite !derived_row_other by done.
    destruct Hn as [Hn | Hn]; [left | right];
      (apply parsed_row_not_a_date; [listed | done]).
  - intros sel fd k Ef Ek.
    destruct (filtered_kpis raw d sel fd k Hm Ed Ef Ek) as (_ & _ & Eo). split.
    + intros Hne. rewrite Eo. by destruct (rows fd).
    + unfold count_true. apply filter_length_le. intros r Hin Ho.
      destruct (filtered_flag raw d sel fd r Hm Ed Ef Hin) as (b & Eb & Hb).
      unfold cell_at in Ho. rewrite Eb in Ho. cbn in Ho.
      destruct (Hb Ho) as (_ & a & p & Ea & Epl).
      unfold has_all, cell_at. cbn. by rewrite Ea, Epl.
  - intros s w' E.
    destruct (run_done w s w' E)
      as (f' & raw' & es & Hu' & Hr' & _ & Ed' & _ & Ef & Ek & _).
    assert (df s = d) as <- by congruence. done.
Qed.


(** C10.  Whenever the filtered table is empty, the KPI scalars take fixed
    defaults: the completed-over-total text is "0/0", total revenue, total
    effort and average break-even are 0.0, and the on-time percentage is
    None, shown as "N/A". *)
Theorem C10_empty_table_defaults fd :
  "Completed" ∈ columns fd → "OnTime" ∈ columns fd → rows fd = [] →
  ∃ k, compute_kpis fd = Ok k
    ∧ planned_vs_completed k = "0/0"
    ∧ total_rev k = 0%float
    ∧ total_effort k = 0%float
    ∧ avg_breakeven k = 0%float
    ∧ ontime k = None
    ∧ metrics k !! 2%nat = Some ("On-Time Delivery %", "N/A").
Proof.
  intros Hc Ho E. exists NO_DATA.
  split; [by apply compute_kpis_empty |]. repeat (split; [reflexivity |]).
  reflexivity.
Qed.

(** C5, amended.  On every run that ends normally, the script has gone
    through its sections in this order: read the uploaded file, validate
    the schema, parse the date columns, compute the derived columns, apply
    the filters, compute the KPI scalars, render the table, render four
    chart panels, render the timeline with its toggle; a panel shows the
    chart of its data, or its notice when it has no data.  Such a run was
    given a file that is read without error and has all thirteen required
    columns.  The order is that of the data and of the page: the derived
    columns are computed from the parsed table, the filters take the
    derived table, the KPIs are computed from the filtered table only, and
    the page holds, after the header, the filters, the KPI tiles, the
    table, the four panels and the timeline, each drawn from the filtered
    table, in this order. *)
Theorem C5_pipeline_order_on_valid_file w s w' :
  run w = (Done s, w') →
  ∃ f raw parsed,
    uploaded w = Some f ∧ read f = inr raw ∧ missing raw = []
    ∧ parse_dates raw = Ok parsed
    ∧ derive parsed = Ok (df s)
    ∧ selection s = chosen w
    ∧ apply_filters (df s) (selection s) = Ok (fdf s)
    ∧ compute_kpis (fdf s) = Ok (kpi s)
    ∧ page_layout (radio_value w) (df s) (fdf s) (kpi s) (screen w')
    ∧ marks w' = PIPELINE.
Proof.
  intros E.
  destruct (run_done w s w' E)
    as (f & raw & es & Hu & Hr & Hm & Ed & Es & Ef & Ek & _ & Hp & ->).
  destruct (parse_dates raw) as [parsed | k | e] eqn:Ep; [| done ..].
  exists f, raw, parsed. rewrite Es. by repeat split.
Qed.

End Claims.

(** * The claims on sample files *)

(** The flags of the three sample initiatives: all completed, only the
    first one on time; the third has no actual end date. *)
Example roadmap_flags :
  match (run (Lib := Demo.library) (Demo.session_with (Some Demo.roadmap_csv))).1 with
  | Done s => (fun r : row => (r !! "Status", r !! "Completed", r !! "OnTime"))
                <$> rows (df s)
  | _ => []
  end
  = [ (Some (CText "Completed"), Some (CBool true), Some (CBool true));
      (Some (CText "COMPLETED"), Some (CBool true), Some (CBool false));
      (Some (CText "completed"), Some (CBool true), Some (CBool false)) ].
Proof. vm_compute. reflexivity. Qed.

(** With the track filter on AI the first and third initiatives remain. *)
Example roadmap_filtered :
  match (run (Lib := Demo.library) (Demo.session_ai (Some Demo.roadmap_csv))).1 with
  | Done s => (fun r : row => r !! "Initiative") <$> rows (fdf s)
  | _ => []
  end
  = [Some (CText "Search"); Some (CText "Export")].
Proof. vm_compute. reflexivity. Qed.

Lemma C1_witness :
  (∀ r, r ∈ rows roadmap_table →
     ∃ b, r !! "Completed" = Some (CBool b)
          ∧ (b = true ↔ ∃ t, r !! "Status" = Some (CText t)
                             ∧ Str.eq_nocase t "completed"))
  ∧ (∀ s w', run (Lib := Demo.library) (Demo.session_with (Some Demo.roadmap_csv))
             = (Done s, w') → df s = roadmap_table).
Proof.
  apply (C1_completed_iff_status (Lib := Demo.library)
           (Demo.session_with (Some Demo.roadmap_csv)) Demo.roadmap_csv
           (Demo.frame_of Demo.roadmap_csv) roadmap_table);
    vm_compute; reflexivity.
Defined.

Lemma C2_witness :
  (∀ r, r ∈ rows roadmap_table →
     ∃ b, r !! "OnTime" = Some (CBool b)
          ∧ (b = true ↔ r !! "Completed" = Some (CBool true)
                        ∧ ∃ a p, r !! "ActualEnd" = Some (CTime a)
                                 ∧ r !! "PlannedEnd" = Some (CTime p)
                                 ∧ (instant a <= instant p)%Z))
  ∧ (∀ s w', run (Lib := Demo.library) (Demo.session_with (Some Demo.roadmap_csv))
             = (Done s, w') → df s = roadmap_table).
Proof.
  apply (C2_ontime_iff_completed_in_time (Lib := Demo.library)
           (Demo.session_with (Some Demo.roadmap_csv)) Demo.roadmap_csv
           (Demo.frame_of Demo.roadmap_csv) roadmap_table);
    vm_compute; reflexivity.
Defined.

Lemma C3_witness :
  ∃ w', run (Lib := Demo.library) (Demo.session_with (Some Demo.no_status_csv))
        = (Stopped, w')
    ∧ "Status" ∈ missing (Demo.frame_of Demo.no_status_csv)
    ∧ screen w' = (PAGE_TOP
                   ++ [Error ("Your file is missing required columns: "
                              ++ Str.repr_list
                                   (missing (Demo.frame_of Demo.no_status_csv)))])%list
    ∧ marks w' = [ReadInput; ValidateColumns].
Proof.
  apply (C3_missing_column_rejects (Lib := Demo.library) _ Demo.no_status_csv
           (Demo.frame_of Demo.no_status_csv) "Status").
  - vm_compute; reflexivity.
  - vm_compute; reflexivity.
  - listed.
  - listed.
Defined.

Lemma C4_witness :
  ∃ fd, apply_filters (Demo.frame_of Demo.roadmap_csv) Demo.only_ai = Ok fd
    ∧ (∀ r, r ∈ rows fd ↔
            r ∈ rows (Demo.frame_of Demo.roadmap_csv)
            ∧ (track_f Demo.only_ai ≠ [] → member (cell_at "Track" r) (track_f Demo.only_ai))
            ∧ (cat_f Demo.only_ai ≠ [] → member (cell_at "Category" r) (cat_f Demo.only_ai))
            ∧ (mod_f Demo.only_ai ≠ [] → member (cell_at "Module" r) (mod_f Demo.only_ai))
            ∧ (qtr_f Demo.only_ai ≠ [] → member (cell_at "Quarter" r) (qtr_f Demo.only_ai))
            ∧ (status_f Demo.only_ai ≠ []
               → member (cell_at "Status" r) (status_f Demo.only_ai)))
    ∧ (track_f Demo.only_ai = [] ∧ cat_f Demo.only_ai = [] ∧ mod_f Demo.only_ai = []
       ∧ qtr_f Demo.only_ai = [] ∧ status_f Demo.only_ai = []
       → rows fd = rows (Demo.frame_of Demo.roadmap_csv)).
Proof.
  apply (C4_filtered_rows (Demo.frame_of Demo.roadmap_csv) Demo.only_ai); listed.
Defined.

Lemma C5_witness :
  ∃ f raw parsed,
    uploaded (Demo.session_ai (Some Demo.roadmap_csv)) = Some f
    ∧ read (Lib := Demo.library) f = inr raw ∧ missing raw = []
    ∧ parse_dates (Lib := Demo.library) raw = Ok parsed
    ∧ derive (Lib := Demo.library) parsed
      = Ok (df (finished (run (Lib := Demo.library)
                            (Demo.session_ai (Some Demo.roadmap_csv)))))
    ∧ selection (finished (run (Lib := Demo.library)
                             (Demo.session_ai (Some Demo.roadmap_csv))))
      = chosen (Demo.session_ai (Some Demo.roadmap_csv))
    ∧ apply_filters
        (df (finished (run (Lib := Demo.library)
                         (Demo.session_ai (Some Demo.roadmap_csv)))))
        (selection (finished (run (Lib := Demo.library)
                                (Demo.session_ai (Some Demo.roadmap_csv)))))
      = Ok (fdf (finished (run (Lib := Demo.library)
                             (Demo.session_ai (Some Demo.roadmap_csv)))))
    ∧ compute_kpis (Lib := Demo.library)
        (fdf (finished (run (Lib := Demo.library)
                          (Demo.session_ai (Some Demo.roadmap_csv)))))
      = Ok (kpi (finished (run (Lib := Demo.library)
                             (Demo.session_ai (Some Demo.roadmap_csv)))))
    ∧ page_layout (Lib := Demo.library)
        (radio_value (Demo.session_ai (Some Demo.roadmap_csv)))
        (df (finished (run (Lib := Demo.library)
                         (Demo.session_ai (Some Demo.roadmap_csv)))))
        (fdf (finished (run (Lib := Demo.library)
                          (Demo.session_ai (Some Demo.roadmap_csv)))))
        (kpi (finished (run (Lib := Demo.library)
                          (Demo.session_ai (Some Demo.roadmap_csv)))))
        (screen (run (Lib := Demo.library)
                   (Demo.session_ai (Some Demo.roadmap_csv))).2)
    ∧ marks (run (Lib := Demo.library) (Demo.session_ai (Some Demo.roadmap_csv))).2
      = PIPELINE.
Proof.
  apply (C5_pipeline_order_on_valid_file (Lib := Demo.library)
           (Demo.session_ai (Some Demo.roadmap_csv))).
  vm_compute; reflexivity.
Defined.

(** C5 as stated fails: with no file in the upload widget the run stops
    before its first section and draws neither table nor chart, so not
    every run goes through the pipeline; on a file with a header and no
    data the run goes through every section and draws no chart at all,
    each panel showing its notice; and on a file whose status column is
    blank the run ends in the exception of [.str], in the section of the
    derived columns, before any filter is drawn. *)
Lemma C5_counterexample :
  run (Lib := Demo.library) (Demo.session_with None)
  = (Stopped, paint (PAGE_TOP ++ [Info UPLOAD_FIRST]) (fresh (Demo.session_with None)))
  ∧ marks (run (Lib := Demo.library) (Demo.session_with None)).2 = []
  ∧ ¬ (∀ w, marks (run (Lib := Demo.library) w).2 = PIPELINE)
  ∧ marks (run (Lib := Demo.library)
             (Demo.session_with (Some Demo.header_only_csv))).2 = PIPELINE
  ∧ filter (fun e => is_chart e = true)
      (screen (run (Lib := Demo.library)
                 (Demo.session_with (Some Demo.header_only_csv))).2) = []
  ∧ run (Lib := Demo.library) (Demo.session_with (Some Demo.blank_status_csv))
    = (Failed "Can only use .str accessor with string values!",
       note [ReadInput; ValidateColumns; ParseDates; DeriveHelpers]
         (paint PAGE_TOP (fresh (Demo.session_with (Some Demo.blank_status_csv))))).
Proof.
  split; [vm_compute; reflexivity |]. split; [vm_compute; reflexivity |].
  split.
  - intros H. specialize (H (Demo.session_with None)).
    vm_compute in H. discriminate H.
  - repeat split; vm_compute; reflexivity.
Qed.

Lemma C6_witness :
  ∃ w', run (Lib := Demo.library) (Demo.session_with (Some Demo.broken_csv))
        = (Stopped, w')
    ∧ screen w' = (PAGE_TOP
                   ++ [Error ("Could not read file: "
                              ++ "No columns to parse from file")])%list
    ∧ marks w' = [ReadInput].
Proof.
  apply (C6_unreadable_file_stops (Lib := Demo.library) _ Demo.broken_csv).
  - vm_compute; reflexivity.
  - left. split.
    + exists "Broken", ".CSV". split; [reflexivity |].
      cbn. repeat split; first [by left | right; left; split; reflexivity].
    + vm_compute; reflexivity.
Defined.

Lemma C8_witness :
  (∀ r, r ∈ rows roadmap_table →
     ∃ b, r !! "OnTime" = Some (CBool b)
          ∧ (b = true → r !! "Completed" = Some (CBool true))
          ∧ (r !! "ActualEnd" = Some CNA ∨ r !! "PlannedEnd" = Some CNA
             → b = false))
  ∧ (∀ r0, r0 ∈ rows (Demo.frame_of Demo.roadmap_csv) →
       not_a_date (Lib := Demo.library)
         (column (cell_at "ActualEnd") (rows (Demo.frame_of Demo.roadmap_csv)))
         (cell_at "ActualEnd" r0)
       ∨ not_a_date (Lib := Demo.library)
           (column (cell_at "PlannedEnd") (rows (Demo.frame_of Demo.roadmap_csv)))
           (cell_at "PlannedEnd" r0) →
       derived_row (parsed_row (Lib := Demo.library)
                      (Demo.frame_of Demo.roadmap_csv) r0) ∈ rows roadmap_table
       ∧ derived_row (parsed_row (Lib := Demo.library)
                        (Demo.frame_of Demo.roadmap_csv) r0) !! "OnTime"
         = Some (CBool false))
  ∧ (∀ sel fd k, apply_filters roadmap_table sel = Ok fd →
       compute_kpis (Lib := Demo.library) fd = Ok k →
       (rows fd ≠ [] →
          ontime k
          = Some (py_round (Library := Demo.library)
                    (PrimFloat.mul 100
                       (PrimFloat.div
                          (float_of_nat (count_true (cell_at "OnTime") (rows fd)))
                          (float_of_nat (length (rows fd))))) 1))
       ∧ (count_true (cell_at "OnTime") (rows fd)
          ≤ length (filter (fun r => has_all ["ActualEnd"; "PlannedEnd"] r = true)
                      (rows fd)))%nat)
  ∧ (∀ s w', run (Lib := Demo.library) (Demo.session_with (Some Demo.roadmap_csv))
             = (Done s, w') →
       df s = roadmap_table
       ∧ apply_filters roadmap_table
           (chosen (Demo.session_with (Some Demo.roadmap_csv))) = Ok (fdf s)
       ∧ compute_kpis (Lib := Demo.library) (fdf s) = Ok (kpi s)).
Proof.
  apply (C8_ontime_false_without_dates (Lib := Demo.library)
           (Demo.session_with (Some Demo.roadmap_csv)) Demo.roadmap_csv
           (Demo.frame_of Demo.roadmap_csv) roadmap_table);
    vm_compute; reflexivity.
Defined.

(** On the sample roadmap one of three initiatives is on time: the one
    that ended late and the one without an end date both count against
    the percentage. *)
Example roadmap_ontime :
  ontime (kpi (finished (run (Lib := Demo.library)
                           (Demo.session_with (Some Demo.roadmap_csv)))))
  = Some (PrimFloat.mul 100 (PrimFloat.div 1 3)).
Proof. vm_compute. reflexivity. Qed.

(** The sample with an end date that is no date: the run completes, and the
    first initiative has a missing planned end and is not on time. *)
Example bad_date_run :
  match (run (Lib := Demo.library) (Demo.session_with (Some Demo.bad_date_csv))).1 with
  | Done s => (fun r : row => (r !! "PlannedEnd", r !! "OnTime")) <$> rows (df s)
  | _ => []
  end
  = [ (Some CNA, Some (CBool false));
      (Some (CTime {| instant := 20250630; aware := false |}), Some (CBool true)) ].
Proof. vm_compute. reflexivity. Qed.


Lemma C10_witness :
  ∃ k, compute_kpis (Lib := Demo.library) Demo.empty_table = Ok k
    ∧ planned_vs_completed k = "0/0"
    ∧ total_rev k = 0%float
    ∧ total_effort k = 0%float
    ∧ avg_breakeven k = 0%float
    ∧ ontime k = None
    ∧ metrics (Lib := Demo.library) k !! 2%nat = Some ("On-Time Delivery %", "N/A").
Proof.
  apply (C10_empty_table_defaults (Lib := Demo.library) Demo.empty_table).
  - listed.
  - listed.
  - reflexivity.
Defined.

(** A header with no data goes through the whole pipeline and shows the
    default tiles. *)
Example header_only_run :
  match run (Lib := Demo.library) (Demo.session_with (Some Demo.header_only_csv)) with
  | (Done s, w') => (kpi s, marks w', filter (fun e => is_panel e = true) (screen w'))
  | (_, w') => (NO_DATA, marks w', [])
  end
  = (NO_DATA, PIPELINE,
     [ Info "Revenue chart: no data after filters.";
       Info "On-time trend: need PlannedEnd dates.";
       Info "Completed-by-Category chart: no completed items after filters.";
       Info "Effort vs Revenue: need Effort & Revenue values.";
       Info "No Planned dates available for timeline." ]).
Proof. vm_compute. reflexivity. Qed.

(** A date column that mixes dates with and without time zone: the run
    ends in date parsing, with the header on the page and nothing else. *)
Example mixed_zone_run :
  run (Lib := Demo.library) (Demo.session_with (Some Demo.mixed_zone_csv))
  = (Failed "Mixed timezones detected",
     note [ReadInput; ValidateColumns; ParseDates]
       (paint PAGE_TOP (fresh (Demo.session_with (Some Demo.mixed_zone_csv))))).
Proof. vm_compute. reflexivity. Qed.

(** Actual dates with a time zone against planned dates without: both
    columns are parsed, and the run ends in their comparison. *)
Example zoned_actual_run :
  run (Lib := Demo.library) (Demo.session_with (Some Demo.zoned_actual_csv))
  = (Failed "Cannot compare tz-naive and tz-aware datetime-like objects",
     note [ReadInput; ValidateColumns; ParseDates; DeriveHelpers]
       (paint PAGE_TOP (fresh (Demo.session_with (Some Demo.zoned_actual_csv))))).
Proof. vm_compute. reflexivity. Qed.

(** A revenue that is no number: the run ends where the KPIs are computed,
    with the filters on the page and no tile. *)
Example text_revenue_run :
  match run (Lib := Demo.library) (Demo.session_with (Some Demo.text_revenue_csv)) with
  | (Failed e, w') => (e, marks w', length (screen w') - length PAGE_TOP)%nat
  | (_, w') => ("", marks w', 0%nat)
  end
  = ("could not convert string to float",
     [ReadInput; ValidateColumns; ParseDates; DeriveHelpers; ApplyFilters; ComputeKPIs],
     5%nat).
Proof. vm_compute. reflexivity. Qed.

(** A missing bubble size: the run ends in the fourth chart panel, with
    the three panels before it on the page and no timeline. *)
Example no_breakeven_run :
  match run (Lib := Demo.library) (Demo.session_with (Some Demo.no_breakeven_csv)) with
  | (Failed e, w') =>
      (e, length (filter (fun e => is_chart e = true) (screen w')),
       last (marks w'))
  | (_, w') => ("", 0%nat, None)
  end
  = ("Invalid element(s) received for the 'size' property of scatter.marker",
     3%nat, Some RenderChart).
Proof. vm_compute. reflexivity. Qed.

(** Planned start dates with a time zone next to planned end dates without
    one: the run ends in the timeline, below its toggle, with the four
    chart panels on the page; with the toggle on "Actual" the same file
    gives a complete page. *)
Example zoned_start_run :
  match run (Lib := Demo.library) (Demo.session_with (Some Demo.zoned_start_csv)) with
  | (Failed e, w') =>
      (e, length (filter (fun e => is_chart e = true) (screen w')),
       last (screen w'), last (marks w'))
  | (_, w') => ("", 0%nat, None, None)
  end
  = ("Cannot subtract tz-naive and tz-aware datetime-like objects",
     4%nat, Some (Radio "Show timeline for:" ["Planned"; "Actual"]),
     Some RenderTimeline)
  ∧ match run (Lib := Demo.library) (Demo.session_ai (Some Demo.zoned_start_csv)) with
    | (Done _, w') => last (screen w') = Some (Caption TIP)
    | _ => False
    end.
Proof. split; vm_compute; reflexivity. Qed.

(** * Further properties of the script *)

Section Outcomes.
Context `{Lib : Library}.

Lemma accepted_cases w :
  accepted w ∨ uploaded w = None
  ∨ (∃ f, uploaded w = Some f ∧ ¬ accepted w
          ∧ ((∃ e, read f = inl e) ∨ ∃ raw, read f = inr raw ∧ missing raw ≠ [])).
Proof.
  destruct (run_cases w)
    as [H | [(f & e & H & E) | [(f & raw & H & E & Hm) | (f & raw & H & E & Hm)]]].
  - right; by left.
  - right; right. exists f. split; [done |]. split; [| left; by exists e].
    intros (f' & raw & H' & E' & _). congruence.
  - right; right. exists f. split; [done |]. split; [| right; by exists raw].
    intros (f' & raw' & H' & E' & Hm'). congruence.
  - left. by exists f, raw.
Qed.

(** X1.  A run stops at [st.stop()] exactly when the uploaded file is not
    accepted (no file is there, or it cannot be read, or it lacks a
    required column).  On an accepted file the run ends normally or in a
    library call that raises.  No run ends in an uncaught [KeyError]: each
    column the script looks up after the check is a required column or
    one it has derived itself. *)
Theorem X1_run_outcomes w :
  match (run w).1 with
  | Done _ => accepted w
  | Stopped => ¬ accepted w
  | Raised _ => False
  | Failed _ => accepted w
  end.
Proof.
  destruct (run_cases w)
    as [H | [(f & e & H & E) | [(f & raw & H & E & Hm) | (f & raw & H & E & Hm)]]].
  - rewrite (run_no_upload _ H). intros (f & raw & H' & _). congruence.
  - rewrite (run_unreadable _ _ _ H E). intros (f' & raw & H' & E' & _). congruence.
  - rewrite (run_missing _ _ _ H E Hm). intros (f' & raw' & H' & E' & Hm'). congruence.
  - pose proof (run_accepted_outcome w f raw H E Hm) as Ho.
    assert (accepted w) as Ha by (by exists f, raw).
    by destruct (run w).1.
Qed.

Lemma stopped_iff w : (run w).1 = Stopped ↔ ¬ accepted w.
Proof.
  destruct (run_cases w)
    as [H | [(f & e & H & E) | [(f & raw & H & E & Hm) | (f & raw & H & E & Hm)]]].
  - rewrite (run_no_upload _ H). split; [| done].
    intros _ (f & raw & H' & _). congruence.
  - rewrite (run_unreadable _ _ _ H E). split; [| done].
    intros _ (f' & raw & H' & E' & _). congruence.
  - rewrite (run_missing _ _ _ H E Hm). split; [| done].
    intros _ (f' & raw' & H' & E' & Hm'). congruence.
  - pose proof (run_accepted_outcome w f raw H E Hm) as Ho. split.
    + intros Es. by rewrite Es in Ho.
    + intros Hn. destruct Hn. by exists f, raw.
Qed.

(** X2.  Every run, whatever the upload widget holds, first draws the page
    header, the sidebar help and the upload widget, in that order.  A run
    that stops draws one more element, its hint or error; a run that ends
    normally draws the closing tip last. *)
Theorem X2_page_starts_with_header w :
  ∃ rest, screen (run w).2 = (PAGE_TOP ++ rest)%list
    ∧ match (run w).1 with
      | Stopped => ∃ e, rest = [e]
      | Done _ => last rest = Some (Caption TIP)
      | _ => True
      end.
Proof.
  destruct (run_cases w)
    as [H | [(f & e & H & E) | [(f & raw & H & E & Hm) | (f & raw & H & E & Hm)]]].
  - rewrite (run_no_upload _ H). eexists. split; [reflexivity |]. by eexists.
  - rewrite (run_unreadable _ _ _ H E). eexists. split; [reflexivity |]. by eexists.
  - rewrite (run_missing _ _ _ H E Hm). eexists. split; [reflexivity |]. by eexists.
  - pose proof (run_accepted w f raw H E Hm) as Hw. unfold wp in Hw.
    fold (run w) in Hw.
    destruct (run w) as [[s | | c' | e] w']; [| done | done |].
    + destruct Hw as (es & _ & _ & _ & _ & _ & Hp & ->).
      destruct Hp as (o1 & o2 & o3 & o4 & o5 & c1 & c2 & c3 & c4 & tl
                      & _ & _ & _ & _ & _ & _ & _ & _ & _ & _ & ->).
      eexists. split; [reflexivity |]. reflexivity.
    + destruct Hw as (es & Hs & _). by exists es.
Qed.

Lemma error_after_top e :
  Exists (fun x => is_error x = true) (PAGE_TOP ++ [e]) ↔ is_error e = true.
Proof.
  rewrite Exists_app, Exists_cons, Exists_nil. split; [| tauto].
  intros [Hex | [He | []]]; [| done].
  rewrite Exists_exists in Hex. destruct Hex as (x & Hx & Hxe).
  pose proof page_top_no_error as Hf. rewrite Forall_forall in Hf.
  apply Hf in Hx. congruence.
Qed.

(** X3.  The page of a run holds an error box exactly when a file was
    uploaded and is not accepted (it cannot be read, or it lacks a required
    column); a run without a file shows a hint, not an error, and an
    accepted file never produces one. *)
Theorem X3_error_box_iff_rejected w :
  Exists (fun e => is_error e = true) (screen (run w).2)
  ↔ (∃ f, uploaded w = Some f) ∧ ¬ accepted w.
Proof.
  destruct (run_cases w)
    as [H | [(f & e & H & E) | [(f & raw & H & E & Hm) | (f & raw & H & E & Hm)]]].
  - rewrite (run_no_upload _ H).
    change (screen (_, paint ?es (fresh w)).2) with es.
    rewrite error_after_top. split; [done |].
    intros [(f & Hf) _]. congruence.
  - rewrite (run_unreadable _ _ _ H E).
    change (screen (_, note _ (paint ?es (fresh w))).2) with es.
    rewrite error_after_top. split; [| done].
    intros _. split; [by exists f |].
    intros (f' & raw & H' & E' & _). congruence.
  - rewrite (run_missing _ _ _ H E Hm).
    change (screen (_, note _ (paint ?es (fresh w))).2) with es.
    rewrite error_after_top. split; [| done].
    intros _. split; [by exists f |].
    intros (f' & raw' & H' & E' & Hm'). congruence.
  - destruct (run_accepted_page w f raw H E Hm) as (es & -> & Hq).
    split.
    + intros Hex. exfalso.
      assert (Forall (fun e => is_error e = false) (PAGE_TOP ++ es)) as Hall
        by (apply Forall_app; split; [apply page_top_no_error | done]).
      rewrite Exists_exists in Hex. destruct Hex as (e & He & Hee).
      rewrite Forall_forall in Hall. apply Hall in He. congruence.
    + intros [_ Hn]. destruct Hn. by exists f, raw.
Qed.

End Outcomes.

(** X4.  With no file in the upload widget the run shows the header, the
    upload widget and the hint to upload a file, and stops before reading:
    the page and the outcome are the same whatever the readers and the
    other library functions would do. *)
Theorem X4_no_upload_reads_nothing (L1 L2 : Library) w :
  uploaded w = None →
  run (Lib := L1) w = run (Lib := L2) w
  ∧ (run (Lib := L1) w).1 = Stopped
  ∧ screen (run (Lib := L1) w).2 = (PAGE_TOP ++ [Info UPLOAD_FIRST])%list.
Proof.
  intros H. rewrite !(run_no_upload _ H). done.
Qed.

Lemma required_nodup : NoDup REQUIRED_COLUMNS.
Proof. refine (bool_decide_unpack _ _). vm_compute. exact I. Qed.

(** X5.  The list of missing columns that the error message prints holds
    exactly the required columns that the file lacks, each once and in the
    order of [REQUIRED_COLUMNS]; columns of the file that are not required
    play no part. *)
Theorem X5_missing_lists_absent_columns df :
  (∀ c, c ∈ missing df ↔ c ∈ REQUIRED_COLUMNS ∧ c ∉ columns df)
  ∧ NoDup (missing df)
  ∧ missing df `sublist_of` REQUIRED_COLUMNS.
Proof.
  unfold missing. split; [| split].
  - intros c. rewrite list_elem_of_filter. tauto.
  - apply NoDup_filter, required_nodup.
  - apply sublist_filter.
Qed.

Section KeptData.
Context `{Lib : Library}.

(** X6.  The validated table (what date parsing and the derivation of the
    flags return on a file with all required columns, when no library
    call in them raises) keeps the file's data: it has the file's columns
    followed by [Completed] and [OnTime] (each appended only if the file
    has no column of that name), the same number of rows in the same
    order, and in every row each cell outside the four date columns and
    the two flags is the cell of the file. *)
Theorem X6_table_keeps_file_data raw d :
  missing raw = [] → parse_dates raw ≫= derive = Ok d →
  columns d = add_column "OnTime" (add_column "Completed" (columns raw))
  ∧ length (rows d) = length (rows raw)
  ∧ ∀ i r0, rows raw !! i = Some r0 →
      ∃ r, rows d !! i = Some r
           ∧ ∀ c, c ∉ DATE_COLUMNS → c ≠ "Completed" → c ≠ "OnTime" →
                  r !! c = r0 !! c.
Proof.
  intros Hm Ed.
  rewrite (validated_table raw d Hm Ed). cbn [columns rows].
  split; [reflexivity |]. split; [by rewrite !length_fmap |].
  intros i r0 Hi. exists (derived_row (parsed_row raw r0)). split.
  - by rewrite !list_lookup_fmap, Hi.
  - intros c H1 H2 H3. by rewrite derived_row_other, parsed_row_other.
Qed.

End KeptData.

(** ** Filtering *)

Lemma getitem_same_columns df df' c :
  columns df = columns df' → getitem df c = getitem df' c.
Proof. intros E. unfold getitem. by rewrite E. Qed.

Lemma refine_mask_same_columns df df' c sel mask :
  columns df = columns df' → refine_mask df c sel mask = refine_mask df' c sel mask.
Proof.
  intros E. unfold refine_mask. destruct sel; [done |].
  by rewrite (getitem_same_columns df df' c E).
Qed.

Lemma build_mask_same_columns df df' f :
  columns df = columns df' → build_mask df f = build_mask df' f.
Proof.
  intros E. unfold build_mask.
  rewrite (refine_mask_same_columns df df' "Track" _ _ E).
  destruct (refine_mask df' "Track" _ _) as [m1 | |]; [rewrite !ok_bind | done ..].
  rewrite (refine_mask_same_columns df df' "Category" _ _ E).
  destruct (refine_mask df' "Category" _ _) as [m2 | |]; [rewrite !ok_bind | done ..].
  rewrite (refine_mask_same_columns df df' "Module" _ _ E).
  destruct (refine_mask df' "Module" _ _) as [m3 | |]; [rewrite !ok_bind | done ..].
  rewrite (refine_mask_same_columns df df' "Quarter" _ _ E).
  destruct (refine_mask df' "Quarter" _ _) as [m4 | |]; [rewrite !ok_bind | done ..].
  apply (refine_mask_same_columns df df' "Status" _ _ E).
Qed.

(** A filter step does not fail, or fails on its own absent column. *)
Lemma refine_mask_cases df c sel mask :
  match refine_mask df c sel mask with
  | Ok _ => True
  | KeyError c' => c' = c ∧ (c ∉ columns df) ∧ sel ≠ []
  | LibraryError _ => False
  end.
Proof.
  unfold refine_mask, getitem. destruct sel as [| v sel]; [done |].
  case_decide; [done |]. done.
Qed.

Lemma build_mask_cases df f :
  match build_mask df f with
  | Ok _ => True
  | KeyError c => c ∈ FILTER_COLUMNS ∧ (c ∉ columns df) ∧ selected f c ≠ []
  | LibraryError _ => False
  end.
Proof.
  unfold build_mask.
  pose proof (refine_mask_cases df "Track" (track_f f) (fun _ => true)) as H1.
  destruct (refine_mask df "Track" _ _) as [m1 | c1 | e1];
    [| destruct H1 as (-> & ? & ?); split; [listed | done] | done].
  rewrite ok_bind.
  pose proof (refine_mask_cases df "Category" (cat_f f) m1) as H2.
  destruct (refine_mask df "Category" _ _) as [m2 | c2 | e2];
    [| destruct H2 as (-> & ? & ?); split; [listed | done] | done].
  rewrite ok_bind.
  pose proof (refine_mask_cases df "Module" (mod_f f) m2) as H3.
  destruct (refine_mask df "Module" _ _) as [m3 | c3 | e3];
    [| destruct H3 as (-> & ? & ?); split; [listed | done] | done].
  rewrite ok_bind.
  pose proof (refine_mask_cases df "Quarter" (qtr_f f) m3) as H4.
  destruct (refine_mask df "Quarter" _ _) as [m4 | c4 | e4];
    [| destruct H4 as (-> & ? & ?); split; [listed | done] | done].
  rewrite ok_bind.
  pose proof (refine_mask_cases df "Status" (status_f f) m4) as H5.
  destruct (refine_mask df "Status" _ _) as [m5 | c5 | e5];
    [done | destruct H5 as (-> & ? & ?); split; [listed | done] | done].
Qed.

(** X7.  Filtering gives a table with the same columns whose rows are rows
    of the table in their order (none added, changed or moved).  It fails,
    with [KeyError], only on a filter field that the table lacks while its
    selection is not empty: an empty selection never looks its column up.
    It makes no library call that raises. *)
Theorem X7_filter_result df f :
  match apply_filters df f with
  | Ok fd => columns fd = columns df ∧ rows fd `sublist_of` rows df
  | KeyError c => c ∈ FILTER_COLUMNS ∧ (c ∉ columns df) ∧ selected f c ≠ []
  | LibraryError _ => False
  end.
Proof.
  unfold apply_filters. pose proof (build_mask_cases df f) as H.
  destruct (build_mask df f) as [mask | c | e]; [| done ..].
  rewrite ok_bind, ok_ret. split; [done |]. apply sublist_filter.
Qed.

(** X8.  Filtering is idempotent: applying the same selections to the
    filtered table gives the filtered table again. *)
Theorem X8_filter_idempotent df f :
  match apply_filters df f with
  | Ok fd => apply_filters fd f = Ok fd
  | KeyError _ => True
  | LibraryError _ => False
  end.
Proof.
  unfold apply_filters. pose proof (build_mask_cases df f) as H.
  destruct (build_mask df f) as [mask | c | e] eqn:E; [| done ..].
  rewrite ok_bind, ok_ret.
  rewrite (build_mask_same_columns (select df mask) df f eq_refl), E, ok_bind, ok_ret.
  f_equal. unfold select; cbn [columns rows]. f_equal.
  apply filter_all. intros r Hr. by apply list_elem_of_filter in Hr as [Hr _].
Qed.

(** ** The KPI counts *)

Section Counts.
Context `{Lib : Library}.

(** X9.  In every run that ends normally the tile "Initiatives Completed /
    Total" counts rows of the filtered table: the total is its number of
    rows and is at most the number of rows of the uploaded file; the
    completed count is the number of rows whose [Completed] flag is set,
    is at most the total, and is at least the number of on-time rows. *)
Theorem X9_kpi_counts w s w' :
  run w = (Done s, w') →
  total (kpi s) = length (rows (fdf s))
  ∧ completed (kpi s) = count_true (cell_at "Completed") (rows (fdf s))
  ∧ (count_true (cell_at "OnTime") (rows (fdf s)) ≤ completed (kpi s))%nat
  ∧ (completed (kpi s) ≤ total (kpi s))%nat
  ∧ ∃ f raw, uploaded w = Some f ∧ read f = inr raw
             ∧ (total (kpi s) ≤ length (rows raw))%nat.
Proof.
  intros E.
  destruct (run_done w s w' E)
    as (f & raw & es & Hu & Hr & Hm & Ed & _ & Ef & Ek & _).
  destruct (filtered_kpis raw _ _ _ _ Hm Ed Ef Ek) as (Et & Ec & _).
  rewrite Et, Ec.
  split; [done |]. split; [done |]. split; [| split].
  - unfold count_true. apply filter_length_le. intros r Hin Ho.
    destruct (filtered_flag raw _ _ _ r Hm Ed Ef Hin) as (b & Eb & Hb).
    unfold cell_at in *. rewrite Eb in Ho. cbn in Ho.
    destruct (Hb Ho) as [Hc _]. by rewrite Hc.
  - unfold count_true. apply length_filter.
  - exists f, raw. split; [done |]. split; [done |].
    pose proof (filtered_sublist _ _ _ Ef) as Hs. apply sublist_length in Hs.
    rewrite (validated_table raw _ Hm Ed) in Hs. cbn [rows] in Hs.
    by rewrite !length_fmap in Hs.
Qed.

Lemma percent_is_not_na s : s ++ "%" ≠ "N/A".
Proof.
  destruct s as [| a [| b [| c [| d s]]]]; cbn; discriminate.
Qed.

(** X10.  In every run that ends normally the on-time percentage is
    [None], and its tile reads "N/A", exactly when the filtered table has
    no rows: a table with rows always gets a number, also when no row has
    dates. *)
Theorem X10_ontime_none_iff_empty w s w' :
  run w = (Done s, w') →
  (ontime (kpi s) = None ↔ rows (fdf s) = [])
  ∧ (metrics (kpi s) !! 2%nat = Some ("On-Time Delivery %", "N/A")
     ↔ rows (fdf s) = []).
Proof.
  intros E.
  destruct (run_done w s w' E)
    as (f & raw & es & Hu & Hr & Hm & Ed & _ & Ef & Ek & _).
  destruct (filtered_kpis raw _ _ _ _ Hm Ed Ef Ek) as (_ & _ & Eo).
  assert (ontime (kpi s) = None ↔ rows (fdf s) = []) as Hiff
    by (rewrite Eo; by destruct (rows (fdf s))).
  split; [exact Hiff |]. rewrite <- Hiff.
  unfold metrics. cbn [lookup list_lookup]. destruct (ontime (kpi s)) as [x |].
  - split; [| done]. intros [= Hx]. by apply percent_is_not_na in Hx.
  - done.
Qed.

End Counts.

(** ** The chart panels *)

Section Panels.
Context `{Lib : Library}.

(** X11.  The on-time trend panel draws its line chart exactly when some row
    of the filtered table has a planned end date, and shows its notice
    otherwise.  The chart plots [OnTimePct] against [QKey] over a frame with
    the columns QKey, OnTime and OnTimePct. *)
Theorem X11_trend_panel fd :
  "PlannedEnd" ∈ columns fd → "OnTime" ∈ columns fd →
  ∃ e, shows (trend_chart fd) e
    ∧ (is_chart e = true ↔ ∃ r, r ∈ rows fd ∧ cell_at "PlannedEnd" r ≠ CNA)
    ∧ (is_chart e = true →
         ∃ trend, e = PlotlyChart (PxLine trend "QKey" "OnTimePct" true
                                     "On-Time Delivery Trend (%)")
                  ∧ columns trend = ["QKey"; "OnTime"; "OnTimePct"])
    ∧ (is_chart e = false → e = Info "On-time trend: need PlannedEnd dates.").
Proof.
  intros Hp Ho.
  assert (∀ r, has_all ["PlannedEnd"] r = true ↔ cell_at "PlannedEnd" r ≠ CNA) as Hall.
  { intros r. unfold has_all. cbn. rewrite andb_true_r.
    destruct (cell_at "PlannedEnd" r); cbn; split; done. }
  assert ((∃ r, r ∈ rows fd ∧ cell_at "PlannedEnd" r ≠ CNA)
          ↔ filter (fun r => has_all ["PlannedEnd"] r = true) (rows fd) ≠ []) as Hex.
  { rewrite filter_nonempty. split; intros (r & Hr & H); exists r; split; try done;
      by apply Hall. }
  unfold trend_chart. rewrite dropna_rows, lift_ok_bind
    by (intros c Hc; each_label Hc; done).
  match goal with |- context [empty ?d] => set (tmp := d) end.
  pose proof (empty_rows tmp (columns_nonempty _ _ Hp)) as He.
  destruct (empty tmp) eqn:E.
  - eexists. split; [intros w; reflexivity |]. cbn.
    split; [| done]. split; [done |]. intros H. apply Hex in H.
    destruct H. by apply He.
  - destruct (ontime_trend_ok tmp Hp Ho) as (trend & Et & Ec).
    rewrite Et, lift_ok_bind.
    eexists. split; [intros w; reflexivity |]. cbn [is_chart].
    split; [| split; [| done]].
    + split; [| done]. intros _. apply Hex. intros Hnil.
      apply He in Hnil. congruence.
    + intros _. by exists trend.
Qed.

(** X12.  The effort-revenue panel shows its notice when no row of the
    filtered table has both an effort and a revenue.  Otherwise it hands
    [px.scatter] exactly the rows that have both, in their order; a row is
    not dropped for lacking break-even months, the column that sizes the
    bubbles.  The chart is drawn when [px.scatter] returns, and when it
    raises the run ends there with nothing drawn in the panel. *)
Theorem X12_bubble_panel fd :
  "Effort" ∈ columns fd → "Revenue" ∈ columns fd →
  let bub := {| columns := columns fd;
                rows := filter (fun r => has_all ["Effort"; "Revenue"] r = true)
                          (rows fd) |} in
  match rows bub, raises (Scatter bub) with
  | [], _ =>
      shows (bubble_chart fd) (Info "Effort vs Revenue: need Effort & Revenue values.")
  | _ :: _, None =>
      shows (bubble_chart fd)
        (PlotlyChart
           (PxScatter bub "Effort" "Revenue" "BreakEvenMonths" "Category" "Initiative"
              "Effort vs Revenue (bubble = BreakEven months)"))
  | _ :: _, Some e => ∀ w, bubble_chart fd w = (Failed e, w)
  end.
Proof.
  intros He Hr bub.
  destruct (bubble_chart_cases fd He Hr) as [_ Hb]. fold bub in Hb.
  pose proof (empty_rows bub (columns_nonempty _ _ He)) as Hem.
  destruct (rows bub) as [| r rs] eqn:Er.
  - destruct Hem as [_ Hem]. by rewrite Hem in Hb.
  - destruct (empty bub); [destruct Hem as [Hem _]; by specialize (Hem eq_refl) |].
    exact Hb.
Qed.

(** X13.  The timeline always draws its heading and its toggle.  With the
    toggle on "Planned" it uses the planned dates, on any other value the
    actual dates.  It shows the notice of that choice when no row of the
    filtered table has both dates.  Otherwise it hands [px.timeline] exactly
    the rows that have both, in their order, so no bar lacks a start or an
    end.  The Gantt chart is drawn when [px.timeline] returns, and when it
    raises the run ends there, below the toggle. *)
Theorem X13_timeline_panel fd w :
  "PlannedStart" ∈ columns fd → "PlannedEnd" ∈ columns fd →
  "ActualStart" ∈ columns fd → "ActualEnd" ∈ columns fd →
  let planned := String.eqb (radio_value w) "Planned" in
  let cs := if planned
            then ("PlannedStart", "PlannedEnd") else ("ActualStart", "ActualEnd") in
  let tl := {| columns := columns fd;
               rows := filter (fun r => has_all [cs.1; cs.2] r = true) (rows fd) |} in
  match rows tl, raises (Timeline tl cs.1 cs.2) with
  | [], _ =>
      timeline fd w
      = (Done (),
         paint [Subheader "🗓️ Timeline (Gantt)";
                Radio "Show timeline for:" ["Planned"; "Actual"];
                Info (if planned then "No Planned dates available for timeline."
                      else "No Actual dates available for timeline.")] w)
  | _ :: _, None =>
      timeline fd w
      = (Done (),
         paint [Subheader "🗓️ Timeline (Gantt)";
                Radio "Show timeline for:" ["Planned"; "Actual"];
                PlotlyChart
                  (PxTimeline tl cs.1 cs.2 "Initiative" "Status"
                     ["Quarter"; "Category"; "Track"] "reversed")] w)
  | _ :: _, Some e =>
      timeline fd w
      = (Failed e,
         paint [Subheader "🗓️ Timeline (Gantt)";
                Radio "Show timeline for:" ["Planned"; "Actual"]] w)
  end.
Proof.
  intros H1 H2 H3 H4 planned cs tl.
  destruct (timeline_cases fd w H1 H2 H3 H4) as [_ Ht].
  fold planned in Ht. fold cs in Ht. fold tl in Ht.
  pose proof (empty_rows tl (columns_nonempty _ _ H1)) as Hem.
  destruct (rows tl) as [| r rs] eqn:Er.
  - destruct Hem as [_ Hem]. by rewrite Hem in Ht.
  - destruct (empty tl); [destruct Hem as [Hem _]; by specialize (Hem eq_refl) |].
    exact Ht.
Qed.

End Panels.

(** ** The grouped charts *)

Lemma has_all_keys keys r :
  forallb notna (key_of (cell_at <$> keys) r) = has_all keys r.
Proof.
  unfold has_all, key_of. induction keys as [| c keys IH]; [done |].
  cbn. by rewrite IH.
Qed.

Lemma distinct_keys_nil ks : distinct_keys ks = [] ↔ ks = [].
Proof. by destruct ks. Qed.

Lemma fmap_is_nil {A B} (g : A → B) (l : list A) : g <$> l = [] ↔ l = [].
Proof. by destruct l. Qed.

(** The groups of a table: there is none exactly when no row has a value
    under every key. *)
Lemma groupby_groups keys df :
  (∀ c, c ∈ keys → c ∈ columns df) →
  ∃ gs, groupby keys df = Ok gs
    ∧ (gs = [] ↔ filter (fun r => has_all keys r = true) (rows df) = []).
Proof.
  intros H. unfold groupby. rewrite (mapM_getitem _ _ H), ok_bind, ok_ret.
  eexists. split; [reflexivity |].
  rewrite fmap_is_nil, distinct_keys_nil, fmap_is_nil.
  assert (filter (fun r => forallb notna (key_of (cell_at <$> keys) r) = true) (rows df)
          = filter (fun r => has_all keys r = true) (rows df)) as ->; [| done].
  apply list_filter_iff. intros r. by rewrite has_all_keys.
Qed.

Section Grouped.
Context `{Lib : Library}.
Hypothesis sort_keeps_length :
  ∀ ks rs, length (sort_values ks rs) = length rs.

Lemma aggregate_empty keys c agg gs :
  empty (aggregate keys c agg gs) = true ↔ gs = [].
Proof.
  rewrite empty_rows by (unfold aggregate; cbn; by destruct keys).
  unfold aggregate; cbn [rows]. split.
  - intros E. apply (f_equal length) in E.
    rewrite sort_keeps_length, length_fmap in E. by destruct gs.
  - intros ->. apply nil_length_inv. by rewrite sort_keeps_length.
Qed.

(** X14.  Provided that sorting keeps the number of rows, the revenue panel
    draws its stacked bar chart exactly when some row of the filtered
    table has both a quarter and a track, and shows its notice otherwise;
    a row without a revenue still counts, adding nothing to its bar. *)
Theorem X14_revenue_panel fd :
  "Quarter" ∈ columns fd → "Track" ∈ columns fd → "Revenue" ∈ columns fd →
  ∃ e, shows (revenue_chart fd) e
    ∧ (is_chart e = true ↔ ∃ r, r ∈ rows fd ∧ has_all ["Quarter"; "Track"] r = true)
    ∧ (is_chart e = true →
         ∃ rev, e = PlotlyChart (PxBar rev "Quarter" "Revenue" (Some "Track")
                                   "Revenue Opportunity by Quarter (stacked)")
                ∧ columns rev = ["Quarter"; "Track"; "Revenue"])
    ∧ (is_chart e = false → e = Info "Revenue chart: no data after filters.").
Proof.
  intros Hq Ht Hr. unfold revenue_chart, revenue_by_quarter.
  destruct (groupby_groups ["Quarter"; "Track"] fd) as (gs & -> & Hgs).
  { intros c Hc. each_label Hc; done. }
  rewrite ok_bind, (getitem_in _ _ Hr), ok_bind, ok_ret, lift_ok_bind.
  eexists. split; [apply panel_shows |].
  pose proof (aggregate_empty ["Quarter"; "Track"] "Revenue"
                (fun rs => group_sum (column (cell_at "Revenue") rs)) gs) as He.
  rewrite <- (filter_nonempty (fun r => has_all ["Quarter"; "Track"] r = true)).
  unfold panel_of. destruct (empty _) eqn:E; cbn [is_chart].
  - split; [| done]. split; [done |]. intros Hn. destruct Hn.
    apply Hgs. by apply He.
  - split; [| split; [| done]].
    + split; [| done]. intros _ Hnil. apply Hgs, He in Hnil. congruence.
    + intros _. eexists. split; reflexivity.
Qed.

(** X15.  Provided that sorting keeps the number of rows, the
    completed-by-category panel draws its bar chart exactly when some row
    of the filtered table is completed and has a category, and shows its
    notice otherwise. *)
Theorem X15_category_panel fd :
  "Completed" ∈ columns fd → "Category" ∈ columns fd →
  ∃ e, shows (category_chart fd) e
    ∧ (is_chart e = true ↔
         ∃ r, r ∈ rows fd ∧ truth (cell_at "Completed" r) = true
              ∧ cell_at "Category" r ≠ CNA)
    ∧ (is_chart e = true →
         ∃ comp, e = PlotlyChart (PxBar comp "Category" "size" None
                                    "Initiatives Completed by Category")
                 ∧ columns comp = ["Category"; "size"])
    ∧ (is_chart e = false →
         e = Info "Completed-by-Category chart: no completed items after filters.").
Proof.
  intros Hc Hg. unfold category_chart, completed_by_category.
  rewrite (getitem_in _ _ Hc), ok_bind.
  match goal with
  | |- context [groupby ["Category"] ?t] =>
      destruct (groupby_groups ["Category"] t) as (gs & -> & Hgs)
  end.
  { intros c Hc'. each_label Hc'. done. }
  rewrite ok_bind, ok_ret, lift_ok_bind.
  eexists. split; [apply panel_shows |].
  pose proof (aggregate_empty ["Category"] "size"
                (fun rs => CInt (Z.of_nat (length rs))) gs) as He.
  assert ((∃ r, r ∈ rows fd ∧ truth (cell_at "Completed" r) = true
                ∧ cell_at "Category" r ≠ CNA) ↔ gs ≠ []) as Hex.
  { rewrite Hgs, filter_nonempty. cbn [rows select].
    split.
    - intros (r & Hr & Ht & Hcat). exists r. split.
      + by apply list_elem_of_filter.
      + unfold has_all. cbn. rewrite andb_true_r.
        by destruct (cell_at "Category" r).
    - intros (r & Hr & Hall). apply list_elem_of_filter in Hr as [Ht Hr].
      exists r. split; [done |]. split; [done |].
      unfold has_all in Hall. cbn in Hall. rewrite andb_true_r in Hall.
      intros E. by rewrite E in Hall. }
  rewrite Hex.
  unfold panel_of. destruct (empty _) eqn:E; cbn [is_chart].
  - split; [| done]. split; [done |]. intros Hn. destruct Hn. by apply He.
  - split; [| split; [| done]].
    + split; [| done]. intros _ Hnil. apply He in Hnil. congruence.
    + intros _. eexists. split; reflexivity.
Qed.

End Grouped.

(** ** The widgets and the table *)

Section Widgets.
Context `{Lib : Library}.

(** X16.  The values of the filters and of the timeline toggle decide
    neither whether the uploaded file is accepted, nor whether the run
    stops, nor what the page of a stopped run shows, nor the table that is
    derived from an accepted file: two runs on the same upload agree on
    all four.  (They can differ in whether a later library call raises,
    which depends on the rows the filters keep.) *)
Theorem X16_widgets_leave_table w1 w2 :
  uploaded w1 = uploaded w2 →
  (accepted w1 ↔ accepted w2)
  ∧ ((run w1).1 = Stopped ↔ (run w2).1 = Stopped)
  ∧ ((run w1).1 = Stopped → screen (run w1).2 = screen (run w2).2)
  ∧ (∀ s1 s2, (run w1).1 = Done s1 → (run w2).1 = Done s2 → df s1 = df s2).
Proof.
  intros Hu.
  assert (accepted w1 ↔ accepted w2) as Ha by (unfold accepted; by rewrite Hu).
  split; [exact Ha |]. split; [by rewrite !stopped_iff, Ha |]. split.
  - destruct (run_cases w1)
      as [H | [(f & e & H & E) | [(f & raw & H & E & Hm) | (f & raw & H & E & Hm)]]];
      pose proof H as H'; rewrite Hu in H'.
    + by rewrite (run_no_upload _ H), (run_no_upload _ H').
    + by rewrite (run_unreadable _ _ _ H E), (run_unreadable _ _ _ H' E).
    + by rewrite (run_missing _ _ _ H E Hm), (run_missing _ _ _ H' E Hm).
    + intros Es. apply stopped_iff in Es. destruct Es. by exists f, raw.
  - intros s1 s2 E1 E2.
    destruct (run w1) as [o1 w1'] eqn:R1. destruct (run w2) as [o2 w2'] eqn:R2.
    cbn in E1, E2. subst o1 o2.
    destruct (run_done _ _ _ R1) as (f1 & raw1 & es1 & Hu1 & Hr1 & _ & Ed1 & _).
    destruct (run_done _ _ _ R2) as (f2 & raw2 & es2 & Hu2 & Hr2 & _ & Ed2 & _).
    assert (f1 = f2) as -> by congruence.
    assert (raw1 = raw2) as -> by congruence.
    congruence.
Qed.

End Widgets.

(** * The further properties on sample files *)

Lemma X4_witness :
  run (Lib := Demo.library) (Demo.session_with None)
  = run (Lib := offline_library) (Demo.session_with None)
  ∧ (run (Lib := Demo.library) (Demo.session_with None)).1 = Stopped
  ∧ screen (run (Lib := Demo.library) (Demo.session_with None)).2
    = (PAGE_TOP ++ [Info UPLOAD_FIRST])%list.
Proof.
  apply (X4_no_upload_reads_nothing Demo.library offline_library
           (Demo.session_with None)).
  reflexivity.
Defined.

Lemma X6_witness :
  columns roadmap_table
  = add_column "OnTime"
      (add_column "Completed" (columns (Demo.frame_of Demo.roadmap_csv)))
  ∧ length (rows roadmap_table) = length (rows (Demo.frame_of Demo.roadmap_csv))
  ∧ ∀ i r0, rows (Demo.frame_of Demo.roadmap_csv) !! i = Some r0 →
      ∃ r, rows roadmap_table !! i = Some r
           ∧ ∀ c, c ∉ DATE_COLUMNS → c ≠ "Completed" → c ≠ "OnTime" →
                  r !! c = r0 !! c.
Proof.
  apply (X6_table_keeps_file_data (Lib := Demo.library)
           (Demo.frame_of Demo.roadmap_csv) roadmap_table);
    vm_compute; reflexivity.
Defined.

Lemma X9_witness :
  total (kpi (finished (run (Lib := Demo.library)
                          (Demo.session_ai (Some Demo.roadmap_csv)))))
  = length (rows (fdf (finished (run (Lib := Demo.library)
                                   (Demo.session_ai (Some Demo.roadmap_csv))))))
  ∧ completed (kpi (finished (run (Lib := Demo.library)
                                (Demo.session_ai (Some Demo.roadmap_csv)))))
    = count_true (cell_at "Completed")
        (rows (fdf (finished (run (Lib := Demo.library)
                                (Demo.session_ai (Some Demo.roadmap_csv))))))
  ∧ (count_true (cell_at "OnTime")
       (rows (fdf (finished (run (Lib := Demo.library)
                               (Demo.session_ai (Some Demo.roadmap_csv))))))
     ≤ completed (kpi (finished (run (Lib := Demo.library)
                                   (Demo.session_ai (Some Demo.roadmap_csv))))))%nat
  ∧ (completed (kpi (finished (run (Lib := Demo.library)
                                 (Demo.session_ai (Some Demo.roadmap_csv)))))
     ≤ total (kpi (finished (run (Lib := Demo.library)
                               (Demo.session_ai (Some Demo.roadmap_csv))))))%nat
  ∧ ∃ f raw, uploaded (Demo.session_ai (Some Demo.roadmap_csv)) = Some f
             ∧ read (Lib := Demo.library) f = inr raw
             ∧ (total (kpi (finished (run (Lib := Demo.library)
                                        (Demo.session_ai (Some Demo.roadmap_csv)))))
                ≤ length (rows raw))%nat.
Proof.
  apply (X9_kpi_counts (Lib := Demo.library)
           (Demo.session_ai (Some Demo.roadmap_csv))
           (finished (run (Lib := Demo.library)
                        (Demo.session_ai (Some Demo.roadmap_csv))))
           (run (Lib := Demo.library) (Demo.session_ai (Some Demo.roadmap_csv))).2).
  vm_compute; reflexivity.
Defined.

Lemma X10_witness :
  (ontime (kpi (finished (run (Lib := Demo.library)
                            (Demo.session_with (Some Demo.roadmap_csv))))) = None
   ↔ rows (fdf (finished (run (Lib := Demo.library)
                            (Demo.session_with (Some Demo.roadmap_csv))))) = [])
  ∧ (metrics (Lib := Demo.library)
       (kpi (finished (run (Lib := Demo.library)
                         (Demo.session_with (Some Demo.roadmap_csv))))) !! 2%nat
     = Some ("On-Time Delivery %", "N/A")
     ↔ rows (fdf (finished (run (Lib := Demo.library)
                              (Demo.session_with (Some Demo.roadmap_csv))))) = []).
Proof.
  apply (X10_ontime_none_iff_empty (Lib := Demo.library)
           (Demo.session_with (Some Demo.roadmap_csv))
           (finished (run (Lib := Demo.library)
                        (Demo.session_with (Some Demo.roadmap_csv))))
           (run (Lib := Demo.library) (Demo.session_with (Some Demo.roadmap_csv))).2).
  vm_compute; reflexivity.
Defined.

(** The on-time tile of the sample roadmap holds a number, that of the
    header without data reads N/A. *)
Example ontime_tiles :
  (metrics (Lib := Demo.library)
     (kpi (finished (run (Lib := Demo.library)
                       (Demo.session_with (Some Demo.roadmap_csv))))) !! 2%nat,
   metrics (Lib := Demo.library)
     (kpi (finished (run (Lib := Demo.library)
                       (Demo.session_with (Some Demo.header_only_csv))))) !! 2%nat)
  = (Some ("On-Time Delivery %", "#%"), Some ("On-Time Delivery %", "N/A")).
Proof. vm_compute. reflexivity. Qed.

Lemma X11_witness :
  ∃ e, shows (trend_chart (Lib := Demo.library) roadmap_table) e
    ∧ (is_chart e = true
       ↔ ∃ r, r ∈ rows roadmap_table ∧ cell_at "PlannedEnd" r ≠ CNA)
    ∧ (is_chart e = true →
         ∃ trend, e = PlotlyChart (PxLine trend "QKey" "OnTimePct" true
                                     "On-Time Delivery Trend (%)")
                  ∧ columns trend = ["QKey"; "OnTime"; "OnTimePct"])
    ∧ (is_chart e = false → e = Info "On-time trend: need PlannedEnd dates.").
Proof.
  apply (X11_trend_panel (Lib := Demo.library) roadmap_table); listed.
Defined.

(** The quarters of the sample roadmap's trend. *)
Example roadmap_trend_quarters :
  match ontime_trend (Lib := Demo.library) roadmap_table with
  | Ok trend => (fun r : row => r !! "QKey") <$> rows trend
  | _ => []
  end
  = [Some (CText "2025Q1"); Some (CText "2025Q2")].
Proof. vm_compute. reflexivity. Qed.

Lemma X12_witness :
  match rows {| columns := columns (table_of Demo.no_breakeven_csv);
                rows := filter (fun r => has_all ["Effort"; "Revenue"] r = true)
                          (rows (table_of Demo.no_breakeven_csv)) |},
        raises (Library := Demo.library)
          (Scatter {| columns := columns (table_of Demo.no_breakeven_csv);
                      rows := filter (fun r => has_all ["Effort"; "Revenue"] r = true)
                                (rows (table_of Demo.no_breakeven_csv)) |}) with
  | [], _ =>
      shows (bubble_chart (Lib := Demo.library) (table_of Demo.no_breakeven_csv))
        (Info "Effort vs Revenue: need Effort & Revenue values.")
  | _ :: _, None =>
      shows (bubble_chart (Lib := Demo.library) (table_of Demo.no_breakeven_csv))
        (PlotlyChart
           (PxScatter
              {| columns := columns (table_of Demo.no_breakeven_csv);
                 rows := filter (fun r => has_all ["Effort"; "Revenue"] r = true)
                           (rows (table_of Demo.no_breakeven_csv)) |}
              "Effort" "Revenue" "BreakEvenMonths" "Category" "Initiative"
              "Effort vs Revenue (bubble = BreakEven months)"))
  | _ :: _, Some e =>
      ∀ w, bubble_chart (Lib := Demo.library) (table_of Demo.no_breakeven_csv) w
           = (Failed e, w)
  end.
Proof.
  apply (X12_bubble_panel (Lib := Demo.library) (table_of Demo.no_breakeven_csv));
    listed.
Defined.

(** On the sample with a missing bubble size both rows reach [px.scatter],
    which raises; on the sample roadmap the chart is drawn. *)
Example bubble_samples :
  (bubble_chart (Lib := Demo.library) (table_of Demo.no_breakeven_csv)
     (Demo.session_with None)).1
  = Failed "Invalid element(s) received for the 'size' property of scatter.marker"
  ∧ length (filter (fun r => has_all ["Effort"; "Revenue"] r = true)
              (rows (table_of Demo.no_breakeven_csv))) = 2%nat
  ∧ is_chart <$> screen (bubble_chart (Lib := Demo.library) roadmap_table
                           (Demo.session_with None)).2 = [true].
Proof. repeat split; vm_compute; reflexivity. Qed.

Lemma X13_witness :
  let tl := {| columns := columns (table_of Demo.zoned_start_csv);
               rows := filter (fun r => has_all ["PlannedStart"; "PlannedEnd"] r = true)
                         (rows (table_of Demo.zoned_start_csv)) |} in
  match rows tl, raises (Library := Demo.library) (Timeline tl "PlannedStart" "PlannedEnd") with
  | [], _ =>
      timeline (Lib := Demo.library) (table_of Demo.zoned_start_csv)
        (Demo.session_with None)
      = (Done (),
         paint [Subheader "🗓️ Timeline (Gantt)";
                Radio "Show timeline for:" ["Planned"; "Actual"];
                Info "No Planned dates available for timeline."]
           (Demo.session_with None))
  | _ :: _, None =>
      timeline (Lib := Demo.library) (table_of Demo.zoned_start_csv)
        (Demo.session_with None)
      = (Done (),
         paint [Subheader "🗓️ Timeline (Gantt)";
                Radio "Show timeline for:" ["Planned"; "Actual"];
                PlotlyChart
                  (PxTimeline tl "PlannedStart" "PlannedEnd" "Initiative" "Status"
                     ["Quarter"; "Category"; "Track"] "reversed")]
           (Demo.session_with None))
  | _ :: _, Some e =>
      timeline (Lib := Demo.library) (table_of Demo.zoned_start_csv)
        (Demo.session_with None)
      = (Failed e,
         paint [Subheader "🗓️ Timeline (Gantt)";
                Radio "Show timeline for:" ["Planned"; "Actual"]]
           (Demo.session_with None))
  end.
Proof.
  apply (X13_timeline_panel (Lib := Demo.library) (table_of Demo.zoned_start_csv)
           (Demo.session_with None)); listed.
Defined.

(** On the sample whose planned start dates alone carry a time zone both
    rows reach [px.timeline], which raises below the toggle; with the
    toggle on "Actual" the chart is drawn, as it is on the sample
    roadmap. *)
Example timeline_samples :
  timeline (Lib := Demo.library) (table_of Demo.zoned_start_csv) (Demo.session_with None)
  = (Failed "Cannot subtract tz-naive and tz-aware datetime-like objects",
     paint [Subheader "🗓️ Timeline (Gantt)";
            Radio "Show timeline for:" ["Planned"; "Actual"]]
       (Demo.session_with None))
  ∧ is_chart <$> screen (timeline (Lib := Demo.library) (table_of Demo.zoned_start_csv)
                           (Demo.session_ai None)).2 = [false; false; true]
  ∧ is_chart <$> screen (timeline (Lib := Demo.library) roadmap_table
                           (Demo.session_with None)).2 = [false; false; true].
Proof. repeat split; vm_compute; reflexivity. Qed.

Lemma X14_witness :
  ∃ e, shows (revenue_chart (Lib := Demo.library) roadmap_table) e
    ∧ (is_chart e = true
       ↔ ∃ r, r ∈ rows roadmap_table ∧ has_all ["Quarter"; "Track"] r = true)
    ∧ (is_chart e = true →
         ∃ rev, e = PlotlyChart (PxBar rev "Quarter" "Revenue" (Some "Track")
                                   "Revenue Opportunity by Quarter (stacked)")
                ∧ columns rev = ["Quarter"; "Track"; "Revenue"])
    ∧ (is_chart e = false → e = Info "Revenue chart: no data after filters.").
Proof.
  apply (X14_revenue_panel (Lib := Demo.library) (fun _ _ => eq_refl) roadmap_table);
    listed.
Defined.

Lemma X15_witness :
  ∃ e, shows (category_chart (Lib := Demo.library) roadmap_table) e
    ∧ (is_chart e = true ↔
         ∃ r, r ∈ rows roadmap_table ∧ truth (cell_at "Completed" r) = true
              ∧ cell_at "Category" r ≠ CNA)
    ∧ (is_chart e = true →
         ∃ comp, e = PlotlyChart (PxBar comp "Category" "size" None
                                    "Initiatives Completed by Category")
                 ∧ columns comp = ["Category"; "size"])
    ∧ (is_chart e = false →
         e = Info "Completed-by-Category chart: no completed items after filters.").
Proof.
  apply (X15_category_panel (Lib := Demo.library) (fun _ _ => eq_refl) roadmap_table);
    listed.
Defined.

Lemma X16_witness :
  (accepted (Lib := Demo.library) (Demo.session_with (Some Demo.roadmap_csv))
   ↔ accepted (Lib := Demo.library) (Demo.session_ai (Some Demo.roadmap_csv)))
  ∧ ((run (Lib := Demo.library) (Demo.session_with (Some Demo.roadmap_csv))).1 = Stopped
     ↔ (run (Lib := Demo.library) (Demo.session_ai (Some Demo.roadmap_csv))).1 = Stopped)
  ∧ ((run (Lib := Demo.library) (Demo.session_with (Some Demo.roadmap_csv))).1 = Stopped
     → screen (run (Lib := Demo.library) (Demo.session_with (Some Demo.roadmap_csv))).2
       = screen (run (Lib := Demo.library) (Demo.session_ai (Some Demo.roadmap_csv))).2)
  ∧ (∀ s1 s2,
       (run (Lib := Demo.library) (Demo.session_with (Some Demo.roadmap_csv))).1
       = Done s1 →
       (run (Lib := Demo.library) (Demo.session_ai (Some Demo.roadmap_csv))).1
       = Done s2 →
       df s1 = df s2).
Proof.
  apply (X16_widgets_leave_table (Lib := Demo.library)
           (Demo.session_with (Some Demo.roadmap_csv))
           (Demo.session_ai (Some Demo.roadmap_csv))).
  reflexivity.
Defined.

(** On the sample roadmap every panel has data: the page of the run holds
    five figures, the four charts and the timeline. *)
Example roadmap_draws_all_charts :
  length (filter (fun e => is_chart e = true)
            (screen (run (Lib := Demo.library)
                       (Demo.session_with (Some Demo.roadmap_csv))).2)) = 5%nat.
Proof. vm_compute. reflexivity. Qed.

Section Reader.
Context `{Lib : Library}.

(** X17.  The reader is chosen by the file name alone: a name that ends in
    ".csv" in any mix of upper and lower case goes to the CSV reader, and
    every other name, whatever its extension, goes to the Excel reader. *)
Theorem X17_reader_by_name f :
  (Str.ends_with_nocase (name f) ".csv" ∧ read f = read_csv f)
  ∨ (¬ Str.ends_with_nocase (name f) ".csv" ∧ read f = read_excel f).
Proof.
  unfold read. rewrite <- StrFacts.endswith_lower_csv.
  destruct (Str.endswith (Str.lower (name f)) ".csv"); [left | right]; done.
Qed.

End Reader.
